(** * BlueALSA transport core (src/ba-transport.c): model and properties

    The C translation unit is embedded function by function.  A transport is
    a heap object reached through a pointer; the owning device keeps a hash
    table from D-Bus paths to transport pointers.  Every function of the
    source becomes a computation over that store which also records, in
    program order, the calls it makes to the outside world (mutexes, D-Bus,
    sockets, pipes, allocator). *)

From Stdlib Require Import ZArith List String Bool Lia.
From stdpp Require Import base option gmap strings.
Import ListNotations.

Local Open Scope string_scope.
Local Open Scope Z_scope.

(** ** Identifiers declared in headers *)

(** Modelled from the spec: the header ba-transport.h is not part of the
    sources.  Section 3 lists the six profiles; the code tests them with
    bitwise masks ([type.profile & BA_TRANSPORT_PROFILE_MASK_A2DP]), so every
    profile is one flag of its own and the masks are unions of flags. *)
Definition BA_TRANSPORT_PROFILE_NONE : Z := 0.
Definition BA_TRANSPORT_PROFILE_A2DP_SOURCE : Z := 1.
Definition BA_TRANSPORT_PROFILE_A2DP_SINK : Z := 2.
Definition BA_TRANSPORT_PROFILE_HFP_HF : Z := 4.
Definition BA_TRANSPORT_PROFILE_HFP_AG : Z := 8.
Definition BA_TRANSPORT_PROFILE_HSP_HS : Z := 16.
Definition BA_TRANSPORT_PROFILE_HSP_AG : Z := 32.

Definition BA_TRANSPORT_PROFILE_MASK_A2DP : Z :=
  Z.lor BA_TRANSPORT_PROFILE_A2DP_SOURCE BA_TRANSPORT_PROFILE_A2DP_SINK.
Definition BA_TRANSPORT_PROFILE_MASK_HFP : Z :=
  Z.lor BA_TRANSPORT_PROFILE_HFP_HF BA_TRANSPORT_PROFILE_HFP_AG.
Definition BA_TRANSPORT_PROFILE_MASK_HSP : Z :=
  Z.lor BA_TRANSPORT_PROFILE_HSP_HS BA_TRANSPORT_PROFILE_HSP_AG.
Definition BA_TRANSPORT_PROFILE_MASK_SCO : Z :=
  Z.lor BA_TRANSPORT_PROFILE_MASK_HFP BA_TRANSPORT_PROFILE_MASK_HSP.
Definition BA_TRANSPORT_PROFILE_MASK_AG : Z :=
  Z.lor BA_TRANSPORT_PROFILE_HSP_AG BA_TRANSPORT_PROFILE_HFP_AG.

(** The C test [x & mask] used as a condition. *)
Definition test_bits (x mask : Z) : bool := negb (Z.land x mask =? 0).

(** Modelled from the spec: hfp.h is not part of the sources.  The three
    voice codec identifiers of section 4.6 (undefined, CVSD, mSBC); they are
    distinct because they label the cases of one [switch]. *)
Definition HFP_CODEC_UNDEFINED : Z := 0.
Definition HFP_CODEC_CVSD : Z := 1.
Definition HFP_CODEC_MSBC : Z := 2.

(** [enum bluez_a2dp_transport_state]; a C enum object can hold a value
    outside its enumerators, which the [default] labels of the source handle. *)
Inductive bluez_a2dp_transport_state : Type :=
| BLUEZ_A2DP_TRANSPORT_STATE_IDLE
| BLUEZ_A2DP_TRANSPORT_STATE_PENDING
| BLUEZ_A2DP_TRANSPORT_STATE_ACTIVE
| BLUEZ_A2DP_TRANSPORT_STATE_other (raw : Z).

Inductive ba_transport_pcm_mode : Type :=
| BA_TRANSPORT_PCM_MODE_SOURCE
| BA_TRANSPORT_PCM_MODE_SINK.

(** Sample format tags; [BA_TRANSPORT_PCM_FORMAT_unset] is the all-zero value
    left by [calloc]. *)
Inductive ba_transport_pcm_format : Type :=
| BA_TRANSPORT_PCM_FORMAT_unset
| BA_TRANSPORT_PCM_FORMAT_S16_2LE
| BA_TRANSPORT_PCM_FORMAT_S24_4LE
| BA_TRANSPORT_PCM_FORMAT_S32_4LE.

Inductive ba_transport_signal : Type :=
| BA_TRANSPORT_SIGNAL_PING
| BA_TRANSPORT_SIGNAL_PCM_OPEN
| BA_TRANSPORT_SIGNAL_PCM_CLOSE
| BA_TRANSPORT_SIGNAL_PCM_PAUSE
| BA_TRANSPORT_SIGNAL_PCM_RESUME
| BA_TRANSPORT_SIGNAL_PCM_SYNC
| BA_TRANSPORT_SIGNAL_PCM_DROP.

Inductive ba_rfcomm_signal : Type :=
| BA_RFCOMM_SIGNAL_HFP_SET_CODEC_CVSD
| BA_RFCOMM_SIGNAL_HFP_SET_CODEC_MSBC
| BA_RFCOMM_SIGNAL_UPDATE_VOLUME.

(** Error codes of a D-Bus error reply, as far as the source tells them
    apart. *)
Inductive GDBusError : Type :=
| G_DBUS_ERROR_NO_REPLY
| G_DBUS_ERROR_SERVICE_UNKNOWN
| G_DBUS_ERROR_UNKNOWN_OBJECT
| G_DBUS_ERROR_other (code : Z).

(** ** Data structures *)

(** The two worker slots of a transport; [pcm->th] always points at one of
    them (see [transport_pcm_init]). *)
Inductive thread_slot : Type := slot_enc | slot_dec.

(** The four PCM endpoints a transport can carry. *)
Inductive pcm_sel : Type := sel_a2dp_pcm | sel_a2dp_pcm_bc | sel_sco_spk_pcm | sel_sco_mic_pcm.

Record ba_adapter : Type := {
  hci_dev_id : Z;
  (* value of BA_TEST_ESCO_SUPPORT(a) *)
  esco_support : bool;
}.

(** The part of [struct ba_device] that this file only reads.  The mutable
    part (the transports table and the reference count) lives in [world]. *)
Record ba_device : Type := {
  dev_a : ba_adapter;
  dev_addr : Z;
  dev_ba_dbus_path : string;
}.

Record ba_transport_type : Type := {
  profile : Z;
  codec : Z;
}.

Record pcm_volume : Type := {
  level : Z;
  muted : bool;
}.

Record ba_transport_pcm : Type := {
  (* NULL until transport_pcm_init has run *)
  pcm_th : option thread_slot;
  pcm_mode : ba_transport_pcm_mode;
  pcm_fd : Z;
  pcm_format : ba_transport_pcm_format;
  channels : Z;
  sampling : Z;
  volume0 : pcm_volume;
  volume1 : pcm_volume;
  soft_volume : bool;
  max_bt_volume : Z;
  pcm_delay : Z;
  pcm_ba_dbus_path : option string;
}.

Record ba_transport_thread : Type := {
  th_id : Z;
  th_running : bool;
  th_pipe0 : Z;
  th_pipe1 : Z;
}.

(** The codec configuration blob.  Its layout (a2dp-codecs.h) is not part of
    the sources, so the fields the mapping reads are kept by name. *)
Record a2dp_configuration : Type := {
  cfg_channel_mode : Z;
  cfg_frequency : Z;
  cfg_direction : Z;
  cfg_frequency_music : Z;
  cfg_frequency_voice : Z;
}.

Record a2dp_payload : Type := {
  a2dp_codec : Z;
  a2dp_configuration_blob : option a2dp_configuration;
  a2dp_state : bluez_a2dp_transport_state;
  a2dp_delay : Z;
  a2dp_pcm : ba_transport_pcm;
  a2dp_pcm_bc : ba_transport_pcm;
  bt_fd_coutq_init : Z;
  bluez_dbus_sep_path : option string;
}.

Record sco_payload : Type := {
  sco_rfcomm : option Z;
  sco_spk_pcm : ba_transport_pcm;
  sco_mic_pcm : ba_transport_pcm;
}.

(** The functions a strategy pointer ([t->acquire], [t->release]) can hold. *)
Inductive bt_strategy : Type := strategy_a2dp | strategy_sco.

(** [struct ba_transport].  The source keeps the A2DP and the SCO payload in
    one union; they are two fields here, each read under its own profile. *)
Record ba_transport : Type := {
  t_d : ba_device;
  t_type : ba_transport_type;
  bluez_dbus_owner : option string;
  bluez_dbus_path : option string;
  mtu_read : Z;
  mtu_write : Z;
  bt_fd : Z;
  thread_enc : ba_transport_thread;
  thread_dec : ba_transport_thread;
  acquire : option bt_strategy;
  release : option bt_strategy;
  a2dp : a2dp_payload;
  sco : sco_payload;
  ref_count : Z;
}.

(** Pointers. *)
Definition tptr : Type := positive.
Definition pcm_ptr : Type := (tptr * pcm_sel)%type.
Definition thread_ptr : Type := (tptr * thread_slot)%type.

(** The store: live transports, and the mutable part of the one device they
    belong to. *)
Record world : Type := {
  heap : gmap positive ba_transport;
  transports : gmap string positive;
  device_refs : Z;
}.

(** ** Field assignments

    [set_f v r] is the record [r] after the C assignment [r.f = v]. *)

Definition set_pcm_th (v : _) (pcm : ba_transport_pcm) : ba_transport_pcm :=
  {| pcm_th := v; pcm_mode := pcm_mode pcm; pcm_fd := pcm_fd pcm; pcm_format :=
     pcm_format pcm; channels := channels pcm; sampling := sampling pcm; volume0 :=
     volume0 pcm; volume1 := volume1 pcm; soft_volume := soft_volume pcm; max_bt_volume
     := max_bt_volume pcm; pcm_delay := pcm_delay pcm; pcm_ba_dbus_path :=
     pcm_ba_dbus_path pcm |}.

Definition set_pcm_mode (v : _) (pcm : ba_transport_pcm) : ba_transport_pcm :=
  {| pcm_th := pcm_th pcm; pcm_mode := v; pcm_fd := pcm_fd pcm; pcm_format := pcm_format
     pcm; channels := channels pcm; sampling := sampling pcm; volume0 := volume0 pcm;
     volume1 := volume1 pcm; soft_volume := soft_volume pcm; max_bt_volume :=
     max_bt_volume pcm; pcm_delay := pcm_delay pcm; pcm_ba_dbus_path := pcm_ba_dbus_path
     pcm |}.

Definition set_pcm_fd (v : _) (pcm : ba_transport_pcm) : ba_transport_pcm :=
  {| pcm_th := pcm_th pcm; pcm_mode := pcm_mode pcm; pcm_fd := v; pcm_format :=
     pcm_format pcm; channels := channels pcm; sampling := sampling pcm; volume0 :=
     volume0 pcm; volume1 := volume1 pcm; soft_volume := soft_volume pcm; max_bt_volume
     := max_bt_volume pcm; pcm_delay := pcm_delay pcm; pcm_ba_dbus_path :=
     pcm_ba_dbus_path pcm |}.

Definition set_pcm_format (v : _) (pcm : ba_transport_pcm) : ba_transport_pcm :=
  {| pcm_th := pcm_th pcm; pcm_mode := pcm_mode pcm; pcm_fd := pcm_fd pcm; pcm_format :=
     v; channels := channels pcm; sampling := sampling pcm; volume0 := volume0 pcm;
     volume1 := volume1 pcm; soft_volume := soft_volume pcm; max_bt_volume :=
     max_bt_volume pcm; pcm_delay := pcm_delay pcm; pcm_ba_dbus_path := pcm_ba_dbus_path
     pcm |}.

Definition set_channels (v : _) (pcm : ba_transport_pcm) : ba_transport_pcm :=
  {| pcm_th := pcm_th pcm; pcm_mode := pcm_mode pcm; pcm_fd := pcm_fd pcm; pcm_format :=
     pcm_format pcm; channels := v; sampling := sampling pcm; volume0 := volume0 pcm;
     volume1 := volume1 pcm; soft_volume := soft_volume pcm; max_bt_volume :=
     max_bt_volume pcm; pcm_delay := pcm_delay pcm; pcm_ba_dbus_path := pcm_ba_dbus_path
     pcm |}.

Definition set_sampling (v : _) (pcm : ba_transport_pcm) : ba_transport_pcm :=
  {| pcm_th := pcm_th pcm; pcm_mode := pcm_mode pcm; pcm_fd := pcm_fd pcm; pcm_format :=
     pcm_format pcm; channels := channels pcm; sampling := v; volume0 := volume0 pcm;
     volume1 := volume1 pcm; soft_volume := soft_volume pcm; max_bt_volume :=
     max_bt_volume pcm; pcm_delay := pcm_delay pcm; pcm_ba_dbus_path := pcm_ba_dbus_path
     pcm |}.

Definition set_soft_volume (v : _) (pcm : ba_transport_pcm) : ba_transport_pcm :=
  {| pcm_th := pcm_th pcm; pcm_mode := pcm_mode pcm; pcm_fd := pcm_fd pcm; pcm_format :=
     pcm_format pcm; channels := channels pcm; sampling := sampling pcm; volume0 :=
     volume0 pcm; volume1 := volume1 pcm; soft_volume := v; max_bt_volume :=
     max_bt_volume pcm; pcm_delay := pcm_delay pcm; pcm_ba_dbus_path := pcm_ba_dbus_path
     pcm |}.

Definition set_max_bt_volume (v : _) (pcm : ba_transport_pcm) : ba_transport_pcm :=
  {| pcm_th := pcm_th pcm; pcm_mode := pcm_mode pcm; pcm_fd := pcm_fd pcm; pcm_format :=
     pcm_format pcm; channels := channels pcm; sampling := sampling pcm; volume0 :=
     volume0 pcm; volume1 := volume1 pcm; soft_volume := soft_volume pcm; max_bt_volume
     := v; pcm_delay := pcm_delay pcm; pcm_ba_dbus_path := pcm_ba_dbus_path pcm |}.

Definition set_pcm_ba_dbus_path (v : _) (pcm : ba_transport_pcm) : ba_transport_pcm :=
  {| pcm_th := pcm_th pcm; pcm_mode := pcm_mode pcm; pcm_fd := pcm_fd pcm; pcm_format :=
     pcm_format pcm; channels := channels pcm; sampling := sampling pcm; volume0 :=
     volume0 pcm; volume1 := volume1 pcm; soft_volume := soft_volume pcm; max_bt_volume
     := max_bt_volume pcm; pcm_delay := pcm_delay pcm; pcm_ba_dbus_path := v |}.

Definition set_th_id (v : _) (th : ba_transport_thread) : ba_transport_thread :=
  {| th_id := v; th_running := th_running th; th_pipe0 := th_pipe0 th; th_pipe1 :=
     th_pipe1 th |}.

Definition set_th_running (v : _) (th : ba_transport_thread) : ba_transport_thread :=
  {| th_id := th_id th; th_running := v; th_pipe0 := th_pipe0 th; th_pipe1 := th_pipe1
     th |}.

Definition set_a2dp_codec (v : _) (x : a2dp_payload) : a2dp_payload :=
  {| a2dp_codec := v; a2dp_configuration_blob := a2dp_configuration_blob x; a2dp_state
     := a2dp_state x; a2dp_delay := a2dp_delay x; a2dp_pcm := a2dp_pcm x; a2dp_pcm_bc :=
     a2dp_pcm_bc x; bt_fd_coutq_init := bt_fd_coutq_init x; bluez_dbus_sep_path :=
     bluez_dbus_sep_path x |}.

Definition set_a2dp_configuration_blob (v : _) (x : a2dp_payload) : a2dp_payload :=
  {| a2dp_codec := a2dp_codec x; a2dp_configuration_blob := v; a2dp_state := a2dp_state
     x; a2dp_delay := a2dp_delay x; a2dp_pcm := a2dp_pcm x; a2dp_pcm_bc := a2dp_pcm_bc
     x; bt_fd_coutq_init := bt_fd_coutq_init x; bluez_dbus_sep_path :=
     bluez_dbus_sep_path x |}.

Definition set_a2dp_state (v : _) (x : a2dp_payload) : a2dp_payload :=
  {| a2dp_codec := a2dp_codec x; a2dp_configuration_blob := a2dp_configuration_blob x;
     a2dp_state := v; a2dp_delay := a2dp_delay x; a2dp_pcm := a2dp_pcm x; a2dp_pcm_bc :=
     a2dp_pcm_bc x; bt_fd_coutq_init := bt_fd_coutq_init x; bluez_dbus_sep_path :=
     bluez_dbus_sep_path x |}.

Definition set_a2dp_pcm (v : _) (x : a2dp_payload) : a2dp_payload :=
  {| a2dp_codec := a2dp_codec x; a2dp_configuration_blob := a2dp_configuration_blob x;
     a2dp_state := a2dp_state x; a2dp_delay := a2dp_delay x; a2dp_pcm := v; a2dp_pcm_bc
     := a2dp_pcm_bc x; bt_fd_coutq_init := bt_fd_coutq_init x; bluez_dbus_sep_path :=
     bluez_dbus_sep_path x |}.

Definition set_a2dp_pcm_bc (v : _) (x : a2dp_payload) : a2dp_payload :=
  {| a2dp_codec := a2dp_codec x; a2dp_configuration_blob := a2dp_configuration_blob x;
     a2dp_state := a2dp_state x; a2dp_delay := a2dp_delay x; a2dp_pcm := a2dp_pcm x;
     a2dp_pcm_bc := v; bt_fd_coutq_init := bt_fd_coutq_init x; bluez_dbus_sep_path :=
     bluez_dbus_sep_path x |}.

Definition set_bt_fd_coutq_init (v : _) (x : a2dp_payload) : a2dp_payload :=
  {| a2dp_codec := a2dp_codec x; a2dp_configuration_blob := a2dp_configuration_blob x;
     a2dp_state := a2dp_state x; a2dp_delay := a2dp_delay x; a2dp_pcm := a2dp_pcm x;
     a2dp_pcm_bc := a2dp_pcm_bc x; bt_fd_coutq_init := v; bluez_dbus_sep_path :=
     bluez_dbus_sep_path x |}.

Definition set_sco_rfcomm (v : _) (x : sco_payload) : sco_payload :=
  {| sco_rfcomm := v; sco_spk_pcm := sco_spk_pcm x; sco_mic_pcm := sco_mic_pcm x |}.

Definition set_sco_spk_pcm (v : _) (x : sco_payload) : sco_payload :=
  {| sco_rfcomm := sco_rfcomm x; sco_spk_pcm := v; sco_mic_pcm := sco_mic_pcm x |}.

Definition set_sco_mic_pcm (v : _) (x : sco_payload) : sco_payload :=
  {| sco_rfcomm := sco_rfcomm x; sco_spk_pcm := sco_spk_pcm x; sco_mic_pcm := v |}.

Definition set_codec (v : _) (ty : ba_transport_type) : ba_transport_type :=
  {| profile := profile ty; codec := v |}.

Definition set_t_type (v : _) (t : ba_transport) : ba_transport :=
  {| t_d := t_d t; t_type := v; bluez_dbus_owner := bluez_dbus_owner t; bluez_dbus_path
     := bluez_dbus_path t; mtu_read := mtu_read t; mtu_write := mtu_write t; bt_fd :=
     bt_fd t; thread_enc := thread_enc t; thread_dec := thread_dec t; acquire := acquire
     t; release := release t; a2dp := a2dp t; sco := sco t; ref_count := ref_count t |}.

Definition set_bluez_dbus_owner (v : _) (t : ba_transport) : ba_transport :=
  {| t_d := t_d t; t_type := t_type t; bluez_dbus_owner := v; bluez_dbus_path :=
     bluez_dbus_path t; mtu_read := mtu_read t; mtu_write := mtu_write t; bt_fd := bt_fd
     t; thread_enc := thread_enc t; thread_dec := thread_dec t; acquire := acquire t;
     release := release t; a2dp := a2dp t; sco := sco t; ref_count := ref_count t |}.

Definition set_bluez_dbus_path (v : _) (t : ba_transport) : ba_transport :=
  {| t_d := t_d t; t_type := t_type t; bluez_dbus_owner := bluez_dbus_owner t;
     bluez_dbus_path := v; mtu_read := mtu_read t; mtu_write := mtu_write t; bt_fd :=
     bt_fd t; thread_enc := thread_enc t; thread_dec := thread_dec t; acquire := acquire
     t; release := release t; a2dp := a2dp t; sco := sco t; ref_count := ref_count t |}.

Definition set_mtu_read (v : _) (t : ba_transport) : ba_transport :=
  {| t_d := t_d t; t_type := t_type t; bluez_dbus_owner := bluez_dbus_owner t;
     bluez_dbus_path := bluez_dbus_path t; mtu_read := v; mtu_write := mtu_write t;
     bt_fd := bt_fd t; thread_enc := thread_enc t; thread_dec := thread_dec t; acquire
     := acquire t; release := release t; a2dp := a2dp t; sco := sco t; ref_count :=
     ref_count t |}.

Definition set_mtu_write (v : _) (t : ba_transport) : ba_transport :=
  {| t_d := t_d t; t_type := t_type t; bluez_dbus_owner := bluez_dbus_owner t;
     bluez_dbus_path := bluez_dbus_path t; mtu_read := mtu_read t; mtu_write := v; bt_fd
     := bt_fd t; thread_enc := thread_enc t; thread_dec := thread_dec t; acquire :=
     acquire t; release := release t; a2dp := a2dp t; sco := sco t; ref_count :=
     ref_count t |}.

Definition set_bt_fd (v : _) (t : ba_transport) : ba_transport :=
  {| t_d := t_d t; t_type := t_type t; bluez_dbus_owner := bluez_dbus_owner t;
     bluez_dbus_path := bluez_dbus_path t; mtu_read := mtu_read t; mtu_write :=
     mtu_write t; bt_fd := v; thread_enc := thread_enc t; thread_dec := thread_dec t;
     acquire := acquire t; release := release t; a2dp := a2dp t; sco := sco t; ref_count
     := ref_count t |}.

Definition set_thread_enc (v : _) (t : ba_transport) : ba_transport :=
  {| t_d := t_d t; t_type := t_type t; bluez_dbus_owner := bluez_dbus_owner t;
     bluez_dbus_path := bluez_dbus_path t; mtu_read := mtu_read t; mtu_write :=
     mtu_write t; bt_fd := bt_fd t; thread_enc := v; thread_dec := thread_dec t; acquire
     := acquire t; release := release t; a2dp := a2dp t; sco := sco t; ref_count :=
     ref_count t |}.

Definition set_thread_dec (v : _) (t : ba_transport) : ba_transport :=
  {| t_d := t_d t; t_type := t_type t; bluez_dbus_owner := bluez_dbus_owner t;
     bluez_dbus_path := bluez_dbus_path t; mtu_read := mtu_read t; mtu_write :=
     mtu_write t; bt_fd := bt_fd t; thread_enc := thread_enc t; thread_dec := v; acquire
     := acquire t; release := release t; a2dp := a2dp t; sco := sco t; ref_count :=
     ref_count t |}.

Definition set_acquire (v : _) (t : ba_transport) : ba_transport :=
  {| t_d := t_d t; t_type := t_type t; bluez_dbus_owner := bluez_dbus_owner t;
     bluez_dbus_path := bluez_dbus_path t; mtu_read := mtu_read t; mtu_write :=
     mtu_write t; bt_fd := bt_fd t; thread_enc := thread_enc t; thread_dec := thread_dec
     t; acquire := v; release := release t; a2dp := a2dp t; sco := sco t; ref_count :=
     ref_count t |}.

Definition set_release (v : _) (t : ba_transport) : ba_transport :=
  {| t_d := t_d t; t_type := t_type t; bluez_dbus_owner := bluez_dbus_owner t;
     bluez_dbus_path := bluez_dbus_path t; mtu_read := mtu_read t; mtu_write :=
     mtu_write t; bt_fd := bt_fd t; thread_enc := thread_enc t; thread_dec := thread_dec
     t; acquire := acquire t; release := v; a2dp := a2dp t; sco := sco t; ref_count :=
     ref_count t |}.

Definition set_a2dp (v : _) (t : ba_transport) : ba_transport :=
  {| t_d := t_d t; t_type := t_type t; bluez_dbus_owner := bluez_dbus_owner t;
     bluez_dbus_path := bluez_dbus_path t; mtu_read := mtu_read t; mtu_write :=
     mtu_write t; bt_fd := bt_fd t; thread_enc := thread_enc t; thread_dec := thread_dec
     t; acquire := acquire t; release := release t; a2dp := v; sco := sco t; ref_count
     := ref_count t |}.

Definition set_sco (v : _) (t : ba_transport) : ba_transport :=
  {| t_d := t_d t; t_type := t_type t; bluez_dbus_owner := bluez_dbus_owner t;
     bluez_dbus_path := bluez_dbus_path t; mtu_read := mtu_read t; mtu_write :=
     mtu_write t; bt_fd := bt_fd t; thread_enc := thread_enc t; thread_dec := thread_dec
     t; acquire := acquire t; release := release t; a2dp := a2dp t; sco := v; ref_count
     := ref_count t |}.

Definition set_ref_count (v : _) (t : ba_transport) : ba_transport :=
  {| t_d := t_d t; t_type := t_type t; bluez_dbus_owner := bluez_dbus_owner t;
     bluez_dbus_path := bluez_dbus_path t; mtu_read := mtu_read t; mtu_write :=
     mtu_write t; bt_fd := bt_fd t; thread_enc := thread_enc t; thread_dec := thread_dec
     t; acquire := acquire t; release := release t; a2dp := a2dp t; sco := sco t;
     ref_count := v |}.

Definition set_heap (v : _) (w : world) : world :=
  {| heap := v; transports := transports w; device_refs := device_refs w |}.

Definition set_transports (v : _) (w : world) : world :=
  {| heap := heap w; transports := v; device_refs := device_refs w |}.

Definition set_device_refs (v : _) (w : world) : world :=
  {| heap := heap w; transports := transports w; device_refs := v |}.

(** ** Calls to the outside world *)

Inductive mutex : Type :=
| transports_mutex
| type_mtx (t : tptr)
| bt_fd_mtx (t : tptr)
| pcm_mutex (pcm : pcm_ptr)
| pcm_synced_mtx (pcm : pcm_ptr)
| th_ready_mtx (th : thread_ptr).

Inductive log_level : Type := log_debug | log_warn | log_error.

(** Blocks handed back to the allocator. *)
Inductive mem_block : Type :=
| mem_transport (t : tptr)
| mem_bluez_dbus_owner (t : tptr)
| mem_bluez_dbus_path (t : tptr)
| mem_a2dp_configuration (t : tptr)
| mem_pcm_ba_dbus_path (pcm : pcm_ptr).

Inductive event : Type :=
| EvMutexLock (m : mutex)
| EvMutexUnlock (m : mutex)
| EvMutexDestroy (m : mutex)
| EvCondDestroy (owner : pcm_ptr + thread_ptr)
| EvLog (lvl : log_level) (fmt : string)
(* g_dbus_connection_send_message_with_reply_sync of a method call *)
| EvDBusMethodCall (owner path : option string) (method : string)
(* g_dbus_set_property of the media transport interface *)
| EvDBusSetProperty (owner path : option string) (property : string) (value : Z)
| EvClose (fd : Z)
| EvShutdown (fd : Z)
| EvSetsockoptSndbuf (fd size : Z)
| EvIoctlOutq (fd : Z)
| EvHciScoOpen (dev_id : Z)
| EvHciScoConnect (fd addr voice : Z)
| EvHciScoGetMtu (fd : Z)
| EvPipeWrite (fd : Z) (sig : ba_transport_signal)
| EvPipeCreate (th : thread_ptr)
| EvPthreadCancel (id : Z)
| EvPthreadJoin (id : Z)
| EvPthreadCreate (th : thread_ptr) (name : string)
| EvA2dpAudioThreadCreate (t : tptr)
| EvRfcommNew (t : tptr) (fd : Z)
| EvRfcommDestroy (r : Z)
| EvRfcommSendSignal (r : Z) (sig : ba_rfcomm_signal)
| EvPcmRegister (pcm : pcm_ptr)
| EvPcmUnregister (pcm : pcm_ptr)
| EvPcmUpdate (pcm : pcm_ptr)
(* t->ref_count++ or --t->ref_count, with the count written; not a call,
   recorded for its place between the lock and the unlock *)
| EvRefCount (t : tptr) (count : Z)
| EvDeviceRef
| EvDeviceUnref
| EvTableInsert (path : option string) (t : tptr)
| EvTableSteal (path : option string)
| EvFree (b : mem_block).

(** Remote procedure calls: D-Bus method calls and property writes. *)
Definition is_rpc (e : event) : bool :=
  match e with
  | EvDBusMethodCall _ _ _ | EvDBusSetProperty _ _ _ _ => true
  | _ => false
  end.

Definition is_socket_op (e : event) : bool :=
  match e with
  | EvClose _ | EvShutdown _ | EvSetsockoptSndbuf _ _ | EvIoctlOutq _
  | EvHciScoOpen _ | EvHciScoConnect _ _ _ | EvHciScoGetMtu _ => true
  | _ => false
  end.

(** The body [(hqq)] of the reply to [Acquire] and [TryAcquire]. *)
Record acquire_body : Type := {
  rep_handle : Z;
  rep_mtu_read : Z;
  rep_mtu_write : Z;
}.

(** What [g_dbus_connection_send_message_with_reply_sync] hands back. *)
Inductive dbus_reply : Type :=
(* NULL, with the error set *)
| DBusNoReply
(* a message of type G_DBUS_MESSAGE_TYPE_ERROR *)
| DBusErrorReply (code : GDBusError)
(* a method return, with its body and the attached descriptor list *)
| DBusMethodReturn (body : acquire_body) (fd_list : option (list Z)).

(** Identifiers of A2DP codecs (a2dp-codecs.h, not part of the sources) and
    the compile-time switches that select the cases of the codec mapping. *)
Record a2dp_codec_ids : Type := {
  A2DP_CODEC_SBC : Z;
  A2DP_CODEC_MPEG12 : Z;
  A2DP_CODEC_MPEG24 : Z;
  A2DP_CODEC_VENDOR_APTX : Z;
  A2DP_CODEC_VENDOR_APTX_HD : Z;
  A2DP_CODEC_VENDOR_FASTSTREAM : Z;
  A2DP_CODEC_VENDOR_LDAC : Z;
  FASTSTREAM_DIRECTION_MUSIC : Z;
  FASTSTREAM_DIRECTION_VOICE : Z;
  ENABLE_MPEG : bool;
  ENABLE_AAC : bool;
  ENABLE_APTX : bool;
  ENABLE_APTX_HD : bool;
  ENABLE_FASTSTREAM : bool;
  ENABLE_LDAC : bool;
}.

(** Everything the translation unit takes from its environment: the build
    configuration, the global [config] object, and the answers of the
    operating system and of the other translation units. *)
Record platform : Type := {
  ENABLE_MSBC : bool;
  codecs : a2dp_codec_ids;
  config_main_thread : Z;
  config_a2dp_volume : bool;
  pthread_self : Z;
  BT_VOICE_CVSD_16BIT : Z;
  BT_VOICE_TRANSPARENT : Z;
  (* owner, path, method *)
  dbus_send_message_with_reply_sync : option string -> option string -> string -> dbus_reply;
  (* true when g_dbus_set_property reports an error *)
  dbus_set_property_fails : option string -> option string -> string -> Z -> bool;
  setsockopt_sndbuf : Z -> Z -> Z;
  (* return value and the queue length stored through the pointer *)
  ioctl_tiocoutq : Z -> Z * option Z;
  hci_sco_open : Z -> Z;
  hci_sco_connect : Z -> Z -> Z -> Z;
  hci_sco_get_mtu : Z -> Z;
  (* return value of write(2) on a signal pipe *)
  pipe_write : Z -> ba_transport_signal -> Z;
  (* pipe(2): the two descriptors, or failure *)
  pipe_create : thread_ptr -> option (Z * Z);
  pthread_cancel : Z -> Z;
  pthread_join : Z -> Z;
  ESRCH : Z;
  (* pthread_create: the new thread id, or the error number *)
  pthread_create : thread_ptr -> Z + Z;
  (* a2dp_audio_thread_create (a2dp-audio.c): an arbitrary store update *)
  a2dp_audio_thread_create : tptr -> world -> Z * world;
  ba_rfcomm_new : tptr -> Z -> option Z;
  (* calloc(1, sizeof(struct ba_transport)) returns NULL *)
  calloc_fails : bool;
  strdup_fails : string -> bool;
  a2dp_codec_lookup_channels : Z -> Z -> bool -> Z;
  a2dp_codec_lookup_frequency : Z -> Z -> bool -> Z;
  (* the int obtained from
     audio_decibel_to_loudness(value / 100.0) * max_bt_volume
     for the arguments value and max_bt_volume *)
  scaled_loudness : Z -> Z -> Z;
}.

(** ** Computations *)

(** A call either returns a value, leaving a new store, or stops the process
    (failed assertion, access through a dangling or null pointer).  Both
    carry the calls made so far. *)
Inductive outcome (A : Type) : Type :=
| Returns (a : A) (w : world) (evs : list event)
| Aborted (evs : list event).
Arguments Returns {A} a w evs.
Arguments Aborted {A} evs.

Definition M (A : Type) : Type := world -> outcome A.

Definition ret {A : Type} (a : A) : M A := fun w => Returns a w [].

Definition bind {A B : Type} (m : M A) (k : A -> M B) : M B :=
  fun w =>
    match m w with
    | Returns a w1 e1 =>
        match k a w1 with
        | Returns b w2 e2 => Returns b w2 (e1 ++ e2)
        | Aborted e2 => Aborted (e1 ++ e2)
        end
    | Aborted e1 => Aborted e1
    end.

Declare Scope c_scope.
Delimit Scope c_scope with c.
Notation "x <- m ;; k" := (bind m (fun x => k))
  (at level 100, m at next level, right associativity) : c_scope.
Notation "m ;; k" := (bind m (fun _ => k))
  (at level 100, right associativity) : c_scope.
Local Open Scope c_scope.

Definition emit (e : event) : M unit := fun w => Returns tt w [e].
Definition abort {A : Type} : M A := fun _ => Aborted [].
Definition get_world : M world := fun w => Returns w w [].
Definition put_world (w : world) : M unit := fun _ => Returns tt w [].

(** [*p] for reading: a pointer to a freed transport stops the process. *)
Definition load (p : tptr) : M ba_transport :=
  fun w => match heap w !! p with
           | Some t => Returns t w []
           | None => Aborted []
           end.

(** [*p = t]. *)
Definition store (p : tptr) (t : ba_transport) : M unit :=
  fun w => match heap w !! p with
           | Some _ => Returns tt (set_heap (<[p := t]> (heap w)) w) []
           | None => Aborted []
           end.

(** Assignment to one field of [*p]. *)
Definition modify (p : tptr) (f : ba_transport -> ba_transport) : M unit :=
  t <- load p ;; store p (f t).

Definition when (b : bool) (m : M unit) : M unit := if b then m else ret tt.

Definition debug (fmt : string) : M unit := emit (EvLog log_debug fmt).
Definition warn (fmt : string) : M unit := emit (EvLog log_warn fmt).
Definition error (fmt : string) : M unit := emit (EvLog log_error fmt).

(** Access to the thread handles and PCM endpoints embedded in a transport. *)
Definition get_thread (s : thread_slot) (t : ba_transport) : ba_transport_thread :=
  match s with slot_enc => thread_enc t | slot_dec => thread_dec t end.

Definition set_thread (s : thread_slot) (th : ba_transport_thread) (t : ba_transport) : ba_transport :=
  match s with slot_enc => set_thread_enc th t | slot_dec => set_thread_dec th t end.

Definition get_pcm (s : pcm_sel) (t : ba_transport) : ba_transport_pcm :=
  match s with
  | sel_a2dp_pcm => a2dp_pcm (a2dp t)
  | sel_a2dp_pcm_bc => a2dp_pcm_bc (a2dp t)
  | sel_sco_spk_pcm => sco_spk_pcm (sco t)
  | sel_sco_mic_pcm => sco_mic_pcm (sco t)
  end.

Definition set_pcm (s : pcm_sel) (pcm : ba_transport_pcm) (t : ba_transport) : ba_transport :=
  match s with
  | sel_a2dp_pcm => set_a2dp (set_a2dp_pcm pcm (a2dp t)) t
  | sel_a2dp_pcm_bc => set_a2dp (set_a2dp_pcm_bc pcm (a2dp t)) t
  | sel_sco_spk_pcm => set_sco (set_sco_spk_pcm pcm (sco t)) t
  | sel_sco_mic_pcm => set_sco (set_sco_mic_pcm pcm (sco t)) t
  end.

(** ** The functions of ba-transport.c *)

Section Source.

Variable P : platform.

Definition state_is_idle (s : bluez_a2dp_transport_state) : bool :=
  match s with BLUEZ_A2DP_TRANSPORT_STATE_IDLE => true | _ => false end.

Definition state_is_pending (s : bluez_a2dp_transport_state) : bool :=
  match s with BLUEZ_A2DP_TRANSPORT_STATE_PENDING => true | _ => false end.

(** [g_unix_fd_list_get(fd_list, index, &err)]: the descriptor attached at
    [index], or -1 when there is none (GLib hands out a duplicate of the
    attached descriptor; the duplicate is identified with it). *)
Definition g_unix_fd_list_get (fd_list : option (list Z)) (index : nat) : Z :=
  match fd_list with
  | Some l => nth index l (-1)
  | None => -1
  end.

Definition transport_acquire_bt_a2dp (p : tptr) : M Z :=
  emit (EvMutexLock (bt_fd_mtx p)) ;;
  t <- load p ;;
  let fd := bt_fd t in
  (* Check whether transport is already acquired - keep-alive mode. *)
  if negb (fd =? -1) then
    debug "Reusing transport: %d" ;;
    emit (EvMutexUnlock (bt_fd_mtx p)) ;;
    ret fd
  else
    let method :=
      if state_is_pending (a2dp_state (a2dp t)) then "TryAcquire" else "Acquire" in
    emit (EvDBusMethodCall (bluez_dbus_owner t) (bluez_dbus_path t) method) ;;
    match dbus_send_message_with_reply_sync P (bluez_dbus_owner t) (bluez_dbus_path t) method with
    | DBusNoReply | DBusErrorReply _ =>
        (* fail: *)
        error "Couldn't acquire transport: %s" ;;
        emit (EvMutexUnlock (bt_fd_mtx p)) ;;
        ret fd
    | DBusMethodReturn body fd_list =>
        (* g_variant_get(..., "(hqq)", &fd, &t->mtu_read, &t->mtu_write): the
           handle goes to fd; each MTU is stored through a 16-bit pointer into
           a field that holds no wider value on an A2DP transport (the
           transport is zero-allocated and this is the only store) *)
        let fd := rep_handle body in
        let t := set_mtu_read (rep_mtu_read body) t in
        let t := set_mtu_write (rep_mtu_write body) t in
        (* fd = g_unix_fd_list_get(fd_list, 0, &err) *)
        let fd := g_unix_fd_list_get fd_list 0 in
        let t := set_bt_fd fd t in
        store p t ;;
        let size := mtu_write t * 3 in
        emit (EvSetsockoptSndbuf fd size) ;;
        when (setsockopt_sndbuf P fd size =? -1)
          (warn "Couldn't set socket output buffer size: %s") ;;
        emit (EvIoctlOutq fd) ;;
        match snd (ioctl_tiocoutq P fd) with
        | Some q => store p (set_a2dp (set_bt_fd_coutq_init q (a2dp t)) t)
        | None => ret tt
        end ;;
        when (fst (ioctl_tiocoutq P fd) =? -1)
          (warn "Couldn't get socket queued bytes: %s") ;;
        debug "New transport: %d (MTU: R:%zu W:%zu)" ;;
        emit (EvMutexUnlock (bt_fd_mtx p)) ;;
        ret fd
    end.

Definition dbus_error_is_soft (code : GDBusError) : bool :=
  match code with
  | G_DBUS_ERROR_NO_REPLY | G_DBUS_ERROR_SERVICE_UNKNOWN | G_DBUS_ERROR_UNKNOWN_OBJECT => true
  | G_DBUS_ERROR_other _ => false
  end.

Definition transport_release_bt_a2dp (p : tptr) : M Z :=
  emit (EvMutexLock (bt_fd_mtx p)) ;;
  t <- load p ;;
  let close_bt : M Z :=
    debug "Closing BT: %d" ;;
    emit (EvClose (bt_fd t)) ;;
    store p (set_bt_fd (-1) t) ;;
    emit (EvMutexUnlock (bt_fd_mtx p)) ;;
    ret 0 in
  let fail : M Z :=
    error "Couldn't release transport: %s" ;;
    emit (EvMutexUnlock (bt_fd_mtx p)) ;;
    ret (-1) in
  if bt_fd t =? -1 then
    emit (EvMutexUnlock (bt_fd_mtx p)) ;;
    ret 0
  else if negb (state_is_idle (a2dp_state (a2dp t))) && bool_decide (is_Some (bluez_dbus_owner t)) then
    debug "Releasing A2DP transport: %s" ;;
    emit (EvDBusMethodCall (bluez_dbus_owner t) (bluez_dbus_path t) "Release") ;;
    match dbus_send_message_with_reply_sync P (bluez_dbus_owner t) (bluez_dbus_path t) "Release" with
    | DBusNoReply => fail
    | DBusErrorReply code => if dbus_error_is_soft code then close_bt else fail
    | DBusMethodReturn _ _ => close_bt
    end
  else close_bt.

Definition transport_acquire_bt_sco (p : tptr) : M Z :=
  emit (EvMutexLock (bt_fd_mtx p)) ;;
  t <- load p ;;
  let d := t_d t in
  let fd := bt_fd t in
  if negb (fd =? -1) then
    debug "Reusing SCO: %d" ;;
    emit (EvMutexUnlock (bt_fd_mtx p)) ;;
    ret fd
  else
    emit (EvHciScoOpen (hci_dev_id (dev_a d))) ;;
    let fd := hci_sco_open P (hci_dev_id (dev_a d)) in
    if fd =? -1 then
      error "Couldn't open SCO socket: %s" ;;
      emit (EvMutexUnlock (bt_fd_mtx p)) ;;
      ret (-1)
    else
      let voice :=
        if codec (t_type t) =? HFP_CODEC_CVSD
        then BT_VOICE_CVSD_16BIT P else BT_VOICE_TRANSPARENT P in
      emit (EvHciScoConnect fd (dev_addr d) voice) ;;
      if hci_sco_connect P fd (dev_addr d) voice =? -1 then
        error "Couldn't establish SCO link: %s" ;;
        emit (EvClose fd) ;;
        emit (EvMutexUnlock (bt_fd_mtx p)) ;;
        ret (-1)
      else
        debug "New SCO link: %s: %d" ;;
        emit (EvHciScoGetMtu fd) ;;
        let mtu := hci_sco_get_mtu P fd in
        store p (set_bt_fd fd (set_mtu_read mtu (set_mtu_write mtu t))) ;;
        emit (EvMutexUnlock (bt_fd_mtx p)) ;;
        ret fd.

Definition transport_release_bt_sco (p : tptr) : M Z :=
  emit (EvMutexLock (bt_fd_mtx p)) ;;
  t <- load p ;;
  if bt_fd t =? -1 then
    emit (EvMutexUnlock (bt_fd_mtx p)) ;;
    ret 0
  else
    debug "Closing SCO: %d" ;;
    emit (EvShutdown (bt_fd t)) ;;
    emit (EvClose (bt_fd t)) ;;
    store p (set_bt_fd (-1) t) ;;
    emit (EvMutexUnlock (bt_fd_mtx p)) ;;
    ret 0.

(** The functions behind the strategy pointers. *)
Definition acquire_strategy (s : bt_strategy) : tptr -> M Z :=
  match s with
  | strategy_a2dp => transport_acquire_bt_a2dp
  | strategy_sco => transport_acquire_bt_sco
  end.

Definition release_strategy (s : bt_strategy) : tptr -> M Z :=
  match s with
  | strategy_a2dp => transport_release_bt_a2dp
  | strategy_sco => transport_release_bt_sco
  end.

(** [t->acquire(t)]: a call through a null pointer stops the process. *)
Definition ba_transport_acquire (p : tptr) : M Z :=
  t <- load p ;;
  match acquire t with
  | Some s => acquire_strategy s p
  | None => abort
  end.


(** The assertion of the DEBUG build (the PCM mutex is held) is about lock
    ownership, which the store does not record. *)
Definition ba_transport_pcm_release (pcm : pcm_ptr) : M Z :=
  t <- load (fst pcm) ;;
  let c := get_pcm (snd pcm) t in
  if pcm_fd c =? -1 then ret 0
  else
    debug "Closing PCM: %d" ;;
    emit (EvClose (pcm_fd c)) ;;
    store (fst pcm) (set_pcm (snd pcm) (set_pcm_fd (-1) c) t) ;;
    ret 0.

Definition transport_get_dbus_path_type (type : ba_transport_type) : option string :=
  if profile type =? BA_TRANSPORT_PROFILE_A2DP_SOURCE then Some "a2dpsrc"
  else if profile type =? BA_TRANSPORT_PROFILE_A2DP_SINK then Some "a2dpsnk"
  else if profile type =? BA_TRANSPORT_PROFILE_HFP_HF then Some "hfphf"
  else if profile type =? BA_TRANSPORT_PROFILE_HFP_AG then Some "hfpag"
  else if profile type =? BA_TRANSPORT_PROFILE_HSP_HS then Some "hsphs"
  else if profile type =? BA_TRANSPORT_PROFILE_HSP_AG then Some "hspag"
  else None.

Definition transport_pcm_init (pcm : pcm_ptr) (th : thread_slot)
    (mode : ba_transport_pcm_mode) : M Z :=
  t <- load (fst pcm) ;;
  let c := get_pcm (snd pcm) t in
  let c := set_pcm_th (Some th) c in
  let c := set_pcm_mode mode c in
  let c := set_pcm_fd (-1) c in
  (* g_strdup_printf("%s/%s/%s", ...); a null string is printed as (null) *)
  let path :=
    (dev_ba_dbus_path (t_d t) ++ "/"
     ++ default "(null)" (transport_get_dbus_path_type (t_type t)) ++ "/"
     ++ match mode with
        | BA_TRANSPORT_PCM_MODE_SOURCE => "source"
        | BA_TRANSPORT_PCM_MODE_SINK => "sink"
        end)%string in
  let c := set_pcm_ba_dbus_path (Some path) c in
  store (fst pcm) (set_pcm (snd pcm) c t) ;;
  ret 0.

Definition transport_pcm_free (pcm : pcm_ptr) : M unit :=
  emit (EvMutexLock (pcm_mutex pcm)) ;;
  ba_transport_pcm_release pcm ;;
  emit (EvMutexUnlock (pcm_mutex pcm)) ;;
  emit (EvMutexDestroy (pcm_mutex pcm)) ;;
  emit (EvMutexDestroy (pcm_synced_mtx pcm)) ;;
  emit (EvCondDestroy (inl pcm)) ;;
  t <- load (fst pcm) ;;
  when (bool_decide (is_Some (pcm_ba_dbus_path (get_pcm (snd pcm) t))))
    (emit (EvFree (mem_pcm_ba_dbus_path pcm))).

Definition transport_thread_init (th : thread_ptr) : M Z :=
  t <- load (fst th) ;;
  emit (EvPipeCreate th) ;;
  match pipe_create P th with
  | None =>
      store (fst th) (set_thread (snd th)
        {| th_id := config_main_thread P; th_running := th_running (get_thread (snd th) t);
           th_pipe0 := -1; th_pipe1 := -1 |} t) ;;
      ret (-1)
  | Some (r, w) =>
      store (fst th) (set_thread (snd th)
        {| th_id := config_main_thread P; th_running := th_running (get_thread (snd th) t);
           th_pipe0 := r; th_pipe1 := w |} t) ;;
      ret 0
  end.

(** Synchronous transport thread cancellation.  What the cancelled worker
    does to the store before the join returns is outside this sequential
    model. *)
Definition transport_thread_cancel (th : thread_ptr) : M unit :=
  t <- load (fst th) ;;
  let h := get_thread (snd th) t in
  if (th_id h =? config_main_thread P) || (th_id h =? pthread_self P) then ret tt
  else
    emit (EvPthreadCancel (th_id h)) ;;
    let err := pthread_cancel P (th_id h) in
    when (negb (err =? 0) && negb (err =? ESRCH P))
      (warn "Couldn't cancel transport thread: %s") ;;
    emit (EvPthreadJoin (th_id h)) ;;
    when (negb (pthread_join P (th_id h) =? 0))
      (warn "Couldn't join transport thread: %s") ;;
    store (fst th) (set_thread (snd th)
      (set_th_running false (set_th_id (config_main_thread P) h)) t).

(** Release transport thread resources. *)
Definition transport_thread_free (th : thread_ptr) : M unit :=
  t <- load (fst th) ;;
  let h := get_thread (snd th) t in
  when (negb (th_pipe0 h =? -1)) (emit (EvClose (th_pipe0 h))) ;;
  when (negb (th_pipe1 h =? -1)) (emit (EvClose (th_pipe1 h))) ;;
  emit (EvMutexDestroy (th_ready_mtx th)) ;;
  emit (EvCondDestroy (inr th)).

(** [g_hash_table_steal]: the entry under the key is dropped, if any.  The
    table (ba-device.c) is not part of the sources; a null key finds no
    entry here. *)
Definition table_steal (path : option string) (tbl : gmap string positive) : gmap string positive :=
  match path with
  | Some k => delete k tbl
  | None => tbl
  end.

(** [g_hash_table_insert]: the entry under the key is set or replaced. *)
Definition table_insert (path : option string) (p : tptr)
    (tbl : gmap string positive) : gmap string positive :=
  match path with
  | Some k => <[k := p]> tbl
  | None => tbl
  end.

Definition ba_device_ref : M unit :=
  emit EvDeviceRef ;;
  w <- get_world ;;
  put_world (set_device_refs (device_refs w + 1) w).

Definition ba_device_unref : M unit :=
  emit EvDeviceUnref ;;
  w <- get_world ;;
  put_world (set_device_refs (device_refs w - 1) w).

Definition ba_transport_lookup (dbus_path : string) : M (option tptr) :=
  emit (EvMutexLock transports_mutex) ;;
  w <- get_world ;;
  match transports w !! dbus_path with
  | Some p =>
      t <- load p ;;
      store p (set_ref_count (ref_count t + 1) t) ;;
      emit (EvRefCount p (ref_count t + 1)) ;;
      emit (EvMutexUnlock transports_mutex) ;;
      ret (Some p)
  | None =>
      emit (EvMutexUnlock transports_mutex) ;;
      ret None
  end.

Definition ba_transport_ref (p : tptr) : M tptr :=
  t <- load p ;;
  emit (EvMutexLock transports_mutex) ;;
  store p (set_ref_count (ref_count t + 1) t) ;;
  emit (EvRefCount p (ref_count t + 1)) ;;
  emit (EvMutexUnlock transports_mutex) ;;
  ret p.

(** [free(t)]: the transport leaves the store. *)
Definition free_transport (p : tptr) : M unit :=
  emit (EvFree (mem_transport p)) ;;
  w <- get_world ;;
  put_world (set_heap (delete p (heap w)) w).

Definition ba_transport_unref (p : tptr) : M unit :=
  t <- load p ;;
  emit (EvMutexLock transports_mutex) ;;
  let ref_count' := ref_count t - 1 in
  store p (set_ref_count ref_count' t) ;;
  emit (EvRefCount p ref_count') ;;
  when (ref_count' =? 0)
    ((* detach transport from the device *)
     emit (EvTableSteal (bluez_dbus_path t)) ;;
     w <- get_world ;;
     put_world (set_transports (table_steal (bluez_dbus_path t) (transports w)) w)) ;;
  emit (EvMutexUnlock transports_mutex) ;;
  if ref_count' >? 0 then ret tt
  else
    debug "Freeing transport: %s" ;;
    (* g_assert_cmpint(ref_count, ==, 0) *)
    if negb (ref_count' =? 0) then abort
    else
      when (negb (bt_fd t =? -1)) (emit (EvClose (bt_fd t))) ;;
      ba_device_unref ;;
      (if test_bits (profile (t_type t)) BA_TRANSPORT_PROFILE_MASK_A2DP then
         transport_pcm_free (p, sel_a2dp_pcm) ;;
         transport_pcm_free (p, sel_a2dp_pcm_bc) ;;
         emit (EvFree (mem_a2dp_configuration p))
       else if test_bits (profile (t_type t)) BA_TRANSPORT_PROFILE_MASK_SCO then
         match sco_rfcomm (sco t) with
         | Some r => emit (EvRfcommDestroy r)
         | None => ret tt
         end ;;
         transport_pcm_free (p, sel_sco_spk_pcm) ;;
         transport_pcm_free (p, sel_sco_mic_pcm)
       else ret tt) ;;
      transport_thread_free (p, slot_enc) ;;
      transport_thread_free (p, slot_dec) ;;
      emit (EvMutexDestroy (bt_fd_mtx p)) ;;
      emit (EvMutexDestroy (type_mtx p)) ;;
      emit (EvFree (mem_bluez_dbus_owner p)) ;;
      emit (EvFree (mem_bluez_dbus_path p)) ;;
      free_transport p.

(** The object [calloc] hands out: every field zero. *)
Definition zero_pcm : ba_transport_pcm :=
  {| pcm_th := None; pcm_mode := BA_TRANSPORT_PCM_MODE_SOURCE; pcm_fd := 0;
     pcm_format := BA_TRANSPORT_PCM_FORMAT_unset; channels := 0; sampling := 0;
     volume0 := {| level := 0; muted := false |};
     volume1 := {| level := 0; muted := false |};
     soft_volume := false; max_bt_volume := 0; pcm_delay := 0;
     pcm_ba_dbus_path := None |}.

Definition zero_thread : ba_transport_thread :=
  {| th_id := 0; th_running := false; th_pipe0 := 0; th_pipe1 := 0 |}.

Definition zero_transport (device : ba_device) : ba_transport :=
  {| t_d := device;
     t_type := {| profile := 0; codec := 0 |};
     bluez_dbus_owner := None; bluez_dbus_path := None;
     mtu_read := 0; mtu_write := 0; bt_fd := 0;
     thread_enc := zero_thread; thread_dec := zero_thread;
     acquire := None; release := None;
     a2dp := {| a2dp_codec := 0; a2dp_configuration_blob := None;
                a2dp_state := BLUEZ_A2DP_TRANSPORT_STATE_IDLE; a2dp_delay := 0;
                a2dp_pcm := zero_pcm; a2dp_pcm_bc := zero_pcm;
                bt_fd_coutq_init := 0; bluez_dbus_sep_path := None |};
     sco := {| sco_rfcomm := None; sco_spk_pcm := zero_pcm; sco_mic_pcm := zero_pcm |};
     ref_count := 0 |}.

(** Create new transport: the pointer to the new transport, or NULL. *)
Definition transport_new (device : ba_device) (dbus_owner dbus_path : string)
    : M (option tptr) :=
  if calloc_fails P then ret None
  else
    w <- get_world ;;
    let p := fresh (dom (heap w)) in
    put_world (set_heap (<[p := zero_transport device]> (heap w)) w) ;;
    ba_device_ref ;;
    modify p (fun t =>
      set_bt_fd (-1) (set_ref_count 1
        (set_t_type {| profile := BA_TRANSPORT_PROFILE_NONE; codec := codec (t_type t) |} t))) ;;
    e1 <- transport_thread_init (p, slot_enc) ;;
    e2 <- transport_thread_init (p, slot_dec) ;;
    let fail : M (option tptr) := ba_transport_unref p ;; ret None in
    if negb (Z.lor e1 e2 =? 0) then fail
    else if strdup_fails P dbus_owner then fail
    else
      modify p (set_bluez_dbus_owner (Some dbus_owner)) ;;
      if strdup_fails P dbus_path then fail
      else
        modify p (set_bluez_dbus_path (Some dbus_path)) ;;
        emit (EvMutexLock transports_mutex) ;;
        emit (EvTableInsert (Some dbus_path) p) ;;
        w <- get_world ;;
        put_world (set_transports (table_insert (Some dbus_path) p (transports w)) w) ;;
        emit (EvMutexUnlock transports_mutex) ;;
        ret (Some p).

(** The configuration blob of an A2DP transport; a null blob stops the
    process when a field is read through it. *)
Definition a2dp_config (t : ba_transport) : M a2dp_configuration :=
  match a2dp_configuration_blob (a2dp t) with
  | Some c => ret c
  | None => abort
  end.

Definition ba_transport_set_codec_a2dp (p : tptr) : M unit :=
  t <- load p ;;
  let C := codecs P in
  let codec_desc := a2dp_codec (a2dp t) in
  let codec_id := codec (t_type t) in
  let fmt :=
    if ENABLE_APTX_HD C && (codec_id =? A2DP_CODEC_VENDOR_APTX_HD C)
    then BA_TRANSPORT_PCM_FORMAT_S24_4LE
    else if ENABLE_LDAC C && (codec_id =? A2DP_CODEC_VENDOR_LDAC C)
    then BA_TRANSPORT_PCM_FORMAT_S32_4LE
    else BA_TRANSPORT_PCM_FORMAT_S16_2LE in
  let t := set_pcm sel_a2dp_pcm (set_pcm_format fmt (get_pcm sel_a2dp_pcm t)) t in
  let t := set_pcm sel_a2dp_pcm_bc (set_pcm_format fmt (get_pcm sel_a2dp_pcm_bc t)) t in
  store p t ;;
  (* channels and sampling of the main PCM from the channel mode and the
     frequency of the configuration *)
  let from_config : M unit :=
    c <- a2dp_config t ;;
    let pcm := get_pcm sel_a2dp_pcm t in
    let pcm := set_channels (a2dp_codec_lookup_channels P codec_desc (cfg_channel_mode c) false) pcm in
    let pcm := set_sampling (a2dp_codec_lookup_frequency P codec_desc (cfg_frequency c) false) pcm in
    store p (set_pcm sel_a2dp_pcm pcm t) in
  if codec_id =? A2DP_CODEC_SBC C then from_config
  else if ENABLE_MPEG C && (codec_id =? A2DP_CODEC_MPEG12 C) then from_config
  else if ENABLE_AAC C && (codec_id =? A2DP_CODEC_MPEG24 C) then from_config
  else if ENABLE_APTX C && (codec_id =? A2DP_CODEC_VENDOR_APTX C) then from_config
  else if ENABLE_APTX_HD C && (codec_id =? A2DP_CODEC_VENDOR_APTX_HD C) then from_config
  else if ENABLE_FASTSTREAM C && (codec_id =? A2DP_CODEC_VENDOR_FASTSTREAM C) then
    c <- a2dp_config t ;;
    let t :=
      if test_bits (cfg_direction c) (FASTSTREAM_DIRECTION_MUSIC C) then
        set_pcm sel_a2dp_pcm
          (set_sampling (a2dp_codec_lookup_frequency P codec_desc (cfg_frequency_music c) false)
             (set_channels 2 (get_pcm sel_a2dp_pcm t))) t
      else t in
    let t :=
      if test_bits (cfg_direction c) (FASTSTREAM_DIRECTION_VOICE C) then
        set_pcm sel_a2dp_pcm_bc
          (set_sampling (a2dp_codec_lookup_frequency P codec_desc (cfg_frequency_voice c) true)
             (set_channels 1 (get_pcm sel_a2dp_pcm_bc t))) t
      else t in
    store p t
  else if ENABLE_LDAC C && (codec_id =? A2DP_CODEC_VENDOR_LDAC C) then from_config
  else
    error "Unsupported A2DP codec: %#x" ;;
    (* g_assert_not_reached() *)
    abort.

Definition ba_transport_set_codec_sco (p : tptr) : M unit :=
  t <- load p ;;
  let spk := set_channels 1 (set_pcm_format BA_TRANSPORT_PCM_FORMAT_S16_2LE (sco_spk_pcm (sco t))) in
  let mic := set_channels 1 (set_pcm_format BA_TRANSPORT_PCM_FORMAT_S16_2LE (sco_mic_pcm (sco t))) in
  let with_sampling (rate : Z) : M unit :=
    store p (set_sco (set_sco_mic_pcm (set_sampling rate mic)
                       (set_sco_spk_pcm (set_sampling rate spk) (sco t))) t) in
  if codec (t_type t) =? HFP_CODEC_CVSD then with_sampling 8000
  else if codec (t_type t) =? HFP_CODEC_MSBC then with_sampling 16000
  else
    (* default: falls through to case HFP_CODEC_UNDEFINED *)
    when (negb (codec (t_type t) =? HFP_CODEC_UNDEFINED))
      (debug "Unsupported SCO codec: %#x") ;;
    with_sampling 0.

Definition ba_transport_set_codec (p : tptr) (codec_id : Z) : M unit :=
  modify p (fun t => set_t_type (set_codec codec_id (t_type t)) t) ;;
  t <- load p ;;
  when (test_bits (profile (t_type t)) BA_TRANSPORT_PROFILE_MASK_A2DP)
    (ba_transport_set_codec_a2dp p) ;;
  when (test_bits (profile (t_type t)) BA_TRANSPORT_PROFILE_MASK_SCO)
    (ba_transport_set_codec_sco p).

Definition ba_transport_new_a2dp (device : ba_device) (type : ba_transport_type)
    (dbus_owner dbus_path : string) (codec_desc : Z) (configuration : a2dp_configuration)
    : M (option tptr) :=
  let is_sink := test_bits (profile type) BA_TRANSPORT_PROFILE_A2DP_SINK in
  r <- transport_new device dbus_owner dbus_path ;;
  match r with
  | None => ret None
  | Some p =>
      modify p (set_t_type type) ;;
      modify p (fun t =>
        set_a2dp (set_a2dp_state BLUEZ_A2DP_TRANSPORT_STATE_IDLE
                   (set_a2dp_configuration_blob (Some configuration)
                     (set_a2dp_codec codec_desc (a2dp t)))) t) ;;
      transport_pcm_init (p, sel_a2dp_pcm)
        (if is_sink then slot_dec else slot_enc)
        (if is_sink then BA_TRANSPORT_PCM_MODE_SOURCE else BA_TRANSPORT_PCM_MODE_SINK) ;;
      modify p (fun t => set_pcm sel_a2dp_pcm
        (set_max_bt_volume 127 (set_soft_volume (negb (config_a2dp_volume P))
          (get_pcm sel_a2dp_pcm t))) t) ;;
      transport_pcm_init (p, sel_a2dp_pcm_bc)
        (if is_sink then slot_enc else slot_dec)
        (if is_sink then BA_TRANSPORT_PCM_MODE_SINK else BA_TRANSPORT_PCM_MODE_SOURCE) ;;
      modify p (fun t => set_pcm sel_a2dp_pcm_bc
        (set_max_bt_volume 127 (set_soft_volume (negb (config_a2dp_volume P))
          (get_pcm sel_a2dp_pcm_bc t))) t) ;;
      modify p (fun t => set_release (Some strategy_a2dp) (set_acquire (Some strategy_a2dp) t)) ;;
      ba_transport_set_codec p (codec type) ;;
      t <- load p ;;
      when (channels (get_pcm sel_a2dp_pcm t) >? 0) (emit (EvPcmRegister (p, sel_a2dp_pcm))) ;;
      when (channels (get_pcm sel_a2dp_pcm_bc t) >? 0) (emit (EvPcmRegister (p, sel_a2dp_pcm_bc))) ;;
      ret (Some p)
  end.

Definition ba_transport_new_sco (device : ba_device) (type : ba_transport_type)
    (dbus_owner dbus_path : string) (rfcomm_fd : Z) : M (option tptr) :=
  r <- transport_new device dbus_owner dbus_path ;;
  match r with
  | None => ret None
  | Some p =>
      (* HSP supports CVSD only *)
      let type :=
        if test_bits (profile type) BA_TRANSPORT_PROFILE_MASK_HSP
        then set_codec HFP_CODEC_CVSD type else type in
      (* Check whether support for codec other than CVSD is possible with
         underlying adapter. *)
      let type :=
        if ENABLE_MSBC P then
          if negb (esco_support (dev_a device)) then set_codec HFP_CODEC_CVSD type else type
        else set_codec HFP_CODEC_CVSD type in
      modify p (set_t_type type) ;;
      transport_pcm_init (p, sel_sco_spk_pcm) slot_enc BA_TRANSPORT_PCM_MODE_SINK ;;
      modify p (fun t => set_pcm sel_sco_spk_pcm
        (set_max_bt_volume 15 (get_pcm sel_sco_spk_pcm t)) t) ;;
      transport_pcm_init (p, sel_sco_mic_pcm) slot_enc BA_TRANSPORT_PCM_MODE_SOURCE ;;
      modify p (fun t => set_pcm sel_sco_mic_pcm
        (set_max_bt_volume 15 (get_pcm sel_sco_mic_pcm t)) t) ;;
      modify p (fun t => set_release (Some strategy_sco) (set_acquire (Some strategy_sco) t)) ;;
      let rest : M (option tptr) :=
        ba_transport_set_codec p (codec type) ;;
        emit (EvPcmRegister (p, sel_sco_spk_pcm)) ;;
        emit (EvPcmRegister (p, sel_sco_mic_pcm)) ;;
        ret (Some p) in
      if negb (rfcomm_fd =? -1) then
        emit (EvRfcommNew p rfcomm_fd) ;;
        match ba_rfcomm_new P p rfcomm_fd with
        | None =>
            (* fail: *)
            ba_transport_unref p ;;
            ret None
        | Some r =>
            modify p (fun t => set_sco (set_sco_rfcomm (Some r) (sco t)) t) ;;
            rest
        end
      else rest
  end.

(** Create transport thread. *)
Definition ba_transport_thread_create (th : thread_ptr) (name : string) : M Z :=
  ba_transport_ref (fst th) ;;
  emit (EvPthreadCreate th name) ;;
  match pthread_create P th with
  | inr _ =>
      error "Couldn't create transport thread: %s" ;;
      modify (fst th) (fun t =>
        set_thread (snd th) (set_th_id (config_main_thread P) (get_thread (snd th) t)) t) ;;
      ba_transport_unref (fst th) ;;
      ret (-1)
  | inl id =>
      modify (fst th) (fun t => set_thread (snd th) (set_th_id id (get_thread (snd th) t)) t) ;;
      debug "Created new transport thread [%s]: %s" ;;
      ret 0
  end.

Definition ba_transport_thread_ready (th : thread_ptr) : M Z :=
  modify (fst th) (fun t => set_thread (snd th) (set_th_running true (get_thread (snd th) t)) t) ;;
  ret 0.

Definition ba_transport_start (p : tptr) : M Z :=
  t <- load p ;;
  if negb (th_id (thread_enc t) =? config_main_thread P)
     || negb (th_id (thread_dec t) =? config_main_thread P)
  then ret 0
  else
    debug "Starting transport: %s" ;;
    if test_bits (profile (t_type t)) BA_TRANSPORT_PROFILE_MASK_A2DP then
      emit (EvA2dpAudioThreadCreate p) ;;
      w <- get_world ;;
      put_world (snd (a2dp_audio_thread_create P p w)) ;;
      ret (fst (a2dp_audio_thread_create P p w))
    else if test_bits (profile (t_type t)) BA_TRANSPORT_PROFILE_MASK_SCO then
      ba_transport_thread_create (p, slot_enc) "ba-sco"
    else
      (* errno = ENOTSUP *)
      ret (-1).

Definition ba_transport_stop (p : tptr) : M Z :=
  transport_thread_cancel (p, slot_enc) ;;
  transport_thread_cancel (p, slot_dec) ;;
  ret 0.

Definition ba_transport_set_a2dp_state (p : tptr) (state : bluez_a2dp_transport_state) : M Z :=
  modify p (fun t => set_a2dp (set_a2dp_state state (a2dp t)) t) ;;
  match state with
  | BLUEZ_A2DP_TRANSPORT_STATE_PENDING =>
      (* When transport is marked as pending, try to acquire transport, but
         only if we are handing A2DP sink profile. *)
      t <- load p ;;
      if profile (t_type t) =? BA_TRANSPORT_PROFILE_A2DP_SINK
      then ba_transport_acquire p
      else ret 0
  | BLUEZ_A2DP_TRANSPORT_STATE_ACTIVE => ba_transport_start p
  | BLUEZ_A2DP_TRANSPORT_STATE_IDLE
  | BLUEZ_A2DP_TRANSPORT_STATE_other _ => ba_transport_stop p
  end.

Definition ba_transport_pcm_get_delay (pcm : pcm_ptr) : M Z :=
  t <- load (fst pcm) ;;
  let c := get_pcm (snd pcm) t in
  if test_bits (profile (t_type t)) BA_TRANSPORT_PROFILE_MASK_A2DP
  then ret (a2dp_delay (a2dp t) + pcm_delay c)
  else if test_bits (profile (t_type t)) BA_TRANSPORT_PROFILE_MASK_SCO
  then ret (pcm_delay c + 10)
  else ret (pcm_delay c).

(** [MIN((unsigned int)MAX(volume, 0), pcm->max_bt_volume)], where [volume]
    is the int the floating-point product was converted to. *)
Definition ba_transport_pcm_volume_level_to_bt (pcm : ba_transport_pcm) (value : Z) : Z :=
  let volume := scaled_loudness P value (max_bt_volume pcm) in
  Z.min (Z.max volume 0) (max_bt_volume pcm).

Definition ba_transport_pcm_volume_update (pcm : pcm_ptr) : M Z :=
  t <- load (fst pcm) ;;
  let c := get_pcm (snd pcm) t in
  let final : M Z :=
    (* notify connected clients (including requester) *)
    emit (EvPcmUpdate pcm) ;;
    ret 0 in
  (* In case of A2DP Source or HSP/HFP Audio Gateway skip notifying Bluetooth
     device if we are using software volume control. *)
  if soft_volume c
     && test_bits (profile (t_type t))
          (Z.lor BA_TRANSPORT_PROFILE_A2DP_SOURCE BA_TRANSPORT_PROFILE_MASK_AG)
  then final
  else if test_bits (profile (t_type t)) BA_TRANSPORT_PROFILE_MASK_A2DP then
    let level :=
      if negb (muted (volume0 c)) && negb (muted (volume1 c))
      then Z.quot (level (volume0 c) + level (volume1 c)) 2
      else 0 in
    let volume := ba_transport_pcm_volume_level_to_bt c level in
    (* g_variant_new_uint16(volume) *)
    let value := volume mod 65536 in
    emit (EvDBusSetProperty (bluez_dbus_owner t) (bluez_dbus_path t) "Volume" value) ;;
    when (dbus_set_property_fails P (bluez_dbus_owner t) (bluez_dbus_path t) "Volume" value)
      (warn "Couldn't set BT device volume: %s") ;;
    final
  else if test_bits (profile (t_type t)) BA_TRANSPORT_PROFILE_MASK_SCO
          && bool_decide (is_Some (sco_rfcomm (sco t))) then
    (* notify associated RFCOMM transport *)
    match sco_rfcomm (sco t) with
    | Some r => emit (EvRfcommSendSignal r BA_RFCOMM_SIGNAL_UPDATE_VOLUME)
    | None => ret tt
    end ;;
    final
  else final.

(** [write(th->pipe[1], &sig, sizeof(sig))]. *)
Definition ba_transport_thread_send_signal (th : thread_ptr) (sig : ba_transport_signal) : M Z :=
  t <- load (fst th) ;;
  let fd := th_pipe1 (get_thread (snd th) t) in
  emit (EvPipeWrite fd sig) ;;
  ret (pipe_write P fd sig).

(** The worker thread [pcm->th]; a null pointer stops the process. *)
Definition pcm_thread (pcm : pcm_ptr) : M thread_ptr :=
  t <- load (fst pcm) ;;
  match pcm_th (get_pcm (snd pcm) t) with
  | Some s => ret (fst pcm, s)
  | None => abort
  end.

Definition ba_transport_pcm_pause (pcm : pcm_ptr) : M Z :=
  th <- pcm_thread pcm ;;
  ba_transport_thread_send_signal th BA_TRANSPORT_SIGNAL_PCM_PAUSE ;;
  debug "PCM paused: %d" ;;
  ret 0.

Definition ba_transport_pcm_resume (pcm : pcm_ptr) : M Z :=
  th <- pcm_thread pcm ;;
  ba_transport_thread_send_signal th BA_TRANSPORT_SIGNAL_PCM_RESUME ;;
  debug "PCM resumed: %d" ;;
  ret 0.

Definition ba_transport_pcm_drop (pcm : pcm_ptr) : M Z :=
  ba_transport_thread_send_signal (fst pcm, slot_enc) BA_TRANSPORT_SIGNAL_PCM_DROP ;;
  debug "PCM dropped: %d" ;;
  ret 0.

Definition ba_transport_pcms_lock (p : tptr) : M Z :=
  t <- load p ;;
  if test_bits (profile (t_type t)) BA_TRANSPORT_PROFILE_MASK_A2DP then
    emit (EvMutexLock (pcm_mutex (p, sel_a2dp_pcm))) ;;
    emit (EvMutexLock (pcm_mutex (p, sel_a2dp_pcm_bc))) ;;
    ret 0
  else if test_bits (profile (t_type t)) BA_TRANSPORT_PROFILE_MASK_SCO then
    emit (EvMutexLock (pcm_mutex (p, sel_sco_spk_pcm))) ;;
    emit (EvMutexLock (pcm_mutex (p, sel_sco_mic_pcm))) ;;
    ret 0
  else
    (* errno = EINVAL *)
    ret (-1).

Definition ba_transport_pcms_unlock (p : tptr) : M Z :=
  t <- load p ;;
  if test_bits (profile (t_type t)) BA_TRANSPORT_PROFILE_MASK_A2DP then
    emit (EvMutexUnlock (pcm_mutex (p, sel_a2dp_pcm))) ;;
    emit (EvMutexUnlock (pcm_mutex (p, sel_a2dp_pcm_bc))) ;;
    ret 0
  else if test_bits (profile (t_type t)) BA_TRANSPORT_PROFILE_MASK_SCO then
    emit (EvMutexUnlock (pcm_mutex (p, sel_sco_spk_pcm))) ;;
    emit (EvMutexUnlock (pcm_mutex (p, sel_sco_mic_pcm))) ;;
    ret 0
  else
    (* errno = EINVAL *)
    ret (-1).



End Source.

(** ** Sample environment and transports

    Concrete inputs on which the functions above are run. *)

Definition sample_codecs : a2dp_codec_ids :=
  {| A2DP_CODEC_SBC := 0; A2DP_CODEC_MPEG12 := 1; A2DP_CODEC_MPEG24 := 2;
     A2DP_CODEC_VENDOR_APTX := 3; A2DP_CODEC_VENDOR_APTX_HD := 4;
     A2DP_CODEC_VENDOR_FASTSTREAM := 5; A2DP_CODEC_VENDOR_LDAC := 6;
     FASTSTREAM_DIRECTION_MUSIC := 1; FASTSTREAM_DIRECTION_VOICE := 2;
     ENABLE_MPEG := false; ENABLE_AAC := false; ENABLE_APTX := false;
     ENABLE_APTX_HD := false; ENABLE_FASTSTREAM := false; ENABLE_LDAC := false |}.

(** A platform with mSBC built in whose daemon answers every method call
    with [reply]; every system call succeeds. *)
Definition sample_platform (msbc : bool) (reply : dbus_reply) : platform :=
  {| ENABLE_MSBC := msbc;
     codecs := sample_codecs;
     config_main_thread := 100;
     config_a2dp_volume := true;
     pthread_self := 100;
     BT_VOICE_CVSD_16BIT := 96;
     BT_VOICE_TRANSPARENT := 3;
     dbus_send_message_with_reply_sync := fun _ _ _ => reply;
     dbus_set_property_fails := fun _ _ _ _ => false;
     setsockopt_sndbuf := fun _ _ => 0;
     ioctl_tiocoutq := fun _ => (0, Some 0);
     hci_sco_open := fun _ => 9;
     hci_sco_connect := fun _ _ _ => 0;
     hci_sco_get_mtu := fun _ => 48;
     pipe_write := fun _ _ => 4;
     pipe_create := fun th => match snd th with slot_enc => Some (20, 21) | slot_dec => Some (22, 23) end;
     pthread_cancel := fun _ => 0;
     pthread_join := fun _ => 0;
     ESRCH := 3;
     pthread_create := fun _ => inl 101;
     a2dp_audio_thread_create := fun _ w => (0, w);
     ba_rfcomm_new := fun _ _ => Some 77;
     calloc_fails := false;
     strdup_fails := fun _ => false;
     a2dp_codec_lookup_channels := fun _ _ _ => 2;
     a2dp_codec_lookup_frequency := fun _ _ _ => 44100;
     (* full scale at 0 dB, silence below *)
     scaled_loudness := fun value max => if value <? 0 then 0 else max |}.

Definition sample_device : ba_device :=
  {| dev_a := {| hci_dev_id := 0; esco_support := true |};
     dev_addr := 1193046;
     dev_ba_dbus_path := "/org/bluealsa/hci0/dev_00_12_34_56_78_9A" |}.

Definition sample_pcm (th : thread_slot) (max : Z) : ba_transport_pcm :=
  {| pcm_th := Some th; pcm_mode := BA_TRANSPORT_PCM_MODE_SINK; pcm_fd := -1;
     pcm_format := BA_TRANSPORT_PCM_FORMAT_S16_2LE; channels := 2; sampling := 44100;
     volume0 := {| level := -2000; muted := false |};
     volume1 := {| level := -2000; muted := false |};
     soft_volume := false; max_bt_volume := max; pcm_delay := 0;
     pcm_ba_dbus_path := Some "/org/bluealsa/hci0/dev_00_12_34_56_78_9A/a2dpsrc/sink" |}.

(** A transport of the given profile and strategy with two idle worker
    slots, registered by its owner only. *)
Definition sample_transport (prof : Z) (s : bt_strategy)
    (state : bluez_a2dp_transport_state) (fd : Z) : ba_transport :=
  {| t_d := sample_device;
     t_type := {| profile := prof; codec := HFP_CODEC_CVSD |};
     bluez_dbus_owner := Some ":1.5";
     bluez_dbus_path := Some "/org/bluez/hci0/dev_00_12_34_56_78_9A/fd0";
     mtu_read := 0; mtu_write := 0; bt_fd := fd;
     thread_enc := {| th_id := 100; th_running := false; th_pipe0 := 20; th_pipe1 := 21 |};
     thread_dec := {| th_id := 100; th_running := false; th_pipe0 := 22; th_pipe1 := 23 |};
     acquire := Some s; release := Some s;
     a2dp := {| a2dp_codec := 0; a2dp_configuration_blob := None;
                a2dp_state := state; a2dp_delay := 0;
                a2dp_pcm := sample_pcm slot_enc 127; a2dp_pcm_bc := sample_pcm slot_dec 127;
                bt_fd_coutq_init := 0; bluez_dbus_sep_path := None |};
     sco := {| sco_rfcomm := None;
               sco_spk_pcm := sample_pcm slot_enc 15; sco_mic_pcm := sample_pcm slot_enc 15 |};
     ref_count := 1 |}.

(** The store holding one transport, at address 1, registered under its
    path. *)
Definition sample_world (t : ba_transport) : world :=
  {| heap := {[ 1%positive := t ]};
     transports := table_insert (bluez_dbus_path t) 1%positive ∅;
     device_refs := 1 |}.

Definition empty_world : world :=
  {| heap := ∅; transports := ∅; device_refs := 1 |}.

(** An A2DP source transport held by BlueZ (state active) whose Bluetooth
    descriptor is 5, and a daemon that does not answer. *)
Definition acquired_a2dp : ba_transport :=
  sample_transport BA_TRANSPORT_PROFILE_A2DP_SOURCE strategy_a2dp
    BLUEZ_A2DP_TRANSPORT_STATE_ACTIVE 5.

Definition silent_daemon : platform := sample_platform true DBusNoReply.

(** An A2DP sink transport that is not acquired, and a daemon whose reply
    to Acquire carries the handle 1 and two descriptors, 7 at index 0 and 9
    at index 1. *)
Definition idle_a2dp_sink : ba_transport :=
  sample_transport BA_TRANSPORT_PROFILE_A2DP_SINK strategy_a2dp
    BLUEZ_A2DP_TRANSPORT_STATE_IDLE (-1).

Definition two_fd_reply : dbus_reply :=
  DBusMethodReturn {| rep_handle := 1; rep_mtu_read := 672; rep_mtu_write := 679 |}
    (Some [7; 9]).

Definition two_fd_daemon : platform := sample_platform true two_fd_reply.

(** An acquired HFP audio gateway transport. *)
Definition acquired_sco : ba_transport :=
  sample_transport BA_TRANSPORT_PROFILE_HFP_AG strategy_sco
    BLUEZ_A2DP_TRANSPORT_STATE_IDLE 5.

(** The same transport with a codec identifier that is none of CVSD, mSBC
    and undefined. *)
Definition odd_codec_sco : ba_transport :=
  set_t_type {| profile := BA_TRANSPORT_PROFILE_HFP_AG; codec := 3 |} acquired_sco.

(** An A2DP source transport under software volume whose main PCM has its
    first channel muted. *)
Definition muted_pcm : ba_transport_pcm :=
  {| pcm_th := Some slot_enc; pcm_mode := BA_TRANSPORT_PCM_MODE_SINK; pcm_fd := -1;
     pcm_format := BA_TRANSPORT_PCM_FORMAT_S16_2LE; channels := 2; sampling := 44100;
     volume0 := {| level := -2000; muted := true |};
     volume1 := {| level := -2000; muted := false |};
     soft_volume := true; max_bt_volume := 127; pcm_delay := 0;
     pcm_ba_dbus_path := None |}.


(** The same endpoint on an A2DP sink, where software volume does not hold
    the update back. *)
Definition muted_a2dp_sink : ba_transport :=
  set_pcm sel_a2dp_pcm muted_pcm idle_a2dp_sink.

(** A build without mSBC. *)
Definition cvsd_only_build : platform := sample_platform false DBusNoReply.

Definition hfp_ag_msbc : ba_transport_type :=
  {| profile := BA_TRANSPORT_PROFILE_HFP_AG; codec := HFP_CODEC_MSBC |}.

(** The store an outcome leaves, [w] for a stopped process. *)
Definition outcome_world {A : Type} (w : world) (o : outcome A) : world :=
  match o with
  | Returns _ w' _ => w'
  | Aborted _ => w
  end.

(** [e1] occurs in [evs] with [e2] somewhere after it. *)
Definition occurs_before (e1 e2 : event) (evs : list event) : Prop :=
  exists pre post, evs = (pre ++ e1 :: post)%list /\ In e2 post.

(** The Bluetooth descriptor of the transport at [p], if it is live. *)
Definition bt_fd_at (w : world) (p : tptr) : option Z := bt_fd <$> heap w !! p.

(** The one way for the A2DP release to give up: the transport is acquired,
    BlueZ still holds it (state not idle, owner known), and the [Release]
    call gets no reply or an error that is not one of the three tolerated
    ones. *)
Definition release_rpc_refused (P : platform) (t : ba_transport) : bool :=
  negb (bt_fd t =? -1)
  && negb (state_is_idle (a2dp_state (a2dp t)))
  && bool_decide (is_Some (bluez_dbus_owner t))
  && match dbus_send_message_with_reply_sync P (bluez_dbus_owner t) (bluez_dbus_path t) "Release" with
     | DBusNoReply => true
     | DBusErrorReply code => negb (dbus_error_is_soft code)
     | DBusMethodReturn _ _ => false
     end.

(** Neither a remote call nor a system call on a socket. *)
Definition quiet (e : event) : Prop := is_rpc e = false /\ is_socket_op e = false.

(** The method an A2DP acquire calls. *)
Definition acquire_method (t : ba_transport) : string :=
  if state_is_pending (a2dp_state (a2dp t)) then "TryAcquire" else "Acquire".

(** The transport after the C assignment [t->a2dp.state = state]. *)
Definition with_a2dp_state (state : bluez_a2dp_transport_state) (t : ba_transport) : ba_transport :=
  set_a2dp (set_a2dp_state state (a2dp t)) t.

(** The store after the C assignment [*p = t]. *)
Definition with_transport (p : tptr) (t : ba_transport) (w : world) : world :=
  set_heap (<[p := t]> (heap w)) w.

(** ** The calls of a final unref, in program order *)

(** The transport after [ba_transport_pcm_release] on one of its endpoints. *)
Definition close_pcm (sel : pcm_sel) (t : ba_transport) : ba_transport :=
  if pcm_fd (get_pcm sel t) =? -1 then t
  else set_pcm sel (set_pcm_fd (-1) (get_pcm sel t)) t.

Definition pcm_release_events (c : ba_transport_pcm) : list event :=
  if pcm_fd c =? -1 then []
  else [EvLog log_debug "Closing PCM: %d"; EvClose (pcm_fd c)].

Definition pcm_free_events (pcm : pcm_ptr) (c : ba_transport_pcm) : list event :=
  [EvMutexLock (pcm_mutex pcm)]
  ++ pcm_release_events c
  ++ [EvMutexUnlock (pcm_mutex pcm); EvMutexDestroy (pcm_mutex pcm);
      EvMutexDestroy (pcm_synced_mtx pcm); EvCondDestroy (inl pcm)]
  ++ (if bool_decide (is_Some (pcm_ba_dbus_path c))
      then [EvFree (mem_pcm_ba_dbus_path pcm)] else []).

Definition thread_free_events (th : thread_ptr) (h : ba_transport_thread) : list event :=
  (if th_pipe0 h =? -1 then [] else [EvClose (th_pipe0 h)])
  ++ (if th_pipe1 h =? -1 then [] else [EvClose (th_pipe1 h)])
  ++ [EvMutexDestroy (th_ready_mtx th); EvCondDestroy (inr th)].

(** PCM endpoints and profile payload. *)
Definition payload_free_events (p : tptr) (t : ba_transport) : list event :=
  if test_bits (profile (t_type t)) BA_TRANSPORT_PROFILE_MASK_A2DP then
    pcm_free_events (p, sel_a2dp_pcm) (a2dp_pcm (a2dp t))
    ++ pcm_free_events (p, sel_a2dp_pcm_bc) (a2dp_pcm_bc (a2dp t))
    ++ [EvFree (mem_a2dp_configuration p)]
  else if test_bits (profile (t_type t)) BA_TRANSPORT_PROFILE_MASK_SCO then
    match sco_rfcomm (sco t) with Some r => [EvRfcommDestroy r] | None => [] end
    ++ pcm_free_events (p, sel_sco_spk_pcm) (sco_spk_pcm (sco t))
    ++ pcm_free_events (p, sel_sco_mic_pcm) (sco_mic_pcm (sco t))
  else [].

(** The critical section of the unref that takes the count to zero. *)
Definition unref_detach_events (p : tptr) (t : ba_transport) : list event :=
  [EvMutexLock transports_mutex; EvRefCount p 0; EvTableSteal (bluez_dbus_path t);
   EvMutexUnlock transports_mutex].

(** What follows the critical section. *)
Definition unref_release_events (p : tptr) (t : ba_transport) : list event :=
  [EvLog log_debug "Freeing transport: %s"]
  ++ (if bt_fd t =? -1 then [] else [EvClose (bt_fd t)])
  ++ [EvDeviceUnref]
  ++ payload_free_events p t
  ++ thread_free_events (p, slot_enc) (thread_enc t)
  ++ thread_free_events (p, slot_dec) (thread_dec t)
  ++ [EvMutexDestroy (bt_fd_mtx p); EvMutexDestroy (type_mtx p);
      EvFree (mem_bluez_dbus_owner p); EvFree (mem_bluez_dbus_path p);
      EvFree (mem_transport p)].

(** The store once the transport at [p] is gone. *)
Definition without_transport (p : tptr) (t : ba_transport) (w : world) : world :=
  {| heap := delete p (heap w);
     transports := table_steal (bluez_dbus_path t) (transports w);
     device_refs := device_refs w - 1 |}.

(** ** Clients of the reference count *)

Inductive client_op : Type :=
| op_ref (p : tptr)
| op_unref (p : tptr)
| op_lookup (dbus_path : string).

Definition run_op (o : client_op) : M unit :=
  match o with
  | op_ref p => ba_transport_ref p ;; ret tt
  | op_unref p => ba_transport_unref p
  | op_lookup k => ba_transport_lookup k ;; ret tt
  end.

Fixpoint run_ops (os : list client_op) : M unit :=
  match os with
  | [] => ret tt
  | o :: os' => run_op o ;; run_ops os'
  end.

Definition outcome_events {A : Type} (o : outcome A) : list event :=
  match o with
  | Returns _ _ evs => evs
  | Aborted evs => evs
  end.

(** [free(t)] of the transport at [p]: issued by the unref that takes its
    count to zero, and by nothing else. *)
Definition is_free_of (p : tptr) (e : event) : bool :=
  match e with
  | EvFree (mem_transport q) => Pos.eqb p q
  | _ => false
  end.

Definition frees (p : tptr) (evs : list event) : nat :=
  length (List.filter (is_free_of p) evs).

(** The codec a new SCO transport ends up with. *)
Definition sco_codec_choice (P : platform) (device : ba_device) (type : ba_transport_type) : Z :=
  if test_bits (profile type) BA_TRANSPORT_PROFILE_MASK_HSP
     || negb (ENABLE_MSBC P) || negb (esco_support (dev_a device))
  then HFP_CODEC_CVSD else codec type.

(** ** Further functions of ba-transport.c *)

Definition ba_transport_pcm_ref (pcm : pcm_ptr) : M pcm_ptr :=
  ba_transport_ref (fst pcm) ;; ret pcm.

Definition ba_transport_pcm_unref (pcm : pcm_ptr) : M unit :=
  ba_transport_unref (fst pcm).

Definition ba_transport_thread_cleanup_lock (th : thread_ptr) : M Z :=
  ba_transport_pcms_lock (fst th).

Definition ba_transport_thread_cleanup_unlock (th : thread_ptr) : M Z :=
  ba_transport_pcms_unlock (fst th).

(** One return of [read(th->pipe[0], &sig, sizeof(sig))]. *)
Inductive read_result : Type :=
(* sizeof(sig) bytes, holding the signal *)
| read_signal (sig : ba_transport_signal)
(* a number of bytes other than sizeof(sig) *)
| read_short (n : Z)
(* -1, with the error number *)
| read_failed (errno : Z).

(** [ba_transport_thread_recv_signal], run on the returns the successive
    calls of [read] give.  The result is the signal, the messages logged and
    the returns not consumed; there is none while [read] has not given a
    return that ends the loop. *)
Fixpoint ba_transport_thread_recv_signal (EINTR : Z) (reads : list read_result)
    : option (ba_transport_signal * list event * list read_result) :=
  match reads with
  | [] => None
  | read_failed errno :: reads' =>
      if errno =? EINTR then ba_transport_thread_recv_signal EINTR reads'
      else Some (BA_TRANSPORT_SIGNAL_PING,
                 [EvLog log_warn "Couldn't read transport thread signal: %s"], reads')
  | read_signal sig :: reads' => Some (sig, [], reads')
  | read_short _ :: reads' =>
      Some (BA_TRANSPORT_SIGNAL_PING,
            [EvLog log_warn "Couldn't read transport thread signal: %s"], reads')
  end.

(** ** Transports along the life cycle

    What acquire, stop, release and destroy make of a transport, and the
    conditions the constructors depend on. *)

(** The voice setting a SCO link is opened with. *)
Definition sco_voice (P : platform) (t : ba_transport) : Z :=
  if codec (t_type t) =? HFP_CODEC_CVSD
  then BT_VOICE_CVSD_16BIT P else BT_VOICE_TRANSPARENT P.



(** Whether the profile of a transport has PCM endpoints at all. *)
Definition has_pcms (t : ba_transport) : bool :=
  test_bits (profile (t_type t)) BA_TRANSPORT_PROFILE_MASK_A2DP
  || test_bits (profile (t_type t)) BA_TRANSPORT_PROFILE_MASK_SCO.

(** The two PCM endpoints the profile of a transport uses. *)
Definition pcms_of (p : tptr) (t : ba_transport) : list pcm_ptr :=
  if test_bits (profile (t_type t)) BA_TRANSPORT_PROFILE_MASK_A2DP
  then [(p, sel_a2dp_pcm); (p, sel_a2dp_pcm_bc)]
  else if test_bits (profile (t_type t)) BA_TRANSPORT_PROFILE_MASK_SCO
  then [(p, sel_sco_spk_pcm); (p, sel_sco_mic_pcm)]
  else [].

(** The transport [transport_new] registers: the zeroed object with its
    reference, descriptors, thread handles and BlueZ names set. *)
Definition fresh_thread (P : platform) (pipe : Z * Z) : ba_transport_thread :=
  {| th_id := config_main_thread P; th_running := false;
     th_pipe0 := fst pipe; th_pipe1 := snd pipe |}.

(** The operating system and allocator calls of [transport_new] all succeed. *)
Definition resources_available (P : platform) (owner path : string) (p : tptr)
    (enc dec : Z * Z) : Prop :=
  calloc_fails P = false
  /\ pipe_create P (p, slot_enc) = Some enc
  /\ pipe_create P (p, slot_dec) = Some dec
  /\ strdup_fails P owner = false
  /\ strdup_fails P path = false.

(** The codec identifiers [ba_transport_set_codec_a2dp] has a case for in
    this build. *)
Definition a2dp_codec_supported (P : platform) (codec_id : Z) : bool :=
  let C := codecs P in
  (codec_id =? A2DP_CODEC_SBC C)
  || ENABLE_MPEG C && (codec_id =? A2DP_CODEC_MPEG12 C)
  || ENABLE_AAC C && (codec_id =? A2DP_CODEC_MPEG24 C)
  || ENABLE_APTX C && (codec_id =? A2DP_CODEC_VENDOR_APTX C)
  || ENABLE_APTX_HD C && (codec_id =? A2DP_CODEC_VENDOR_APTX_HD C)
  || ENABLE_FASTSTREAM C && (codec_id =? A2DP_CODEC_VENDOR_FASTSTREAM C)
  || ENABLE_LDAC C && (codec_id =? A2DP_CODEC_VENDOR_LDAC C).

(** The sample format of both A2DP endpoints under a codec. *)
Definition a2dp_pcm_format (P : platform) (codec_id : Z) : ba_transport_pcm_format :=
  let C := codecs P in
  if ENABLE_APTX_HD C && (codec_id =? A2DP_CODEC_VENDOR_APTX_HD C)
  then BA_TRANSPORT_PCM_FORMAT_S24_4LE
  else if ENABLE_LDAC C && (codec_id =? A2DP_CODEC_VENDOR_LDAC C)
  then BA_TRANSPORT_PCM_FORMAT_S32_4LE
  else BA_TRANSPORT_PCM_FORMAT_S16_2LE.

(** Everything of a PCM endpoint but its format, channels and sampling. *)
Definition pcm_setup (pcm : ba_transport_pcm) :=
  (pcm_th pcm, pcm_mode pcm, pcm_fd pcm, (volume0 pcm, volume1 pcm),
   soft_volume pcm, max_bt_volume pcm, pcm_delay pcm, pcm_ba_dbus_path pcm).

(** Everything of a transport but its codec identifier and the format,
    channels and sampling of its PCM endpoints. *)
Definition transport_setup (t : ba_transport) :=
  (t_d t, profile (t_type t), (bluez_dbus_owner t, bluez_dbus_path t),
   (mtu_read t, mtu_write t, bt_fd t), (thread_enc t, thread_dec t),
   (acquire t, release t), ref_count t,
   (a2dp_codec (a2dp t), a2dp_configuration_blob (a2dp t), a2dp_state (a2dp t),
    a2dp_delay (a2dp t), bt_fd_coutq_init (a2dp t), bluez_dbus_sep_path (a2dp t)),
   sco_rfcomm (sco t),
   (pcm_setup (a2dp_pcm (a2dp t)), pcm_setup (a2dp_pcm_bc (a2dp t)),
    pcm_setup (sco_spk_pcm (sco t)), pcm_setup (sco_mic_pcm (sco t)))).






(** ** Further sample inputs *)

(** An HFP audio gateway transport that is not acquired. *)
Definition idle_sco : ba_transport :=
  sample_transport BA_TRANSPORT_PROFILE_HFP_AG strategy_sco
    BLUEZ_A2DP_TRANSPORT_STATE_IDLE (-1).


(** A transport of no profile. *)
Definition bare_transport : ba_transport :=
  sample_transport BA_TRANSPORT_PROFILE_NONE strategy_sco
    BLUEZ_A2DP_TRANSPORT_STATE_IDLE (-1).

(** The sample platform with an allocator and an RFCOMM layer that may fail. *)
Definition frugal_platform (no_memory : bool) (rfcomm : option Z) : platform :=
  {| ENABLE_MSBC := true;
     codecs := sample_codecs;
     config_main_thread := 100;
     config_a2dp_volume := true;
     pthread_self := 100;
     BT_VOICE_CVSD_16BIT := 96;
     BT_VOICE_TRANSPARENT := 3;
     dbus_send_message_with_reply_sync := fun _ _ _ => DBusNoReply;
     dbus_set_property_fails := fun _ _ _ _ => true;
     setsockopt_sndbuf := fun _ _ => 0;
     ioctl_tiocoutq := fun _ => (0, Some 0);
     hci_sco_open := fun _ => 9;
     hci_sco_connect := fun _ _ _ => 0;
     hci_sco_get_mtu := fun _ => 48;
     pipe_write := fun _ _ => 4;
     pipe_create := fun th => match snd th with slot_enc => Some (20, 21) | slot_dec => Some (22, 23) end;
     pthread_cancel := fun _ => 0;
     pthread_join := fun _ => 0;
     ESRCH := 3;
     pthread_create := fun _ => inr 11;
     a2dp_audio_thread_create := fun _ w => (0, w);
     ba_rfcomm_new := fun _ _ => rfcomm;
     calloc_fails := no_memory;
     strdup_fails := fun _ => false;
     a2dp_codec_lookup_channels := fun _ _ _ => 2;
     a2dp_codec_lookup_frequency := fun _ _ _ => 44100;
     scaled_loudness := fun value max => if value <? 0 then 0 else max |}.

(** An SBC configuration, and the type of an A2DP sink that uses it. *)
Definition sbc_configuration : a2dp_configuration :=
  {| cfg_channel_mode := 1; cfg_frequency := 2; cfg_direction := 0;
     cfg_frequency_music := 0; cfg_frequency_voice := 0 |}.

Definition a2dp_sink_sbc : ba_transport_type :=
  {| profile := BA_TRANSPORT_PROFILE_A2DP_SINK; codec := 0 |}.

(** * Properties *)

Section Properties.

Variable P : platform.

(** Unfolding of the computation combinators, with the lookups of the
    pointer [H] speaks about resolved. *)
Ltac run H :=
  unfold modify, when, debug, warn, error;
  unfold bind, emit, ret, load, store, get_world, put_world, abort;
  simpl;
  repeat (first [rewrite H | rewrite lookup_insert_eq]; simpl).

Ltac split_if :=
  match goal with
  | |- context [if ?c then _ else _] =>
      match type of c with bool => destruct c eqn:?; simpl end
  end.

Lemma load_live (p : tptr) (w : world) (t : ba_transport) :
  heap w !! p = Some t -> load p w = Returns t w [].
Proof. intros H. unfold load. now rewrite H. Qed.

Lemma store_live (p : tptr) (w : world) (t t' : ba_transport) :
  heap w !! p = Some t ->
  store p t' w = Returns tt (set_heap (<[p := t']> (heap w)) w) [].
Proof. intros H. unfold store. now rewrite H. Qed.

Lemma heap_store (p : tptr) (w : world) (t' : ba_transport) :
  heap (set_heap (<[p := t']> (heap w)) w) !! p = Some t'.
Proof. simpl. apply lookup_insert_eq. Qed.


Lemma release_sco_closed (p : tptr) (w : world) (t : ba_transport) :
  heap w !! p = Some t ->
  exists w' evs,
    transport_release_bt_sco p w = Returns 0 w' evs /\
    bt_fd_at w' p = Some (-1) /\
    Forall (fun e => is_rpc e = false) evs.
Proof.
  intros H. unfold transport_release_bt_sco, bt_fd_at. run H.
  destruct (Z.eqb_spec (bt_fd t) (-1)) as [E|E]; run H.
  - do 2 eexists. split; [reflexivity|]. rewrite H. simpl.
    split; [now rewrite E | repeat constructor].
  - do 2 eexists. split; [reflexivity|]. rewrite heap_store. simpl.
    split; [reflexivity | repeat constructor].
Qed.

Lemma release_sco_again (p : tptr) (w : world) (t : ba_transport) :
  heap w !! p = Some t -> bt_fd t = -1 ->
  transport_release_bt_sco p w
  = Returns 0 w [EvMutexLock (bt_fd_mtx p); EvMutexUnlock (bt_fd_mtx p)].
Proof.
  intros H E. unfold transport_release_bt_sco. run H.
  rewrite E. reflexivity.
Qed.

Lemma release_a2dp_again (p : tptr) (w : world) (t : ba_transport) :
  heap w !! p = Some t -> bt_fd t = -1 ->
  transport_release_bt_a2dp P p w
  = Returns 0 w [EvMutexLock (bt_fd_mtx p); EvMutexUnlock (bt_fd_mtx p)].
Proof.
  intros H E. unfold transport_release_bt_a2dp. run H.
  rewrite E. reflexivity.
Qed.

(** The A2DP release either closes the descriptor and returns 0, or is
    refused by the daemon, returns -1 and touches nothing. *)
Lemma release_a2dp_outcome (p : tptr) (w : world) (t : ba_transport) :
  heap w !! p = Some t ->
  exists evs,
    if release_rpc_refused P t
    then transport_release_bt_a2dp P p w = Returns (-1) w evs
    else exists w', transport_release_bt_a2dp P p w = Returns 0 w' evs
                    /\ heap w' !! p = Some (set_bt_fd (-1) t).
Proof.
  intros H. unfold release_rpc_refused, transport_release_bt_a2dp. run H.
  destruct (Z.eqb_spec (bt_fd t) (-1)) as [E|E]; simpl.
  { eexists. eexists. split; [reflexivity|]. rewrite H. f_equal.
    destruct t; simpl in *; now subst. }
  destruct (state_is_idle (a2dp_state (a2dp t))); simpl.
  { run H. eexists. eexists. split; [reflexivity|]. apply heap_store. }
  destruct (bool_decide (is_Some (bluez_dbus_owner t))); simpl.
  2:{ run H. eexists. eexists. split; [reflexivity|]. apply heap_store. }
  destruct (dbus_send_message_with_reply_sync P _ _ _) as [|code|body fds]; simpl.
  - eexists. reflexivity.
  - destruct (dbus_error_is_soft code); simpl; run H.
    + eexists. eexists. split; [reflexivity|]. apply heap_store.
    + eexists. reflexivity.
  - run H. eexists. eexists. split; [reflexivity|]. apply heap_store.
Qed.

(** C1, as the code has it.  A release strategy called on a live transport
    returns 0 or -1.  The SCO release always returns 0; the A2DP release
    returns -1, leaving the store as it was, exactly when the daemon refuses
    the Release call ([release_rpc_refused]).  After a release that returned
    0 the Bluetooth descriptor is -1, and a second release returns 0 again,
    changes nothing and only takes and drops the bt-fd lock. *)
Theorem release_strategy_outcome (s : bt_strategy) (p : tptr) (w : world) (t : ba_transport)
    (Hlive : heap w !! p = Some t) :
  exists r w' evs,
    release_strategy P s p w = Returns r w' evs
    /\ r = (if match s with
               | strategy_a2dp => release_rpc_refused P t
               | strategy_sco => false
               end then -1 else 0)
    /\ (r = -1 -> w' = w)
    /\ (r = 0 ->
        bt_fd_at w' p = Some (-1)
        /\ release_strategy P s p w'
           = Returns 0 w' [EvMutexLock (bt_fd_mtx p); EvMutexUnlock (bt_fd_mtx p)]).
Proof.
  destruct s; simpl.
  - destruct (release_a2dp_outcome p w t Hlive) as [evs Hr].
    destruct (release_rpc_refused P t).
    + exists (-1), w, evs. repeat split; [assumption | discriminate | discriminate].
    + destruct Hr as (w' & Hr & Hw'). exists 0, w', evs.
      split; [assumption|]. split; [reflexivity|]. split; [discriminate|].
      intros _. split.
      * unfold bt_fd_at. now rewrite Hw'.
      * now apply (release_a2dp_again p w' _ Hw').
  - destruct (release_sco_closed p w t Hlive) as (w' & evs & Hr & Hfd & _).
    exists 0, w', evs. split; [assumption|]. split; [reflexivity|]. split; [discriminate|].
    intros _. split; [assumption|].
    unfold bt_fd_at in Hfd. destruct (heap w' !! p) as [t'|] eqn:Ht'; [|discriminate].
    apply (release_sco_again p w' t' Ht'). simpl in Hfd. congruence.
Qed.



Lemma acquire_a2dp_keep_alive (p : tptr) (w : world) (t : ba_transport) :
  heap w !! p = Some t -> bt_fd t <> -1 ->
  transport_acquire_bt_a2dp P p w
  = Returns (bt_fd t) w
      [EvMutexLock (bt_fd_mtx p); EvLog log_debug "Reusing transport: %d";
       EvMutexUnlock (bt_fd_mtx p)].
Proof.
  intros H E. unfold transport_acquire_bt_a2dp. run H.
  destruct (Z.eqb_spec (bt_fd t) (-1)); [contradiction | reflexivity].
Qed.

Lemma acquire_sco_keep_alive (p : tptr) (w : world) (t : ba_transport) :
  heap w !! p = Some t -> bt_fd t <> -1 ->
  transport_acquire_bt_sco P p w
  = Returns (bt_fd t) w
      [EvMutexLock (bt_fd_mtx p); EvLog log_debug "Reusing SCO: %d";
       EvMutexUnlock (bt_fd_mtx p)].
Proof.
  intros H E. unfold transport_acquire_bt_sco. run H.
  destruct (Z.eqb_spec (bt_fd t) (-1)); [contradiction | reflexivity].
Qed.


(** An acquire that returns a descriptor leaves that descriptor in the
    transport. *)
Lemma acquire_strategy_sets_fd (s : bt_strategy) (p : tptr) (w w' : world)
    (t : ba_transport) (r : Z) (evs : list event) :
  heap w !! p = Some t ->
  acquire_strategy P s p w = Returns r w' evs ->
  r <> -1 ->
  exists t', heap w' !! p = Some t' /\ bt_fd t' = r.
Proof.
  intros H Hr Hne. revert Hr. destruct s; simpl.
  - unfold transport_acquire_bt_a2dp. run H.
    destruct (Z.eqb_spec (bt_fd t) (-1)) as [E|E]; simpl.
    + destruct (dbus_send_message_with_reply_sync P _ _ _) as [|code|body fds]; simpl;
        try (intros [= <- <- <-]; congruence).
      run H. destruct (snd (ioctl_tiocoutq P _)) as [q|]; run H;
        repeat (split_if; run H); intros [= <- <- <-];
        (eexists; split; [apply lookup_insert_eq | reflexivity]).
    + intros [= <- <- <-]. exists t. split; [assumption | reflexivity].
  - unfold transport_acquire_bt_sco. run H.
    destruct (Z.eqb_spec (bt_fd t) (-1)) as [E|E]; simpl.
    + repeat (split_if; run H); intros [= <- <- <-]; try congruence;
        (eexists; split; [apply lookup_insert_eq | reflexivity]).
    + intros [= <- <- <-]. exists t. split; [assumption | reflexivity].
Qed.

(** C2.  On a transport whose Bluetooth descriptor is not -1, either acquire
    strategy returns that descriptor, leaves the whole store (so bt_fd,
    mtu_read and mtu_write) as it was, and makes no remote call and no socket
    call.  Hence the acquire that follows an acquire which returned a
    descriptor returns the same descriptor and changes nothing. *)
Theorem acquire_strategy_keep_alive (s : bt_strategy) (p : tptr) (w : world) (t : ba_transport)
    (Hlive : heap w !! p = Some t) :
  (bt_fd t <> -1 ->
   exists evs,
     acquire_strategy P s p w = Returns (bt_fd t) w evs /\ Forall quiet evs)
  /\ (forall (r : Z) (w1 : world) (evs1 : list event),
        acquire_strategy P s p w = Returns r w1 evs1 ->
        r <> -1 ->
        exists evs,
          acquire_strategy P s p w1 = Returns r w1 evs /\ Forall quiet evs).
Proof.
  assert (Hk : forall w t, heap w !! p = Some t -> bt_fd t <> -1 ->
     exists evs,
       acquire_strategy P s p w = Returns (bt_fd t) w evs /\ Forall quiet evs).
  { clear. intros w t Hlive Hfd. destruct s; simpl.
    - rewrite (acquire_a2dp_keep_alive p w t Hlive Hfd).
      eexists. split; [reflexivity|]. repeat constructor.
    - rewrite (acquire_sco_keep_alive p w t Hlive Hfd).
      eexists. split; [reflexivity|]. repeat constructor. }
  split; [now apply Hk|].
  intros r w1 evs1 Hr Hne.
  destruct (acquire_strategy_sets_fd s p w w1 t r evs1 Hlive Hr Hne) as (t1 & Ht1 & <-).
  now apply Hk.
Qed.



(** What an A2DP acquire does on a transport that is not acquired: one
    method call, [TryAcquire] in the pending state and [Acquire] otherwise;
    without a method return the store is left alone and -1 comes back; with
    one, both MTUs of the reply are stored and the descriptor attached at
    index 0 becomes the Bluetooth descriptor, whatever handle the reply
    carries. *)
Lemma acquire_a2dp_rpc (p : tptr) (w : world) (t : ba_transport) :
  heap w !! p = Some t -> bt_fd t = -1 ->
  exists r w' rest,
    transport_acquire_bt_a2dp P p w
    = Returns r w'
        (EvMutexLock (bt_fd_mtx p)
         :: EvDBusMethodCall (bluez_dbus_owner t) (bluez_dbus_path t) (acquire_method t)
         :: rest)
    /\ Forall (fun e => is_rpc e = false) rest
    /\ match dbus_send_message_with_reply_sync P (bluez_dbus_owner t) (bluez_dbus_path t)
               (acquire_method t) with
       | DBusMethodReturn body fd_list =>
           r = g_unix_fd_list_get fd_list 0
           /\ exists t', heap w' !! p = Some t'
                /\ mtu_read t' = rep_mtu_read body
                /\ mtu_write t' = rep_mtu_write body
                /\ bt_fd t' = g_unix_fd_list_get fd_list 0
       | _ => r = -1 /\ w' = w
       end.
Proof.
  intros H E. unfold transport_acquire_bt_a2dp, acquire_method. run H.
  rewrite E. simpl.
  destruct (dbus_send_message_with_reply_sync P _ _ _) as [|code|body fds]; simpl.
  - do 3 eexists. split; [reflexivity|]. split; [repeat constructor | now split].
  - do 3 eexists. split; [reflexivity|]. split; [repeat constructor | now split].
  - run H. destruct (snd (ioctl_tiocoutq P _)) as [q|]; run H;
      repeat (split_if; run H);
      (do 3 eexists; split; [reflexivity|]; split; [repeat constructor|];
       split; [reflexivity|]; eexists; split; [apply lookup_insert_eq|];
       repeat split; reflexivity).
Qed.


Lemma bind_silent {A B : Type} (m : M A) (k : A -> M B) (w w1 : world) (a : A) :
  m w = Returns a w1 [] -> bind m k w = k a w1.
Proof. intros H. unfold bind. rewrite H. now destruct (k a w1). Qed.

(** C4.  [ba_transport_set_a2dp_state] first stores the new state, whatever
    the old one was, and then does what the new state asks for and nothing
    else: in the pending state it calls acquire when the profile is exactly
    A2DP sink and returns 0 at once otherwise, in the active state it calls
    start, and in the idle state, as for any value outside the enumeration,
    it calls stop.  The value returned is that of the call made. *)
Theorem set_a2dp_state_effect (p : tptr) (w : world) (t : ba_transport)
    (state : bluez_a2dp_transport_state) (Hlive : heap w !! p = Some t) :
  let w1 := with_transport p (with_a2dp_state state t) w in
  heap w1 !! p = Some (with_a2dp_state state t)
  /\ a2dp_state (a2dp (with_a2dp_state state t)) = state
  /\ ba_transport_set_a2dp_state P p state w
     = match state with
       | BLUEZ_A2DP_TRANSPORT_STATE_PENDING =>
           if profile (t_type t) =? BA_TRANSPORT_PROFILE_A2DP_SINK
           then ba_transport_acquire P p w1
           else Returns 0 w1 []
       | BLUEZ_A2DP_TRANSPORT_STATE_ACTIVE => ba_transport_start P p w1
       | BLUEZ_A2DP_TRANSPORT_STATE_IDLE
       | BLUEZ_A2DP_TRANSPORT_STATE_other _ => ba_transport_stop P p w1
       end.
Proof.
  intros w1.
  assert (H1 : heap w1 !! p = Some (with_a2dp_state state t)) by apply heap_store.
  split; [exact H1|]. split; [reflexivity|].
  unfold ba_transport_set_a2dp_state.
  assert (Hm : modify p (fun t => set_a2dp (set_a2dp_state state (a2dp t)) t) w
               = Returns tt w1 []) by (unfold modify; now run Hlive).
  rewrite (bind_silent _ _ _ _ _ Hm).
  destruct state; try reflexivity.
  rewrite (bind_silent _ _ _ _ _ (load_live _ _ _ H1)). simpl.
  now destruct (profile (t_type t) =? BA_TRANSPORT_PROFILE_A2DP_SINK).
Qed.


(** C10.  On a live transport, drop writes [PCM_DROP] to the write end of the
    pipe of the encoder slot, whichever worker the endpoint belongs to, while
    pause and resume write their signal to the pipe of the endpoint's own
    worker [pcm->th].  Each of the three makes that single write, returns 0
    and leaves the store alone, whatever [write] returns. *)
Theorem pcm_signal_targets (pcm : pcm_ptr) (w : world) (t : ba_transport)
    (Hlive : heap w !! pcm.1 = Some t) :
  ba_transport_pcm_drop P pcm w
  = Returns 0 w [EvPipeWrite (th_pipe1 (thread_enc t)) BA_TRANSPORT_SIGNAL_PCM_DROP;
                 EvLog log_debug "PCM dropped: %d"]
  /\ forall s : thread_slot,
       pcm_th (get_pcm pcm.2 t) = Some s ->
       ba_transport_pcm_pause P pcm w
       = Returns 0 w [EvPipeWrite (th_pipe1 (get_thread s t)) BA_TRANSPORT_SIGNAL_PCM_PAUSE;
                      EvLog log_debug "PCM paused: %d"]
       /\ ba_transport_pcm_resume P pcm w
          = Returns 0 w [EvPipeWrite (th_pipe1 (get_thread s t)) BA_TRANSPORT_SIGNAL_PCM_RESUME;
                         EvLog log_debug "PCM resumed: %d"].
Proof.
  split.
  - unfold ba_transport_pcm_drop, ba_transport_thread_send_signal. now run Hlive.
  - intros s Hs.
    unfold ba_transport_pcm_pause, ba_transport_pcm_resume, pcm_thread,
      ba_transport_thread_send_signal.
    run Hlive. rewrite Hs. now run Hlive.
Qed.

(** What the voice codec mapping leaves in a PCM endpoint. *)
Lemma set_codec_sco_result (p : tptr) (w : world) (t : ba_transport) :
  heap w !! p = Some t ->
  let rate :=
    if codec (t_type t) =? HFP_CODEC_CVSD then 8000
    else if codec (t_type t) =? HFP_CODEC_MSBC then 16000 else 0 in
  let fit (c : ba_transport_pcm) :=
    set_sampling rate (set_channels 1 (set_pcm_format BA_TRANSPORT_PCM_FORMAT_S16_2LE c)) in
  let known :=
    (codec (t_type t) =? HFP_CODEC_CVSD) || (codec (t_type t) =? HFP_CODEC_MSBC)
    || (codec (t_type t) =? HFP_CODEC_UNDEFINED) in
  ba_transport_set_codec_sco p w
  = Returns tt
      (with_transport p
         (set_sco (set_sco_mic_pcm (fit (sco_mic_pcm (sco t)))
                    (set_sco_spk_pcm (fit (sco_spk_pcm (sco t))) (sco t))) t) w)
      (if known then [] else [EvLog log_debug "Unsupported SCO codec: %#x"]).
Proof.
  intros H. unfold ba_transport_set_codec_sco, with_transport. run H.
  destruct (codec (t_type t) =? HFP_CODEC_CVSD); run H; [reflexivity|].
  destruct (codec (t_type t) =? HFP_CODEC_MSBC); run H; [reflexivity|].
  destruct (codec (t_type t) =? HFP_CODEC_UNDEFINED); now run H.
Qed.

(** C6, as the code has it.  On a live transport the voice codec mapping
    always returns: it sets both PCM endpoints to one channel of signed
    16-bit little-endian samples and to the rate 8000 for CVSD, 16000 for
    mSBC and 0 for every other codec identifier.  An identifier that is none
    of CVSD, mSBC and undefined only adds a debug message; nothing is
    asserted. *)
Theorem set_codec_sco_mapping (p : tptr) (w : world) (t : ba_transport)
    (Hlive : heap w !! p = Some t) :
  exists w' t' evs,
    ba_transport_set_codec_sco p w = Returns tt w' evs
    /\ heap w' !! p = Some t'
    /\ (forall c, c = sco_spk_pcm (sco t') \/ c = sco_mic_pcm (sco t') ->
          channels c = 1
          /\ pcm_format c = BA_TRANSPORT_PCM_FORMAT_S16_2LE
          /\ (codec (t_type t) = HFP_CODEC_CVSD -> sampling c = 8000)
          /\ (codec (t_type t) = HFP_CODEC_MSBC -> sampling c = 16000)
          /\ (codec (t_type t) <> HFP_CODEC_CVSD -> codec (t_type t) <> HFP_CODEC_MSBC ->
              sampling c = 0))
    /\ (codec (t_type t) = HFP_CODEC_CVSD \/ codec (t_type t) = HFP_CODEC_MSBC
        \/ codec (t_type t) = HFP_CODEC_UNDEFINED -> evs = [])
    /\ (codec (t_type t) <> HFP_CODEC_CVSD -> codec (t_type t) <> HFP_CODEC_MSBC ->
        codec (t_type t) <> HFP_CODEC_UNDEFINED ->
        evs = [EvLog log_debug "Unsupported SCO codec: %#x"]).
Proof.
  pose proof (set_codec_sco_result p w t Hlive) as Hr. simpl in Hr.
  do 3 eexists. split; [exact Hr|]. split; [apply heap_store|].
  unfold HFP_CODEC_CVSD, HFP_CODEC_MSBC, HFP_CODEC_UNDEFINED in *.
  split; [|split].
  - intros c [-> | ->]; simpl; (split; [reflexivity|]); (split; [reflexivity|]);
      destruct (Z.eqb_spec (codec (t_type t)) 1), (Z.eqb_spec (codec (t_type t)) 2);
      repeat split; intros; (reflexivity || lia).
  - intros Hk.
    destruct (Z.eqb_spec (codec (t_type t)) 1), (Z.eqb_spec (codec (t_type t)) 2),
      (Z.eqb_spec (codec (t_type t)) 0); simpl; (reflexivity || lia).
  - intros H1 H2 H0.
    destruct (Z.eqb_spec (codec (t_type t)) 1), (Z.eqb_spec (codec (t_type t)) 2),
      (Z.eqb_spec (codec (t_type t)) 0); simpl; (reflexivity || lia).
Qed.



Lemma with_transport_same (p : tptr) (t : ba_transport) (w : world) :
  heap w !! p = Some t -> with_transport p t w = w.
Proof.
  intros H. destruct w as [h tb r]. unfold with_transport, set_heap. simpl in *.
  f_equal. now apply insert_id.
Qed.

Lemma heap_with_transport (p : tptr) (t : ba_transport) (w : world) :
  heap (with_transport p t w) !! p = Some t.
Proof. apply lookup_insert_eq. Qed.

Lemma bind_step {A B : Type} (m : M A) (k : A -> M B) (w w1 : world) (a : A) (e1 : list event) :
  m w = Returns a w1 e1 ->
  bind m k w = match k a w1 with
               | Returns b w2 e2 => Returns b w2 (e1 ++ e2)
               | Aborted e2 => Aborted (e1 ++ e2)
               end.
Proof. intros H. unfold bind. now rewrite H. Qed.

Lemma pcm_release_run (pcm : pcm_ptr) (w : world) (t : ba_transport) :
  heap w !! pcm.1 = Some t ->
  ba_transport_pcm_release pcm w
  = Returns 0 (with_transport pcm.1 (close_pcm pcm.2 t) w)
      (pcm_release_events (get_pcm pcm.2 t)).
Proof.
  intros H. unfold ba_transport_pcm_release, close_pcm, pcm_release_events. run H.
  destruct (pcm_fd (get_pcm pcm.2 t) =? -1); run H.
  - now rewrite with_transport_same.
  - reflexivity.
Qed.

Lemma close_pcm_path (sel : pcm_sel) (t : ba_transport) :
  pcm_ba_dbus_path (get_pcm sel (close_pcm sel t)) = pcm_ba_dbus_path (get_pcm sel t).
Proof.
  unfold close_pcm. destruct (pcm_fd (get_pcm sel t) =? -1); [reflexivity|].
  now destruct sel.
Qed.

Lemma pcm_free_run (pcm : pcm_ptr) (w : world) (t : ba_transport) :
  heap w !! pcm.1 = Some t ->
  transport_pcm_free pcm w
  = Returns tt (with_transport pcm.1 (close_pcm pcm.2 t) w)
      (pcm_free_events pcm (get_pcm pcm.2 t)).
Proof.
  intros H. unfold transport_pcm_free, pcm_free_events.
  unfold bind at 1. unfold emit at 1.
  rewrite (bind_step _ _ _ _ _ _ (pcm_release_run pcm w t H)).
  run heap_with_transport. rewrite close_pcm_path.
  destruct (bool_decide _); simpl; rewrite <- ?app_assoc; reflexivity.
Qed.

Lemma thread_free_run (th : thread_ptr) (w : world) (t : ba_transport) :
  heap w !! th.1 = Some t ->
  transport_thread_free th w
  = Returns tt w (thread_free_events th (get_thread th.2 t)).
Proof.
  intros H. unfold transport_thread_free, thread_free_events. run H.
  destruct (th_pipe0 _ =? -1), (th_pipe1 _ =? -1); reflexivity.
Qed.


Lemma get_pcm_close_pcm (sel sel' : pcm_sel) (t : ba_transport) :
  sel <> sel' -> get_pcm sel' (close_pcm sel t) = get_pcm sel' t.
Proof.
  intros Hne. unfold close_pcm. destruct (pcm_fd (get_pcm sel t) =? -1); [reflexivity|].
  destruct sel, sel'; try reflexivity; contradiction.
Qed.

Lemma get_thread_close_pcm (s : thread_slot) (sel : pcm_sel) (t : ba_transport) :
  get_thread s (close_pcm sel t) = get_thread s t.
Proof.
  unfold close_pcm. destruct (pcm_fd (get_pcm sel t) =? -1); [reflexivity|].
  now destruct sel, s.
Qed.


Lemma bind_returns {A B : Type} (m : M A) (k : A -> M B) (w w1 w2 : world)
    (a : A) (b : B) (e1 e2 : list event) :
  m w = Returns a w1 e1 -> k a w1 = Returns b w2 e2 ->
  bind m k w = Returns b w2 (e1 ++ e2)%list.
Proof. intros H1 H2. unfold bind. now rewrite H1, H2. Qed.



Ltac live :=
  first [ eassumption | apply heap_with_transport | simpl; apply lookup_insert_eq ].

Ltac mstep :=
  lazymatch goal with
  | |- bind _ _ _ = Returns _ _ _ => eapply bind_returns; [ mstep | cbv beta ]
  | |- load _ _ = _ => apply load_live; live
  | |- store _ _ _ = _ => eapply store_live; live
  | |- transport_pcm_free _ _ = _ => apply pcm_free_run; live
  | |- transport_thread_free _ _ = _ => apply thread_free_run; live
  | |- _ => reflexivity
  end.

Lemma unref_final (p : tptr) (w : world) (t : ba_transport) :
  heap w !! p = Some t -> ref_count t = 1 ->
  ba_transport_unref p w
  = Returns tt (without_transport p t w)
      (unref_detach_events p t ++ unref_release_events p t)%list.
Proof.
  intros H Hrc.
  enough (exists W E, ba_transport_unref p w = Returns tt W E
            /\ W = without_transport p t w
            /\ E = (unref_detach_events p t ++ unref_release_events p t)%list)
    as (W & E & -> & -> & ->) by reflexivity.
  unfold unref_release_events, payload_free_events.
  destruct (bt_fd t =? -1) eqn:Efd;
  destruct (test_bits (profile (t_type t)) BA_TRANSPORT_PROFILE_MASK_A2DP) eqn:Ea;
  try destruct (test_bits (profile (t_type t)) BA_TRANSPORT_PROFILE_MASK_SCO) eqn:Es;
  try destruct (sco_rfcomm (sco t)) as [r|] eqn:Er;
  (eexists _, _; split;
   [ unfold ba_transport_unref, when; eapply bind_returns; [mstep|]; cbv beta zeta;
     rewrite Hrc, Efd, Ea, ?Es, ?Er; change (1 - 1) with 0;
     cbn [Z.eqb Z.gtb Z.compare negb]; repeat mstep
   | split;
     [ unfold without_transport, with_transport; simpl; f_equal;
       now rewrite !delete_insert_eq
     | cbn [fst snd];
       rewrite ?get_thread_close_pcm, ?(get_pcm_close_pcm sel_a2dp_pcm sel_a2dp_pcm_bc),
         ?(get_pcm_close_pcm sel_sco_spk_pcm sel_sco_mic_pcm) by discriminate;
       repeat (progress (simpl; rewrite <- ?app_assoc)); reflexivity ] ]).
Qed.

Lemma unref_keeps (p : tptr) (w : world) (t : ba_transport) :
  heap w !! p = Some t -> 1 < ref_count t ->
  ba_transport_unref p w
  = Returns tt (with_transport p (set_ref_count (ref_count t - 1) t) w)
      [EvMutexLock transports_mutex; EvRefCount p (ref_count t - 1);
       EvMutexUnlock transports_mutex].
Proof.
  intros H Hrc. unfold ba_transport_unref. run H.
  destruct (Z.eqb_spec (ref_count t - 1) 0); [lia|]. simpl.
  destruct (Z.gtb_spec (ref_count t - 1) 0); [reflexivity | lia].
Qed.

Lemma unref_asserts (p : tptr) (w : world) (t : ba_transport) :
  heap w !! p = Some t -> ref_count t < 1 ->
  ba_transport_unref p w
  = Aborted [EvMutexLock transports_mutex; EvRefCount p (ref_count t - 1);
             EvMutexUnlock transports_mutex; EvLog log_debug "Freeing transport: %s"].
Proof.
  intros H Hrc. unfold ba_transport_unref. run H.
  destruct (Z.eqb_spec (ref_count t - 1) 0); [lia|]. simpl.
  destruct (Z.gtb_spec (ref_count t - 1) 0); [lia | reflexivity].
Qed.

Lemma unref_dangling (p : tptr) (w : world) :
  heap w !! p = None -> ba_transport_unref p w = Aborted [].
Proof. intros H. unfold ba_transport_unref. now run H. Qed.

Lemma ref_run (p : tptr) (w : world) :
  ba_transport_ref p w
  = match heap w !! p with
    | Some t =>
        Returns p (with_transport p (set_ref_count (ref_count t + 1) t) w)
          [EvMutexLock transports_mutex; EvRefCount p (ref_count t + 1);
           EvMutexUnlock transports_mutex]
    | None => Aborted []
    end.
Proof.
  unfold ba_transport_ref. destruct (heap w !! p) as [t|] eqn:H; now run H.
Qed.

Lemma lookup_run (k : string) (w : world) :
  ba_transport_lookup k w
  = match transports w !! k with
    | Some q =>
        match heap w !! q with
        | Some t =>
            Returns (Some q) (with_transport q (set_ref_count (ref_count t + 1) t) w)
              [EvMutexLock transports_mutex; EvRefCount q (ref_count t + 1);
               EvMutexUnlock transports_mutex]
        | None => Aborted [EvMutexLock transports_mutex]
        end
    | None =>
        Returns None w [EvMutexLock transports_mutex; EvMutexUnlock transports_mutex]
    end.
Proof.
  unfold ba_transport_lookup. run (@eq_refl nat 0%nat).
  destruct (transports w !! k) as [q|]; [|reflexivity].
  destruct (heap w !! q) as [t|] eqn:H; now run H.
Qed.

Lemma frees_app (p : tptr) (a b : list event) :
  frees p (a ++ b) = (frees p a + frees p b)%nat.
Proof. unfold frees. now rewrite List.filter_app, List.length_app. Qed.

Lemma frees_pcm_free (p : tptr) (pcm : pcm_ptr) (c : ba_transport_pcm) :
  frees p (pcm_free_events pcm c) = 0%nat.
Proof.
  unfold pcm_free_events, pcm_release_events.
  destruct (pcm_fd c =? -1), (bool_decide (is_Some (pcm_ba_dbus_path c))); reflexivity.
Qed.

Lemma frees_thread_free (p : tptr) (th : thread_ptr) (h : ba_transport_thread) :
  frees p (thread_free_events th h) = 0%nat.
Proof.
  unfold thread_free_events.
  destruct (th_pipe0 h =? -1), (th_pipe1 h =? -1); reflexivity.
Qed.

Lemma frees_payload_free (p q : tptr) (t : ba_transport) :
  frees p (payload_free_events q t) = 0%nat.
Proof.
  unfold payload_free_events.
  destruct (test_bits _ BA_TRANSPORT_PROFILE_MASK_A2DP).
  - now rewrite !frees_app, !frees_pcm_free.
  - destruct (test_bits _ BA_TRANSPORT_PROFILE_MASK_SCO); [|reflexivity].
    rewrite !frees_app, !frees_pcm_free. now destruct (sco_rfcomm (sco t)).
Qed.

Lemma frees_unref_final (p q : tptr) (t : ba_transport) :
  frees p (unref_detach_events q t ++ unref_release_events q t)
  = if Pos.eqb p q then 1%nat else 0%nat.
Proof.
  unfold unref_release_events.
  rewrite !frees_app, frees_payload_free, !frees_thread_free.
  unfold frees. simpl. destruct (bt_fd t =? -1); simpl; now destruct (Pos.eqb p q).
Qed.

Lemma events_bind {A B : Type} (m : M A) (k : A -> M B) (w : world) :
  outcome_events (bind m k w)
  = (outcome_events (m w)
     ++ match m w with
        | Returns a w1 _ => outcome_events (k a w1)
        | Aborted _ => []
        end)%list.
Proof.
  unfold bind. destruct (m w) as [a w1 e1|e1]; simpl.
  - now destruct (k a w1).
  - now rewrite app_nil_r.
Qed.

(** The outcome of an unref, by the reference count it finds. *)
Lemma unref_run (q : tptr) (w : world) :
  ba_transport_unref q w
  = match heap w !! q with
    | None => Aborted []
    | Some t =>
        if 1 <? ref_count t then
          Returns tt (with_transport q (set_ref_count (ref_count t - 1) t) w)
            [EvMutexLock transports_mutex; EvRefCount q (ref_count t - 1);
             EvMutexUnlock transports_mutex]
        else if ref_count t =? 1 then
          Returns tt (without_transport q t w)
            (unref_detach_events q t ++ unref_release_events q t)
        else
          Aborted [EvMutexLock transports_mutex; EvRefCount q (ref_count t - 1);
                   EvMutexUnlock transports_mutex;
                   EvLog log_debug "Freeing transport: %s"]
    end.
Proof.
  destruct (heap w !! q) as [t|] eqn:H; [|now apply unref_dangling].
  destruct (Z.ltb_spec 1 (ref_count t)); [now apply unref_keeps|].
  destruct (Z.eqb_spec (ref_count t) 1); [now apply unref_final|].
  apply (unref_asserts q w t); [assumption | lia].
Qed.

(** On a store without [p], no client operation frees [p] or brings it
    back. *)
Lemma run_op_absent (p : tptr) (o : client_op) (w : world) :
  heap w !! p = None ->
  frees p (outcome_events (run_op o w)) = 0%nat
  /\ forall w' e, run_op o w = Returns tt w' e -> heap w' !! p = None.
Proof.
  intros Hp. destruct o as [q|q|k]; simpl.
  - unfold bind. rewrite ref_run. destruct (heap w !! q) as [t|] eqn:Hq; simpl.
    + split; [reflexivity|]. intros w' e [= <- <-].
      simpl. rewrite lookup_insert_ne; [assumption | congruence].
    + split; [reflexivity | discriminate].
  - rewrite unref_run. destruct (heap w !! q) as [t|] eqn:Hq; cbn [outcome_events].
    + assert (Hne : q <> p) by congruence.
      destruct (1 <? ref_count t); [|destruct (ref_count t =? 1)]; cbn [outcome_events].
      * split; [reflexivity|]. intros w' e [= <- <-].
        simpl. now rewrite lookup_insert_ne.
      * split.
        -- rewrite frees_unref_final.
           destruct (Pos.eqb_spec p q); [congruence | reflexivity].
        -- intros w' e [= <- <-]. simpl. now rewrite lookup_delete_ne.
      * split; [reflexivity | discriminate].
    + split; [reflexivity | discriminate].
  - unfold bind. rewrite lookup_run.
    destruct (transports w !! k) as [q|]; simpl.
    + destruct (heap w !! q) as [t|] eqn:Hq; simpl.
      * split; [reflexivity|]. intros w' e [= <- <-].
        simpl. rewrite lookup_insert_ne; [assumption | congruence].
      * split; [reflexivity | discriminate].
    + split; [reflexivity|]. now intros w' e [= <- <-].
Qed.

Lemma run_ops_absent (p : tptr) (os : list client_op) (w : world) :
  heap w !! p = None -> frees p (outcome_events (run_ops os w)) = 0%nat.
Proof.
  revert w. induction os as [|o os IH]; intros w Hp; [reflexivity|].
  simpl. rewrite events_bind, frees_app.
  destruct (run_op_absent p o w Hp) as [-> Hw].
  destruct (run_op o w) as [[] w1 e1|e1]; [|reflexivity].
  apply IH. now apply (Hw w1 e1).
Qed.

(** One client operation frees [p] at most once, and leaves a store without
    [p] when it does. *)
Lemma run_op_frees (p : tptr) (o : client_op) (w : world) :
  frees p (outcome_events (run_op o w)) = 0%nat
  \/ (frees p (outcome_events (run_op o w)) = 1%nat
      /\ forall w' e, run_op o w = Returns tt w' e -> heap w' !! p = None).
Proof.
  destruct o as [q|q|k]; simpl.
  - left. unfold bind. rewrite ref_run. now destruct (heap w !! q).
  - rewrite unref_run. destruct (heap w !! q) as [t|]; cbn [outcome_events]; [|now left].
    destruct (1 <? ref_count t); [now left|].
    destruct (ref_count t =? 1); [|now left]. cbn [outcome_events].
    rewrite frees_unref_final. destruct (Pos.eqb_spec p q) as [->|]; [right | now left].
    split; [reflexivity|]. intros w' e [= <- <-]. simpl. apply lookup_delete_eq.
  - left. unfold bind. rewrite lookup_run.
    destruct (transports w !! k) as [q|]; [|reflexivity].
    now destruct (heap w !! q).
Qed.

Lemma run_ops_frees_once (p : tptr) (os : list client_op) (w : world) :
  (frees p (outcome_events (run_ops os w)) <= 1)%nat.
Proof.
  revert w. induction os as [|o os IH]; intros w; [compute; lia|].
  simpl. rewrite events_bind, frees_app.
  destruct (run_op_frees p o w) as [-> | [-> Hw]].
  - destruct (run_op o w) as [[] w1 e1|e1]; [apply IH | unfold frees; simpl; lia].
  - destruct (run_op o w) as [[] w1 e1|e1]; [|unfold frees; simpl; lia].
    rewrite (run_ops_absent p os w1); [lia|]. now apply (Hw w1 e1).
Qed.

(** C9, as the code has it.  An unref of a live transport takes the lock of
    the device's transports table, decrements the count and, when the count
    has become zero, detaches the transport from the table, all before it
    drops the lock; with a count still positive nothing else happens.  After the
    lock is dropped, a count of zero makes it release, in this order: the
    Bluetooth descriptor if it is open, the reference to the device, the PCM
    endpoints (for SCO after the RFCOMM link), the configuration blob of an
    A2DP transport, the two worker-thread handles, the two mutexes, the two
    strings and the transport itself.  The transport is then no longer in the
    store, no path of the table leads to it (provided it was registered under
    its own path only), so no lookup returns it; and whatever sequence of
    ref, unref and lookup calls clients make, the transport is freed at most
    once. *)
Theorem unref_lifecycle (p : tptr) (w : world) (t : ba_transport)
    (Hlive : heap w !! p = Some t)
    (Hreg : forall k, transports w !! k = Some p -> bluez_dbus_path t = Some k) :
  (1 < ref_count t ->
   ba_transport_unref p w
   = Returns tt (with_transport p (set_ref_count (ref_count t - 1) t) w)
       [EvMutexLock transports_mutex; EvRefCount p (ref_count t - 1);
        EvMutexUnlock transports_mutex])
  /\ (ref_count t = 1 ->
      ba_transport_unref p w
      = Returns tt (without_transport p t w)
          (unref_detach_events p t ++ unref_release_events p t)
      /\ heap (without_transport p t w) !! p = None
      /\ (forall k, transports (without_transport p t w) !! k <> Some p)
      /\ (forall k r w' evs,
            ba_transport_lookup k (without_transport p t w) = Returns r w' evs ->
            r <> Some p))
  /\ (forall (os : list client_op) (w0 : world),
        (frees p (outcome_events (run_ops os w0)) <= 1)%nat).
Proof.
  split; [now apply unref_keeps|]. split; [|intros; apply run_ops_frees_once].
  intros Hrc.
  assert (Hgone : forall k, transports (without_transport p t w) !! k <> Some p).
  { intros k Hk. simpl in Hk. unfold table_steal in Hk.
    destruct (bluez_dbus_path t) as [k0|] eqn:Hpath.
    - destruct (decide (k = k0)) as [->|Hne].
      + now rewrite lookup_delete_eq in Hk.
      + rewrite lookup_delete_ne in Hk by congruence.
        specialize (Hreg k Hk). congruence.
    - specialize (Hreg k Hk). discriminate. }
  split; [now apply unref_final|]. split; [apply lookup_delete_eq|]. split; [exact Hgone|].
  intros k r w' evs. rewrite lookup_run.
  destruct (transports (without_transport p t w) !! k) as [q|] eqn:Hk.
  - destruct (heap (without_transport p t w) !! q); [|discriminate].
    intros [= <- _ _] [= ->]. now apply (Hgone k).
  - now intros [= <- _ _].
Qed.

Lemma bind_inv {A B : Type} (m : M A) (k : A -> M B) (w w2 : world) (b : B) (e : list event) :
  bind m k w = Returns b w2 e ->
  exists a w1 e1 e2, m w = Returns a w1 e1 /\ k a w1 = Returns b w2 e2 /\ e = (e1 ++ e2)%list.
Proof.
  unfold bind. destruct (m w) as [a w1 e1|]; [|discriminate].
  destruct (k a w1) as [b' w2' e2|] eqn:Hk; [|discriminate].
  intros [= <- <- <-]. now exists a, w1, e1, e2.
Qed.



Lemma transport_new_live (device : ba_device) (owner path : string)
    (w w1 : world) (p : tptr) (e : list event) :
  transport_new P device owner path w = Returns (Some p) w1 e ->
  exists t, heap w1 !! p = Some t.
Proof.
  unfold transport_new, transport_thread_init, ba_device_ref.
  destruct (calloc_fails P); [discriminate|].
  run (@eq_refl nat 0%nat).
  remember (fresh (dom (heap w))) as p0 eqn:Hp0. clear Hp0.
  destruct (pipe_create P (p0, slot_enc)) as [[r1 w1']|];
  destruct (pipe_create P (p0, slot_dec)) as [[r2 w2']|]; run (@eq_refl nat 0%nat);
  repeat (split_if; run (@eq_refl nat 0%nat));
  try (destruct (ba_transport_unref _ _); discriminate);
  intros ?; simplify_eq; eexists; apply lookup_insert_eq.
Qed.

Lemma set_codec_a2dp_frame (p : tptr) (w w1 : world) (t : ba_transport) (e : list event) :
  heap w !! p = Some t ->
  ba_transport_set_codec_a2dp P p w = Returns tt w1 e ->
  exists t1, heap w1 !! p = Some t1 /\ t_type t1 = t_type t /\ sco t1 = sco t.
Proof.
  intros H. unfold ba_transport_set_codec_a2dp, a2dp_config. run H.
  destruct (a2dp_configuration_blob (a2dp t)) as [c|]; run H;
    repeat (split_if; run H);
    intros ?; simplify_eq; (eexists; split; [apply lookup_insert_eq | now split]).
Qed.

Lemma set_codec_frame (p : tptr) (c : Z) (w w1 : world) (t : ba_transport) (e : list event) :
  heap w !! p = Some t ->
  ba_transport_set_codec P p c w = Returns tt w1 e ->
  exists t1, heap w1 !! p = Some t1
    /\ t_type t1 = set_codec c (t_type t)
    /\ max_bt_volume (sco_spk_pcm (sco t1)) = max_bt_volume (sco_spk_pcm (sco t))
    /\ max_bt_volume (sco_mic_pcm (sco t1)) = max_bt_volume (sco_mic_pcm (sco t))
    /\ pcm_mode (sco_spk_pcm (sco t1)) = pcm_mode (sco_spk_pcm (sco t))
    /\ pcm_mode (sco_mic_pcm (sco t1)) = pcm_mode (sco_mic_pcm (sco t)).
Proof.
  intros H Hr. unfold ba_transport_set_codec in Hr.
  apply bind_inv in Hr as ([] & w2 & e1 & e2 & Hm & Hr & ->).
  revert Hm. run H. intros [= <- <-].
  set (t2 := set_t_type (set_codec c (t_type t)) t) in *.
  assert (H2 : heap (set_heap (<[p := t2]> (heap w)) w) !! p = Some t2)
    by apply lookup_insert_eq.
  apply bind_inv in Hr as (t2' & w3 & e3 & e4 & Hl & Hr & ->).
  revert Hl. run H2. intros [= <- <-].
  apply bind_inv in Hr as ([] & w4 & e5 & e6 & Ha & Hs & ->).
  assert (Hmid : exists t3, heap w4 !! p = Some t3 /\ t_type t3 = t_type t2 /\ sco t3 = sco t2).
  { unfold when in Ha. destruct (test_bits _ BA_TRANSPORT_PROFILE_MASK_A2DP).
    - now apply (set_codec_a2dp_frame p _ w4 t2 e5 H2).
    - injection Ha as <- <-. now exists t2. }
  destruct Hmid as (t3 & H3 & Hty & Hsco).
  unfold when in Hs. destruct (test_bits _ BA_TRANSPORT_PROFILE_MASK_SCO).
  - rewrite (set_codec_sco_result p w4 t3 H3) in Hs. injection Hs as <- <-.
    eexists. split; [apply lookup_insert_eq|]. simpl. rewrite Hty, Hsco. now repeat split.
  - injection Hs as <- <-. exists t3. rewrite Hty, Hsco. now repeat split.
Qed.


Lemma new_sco_fields (device : ba_device) (type : ba_transport_type)
    (owner path : string) (rfcomm_fd : Z) (w w' : world) (p : tptr) (evs : list event)
    (Hnew : ba_transport_new_sco P device type owner path rfcomm_fd w
            = Returns (Some p) w' evs) :
  exists t, heap w' !! p = Some t
    /\ profile (t_type t) = profile type
    /\ codec (t_type t) = sco_codec_choice P device type
    /\ max_bt_volume (sco_spk_pcm (sco t)) = 15
    /\ pcm_mode (sco_spk_pcm (sco t)) = BA_TRANSPORT_PCM_MODE_SINK
    /\ max_bt_volume (sco_mic_pcm (sco t)) = 15
    /\ pcm_mode (sco_mic_pcm (sco t)) = BA_TRANSPORT_PCM_MODE_SOURCE.
Proof.
  unfold ba_transport_new_sco in Hnew.
  apply bind_inv in Hnew as ([p0|] & w1 & e1 & e2 & Hn & Hr & ->); [|discriminate].
  destruct (transport_new_live _ _ _ _ _ _ _ Hn) as (t0 & H0).
  revert Hr. unfold transport_pcm_init. run H0.
  set (ty := if ENABLE_MSBC P then _ else _).
  assert (Hty : profile ty = profile type /\ codec ty = sco_codec_choice P device type).
  { subst ty. unfold sco_codec_choice.
    destruct (test_bits _ _), (ENABLE_MSBC P), (esco_support _); now split. }
  clearbody ty.
  assert (Hfin : forall (W : world) (T : ba_transport) (w3 : world) (e3 : list event),
    heap W !! p0 = Some T -> t_type T = ty ->
    max_bt_volume (sco_spk_pcm (sco T)) = 15 ->
    pcm_mode (sco_spk_pcm (sco T)) = BA_TRANSPORT_PCM_MODE_SINK ->
    max_bt_volume (sco_mic_pcm (sco T)) = 15 ->
    pcm_mode (sco_mic_pcm (sco T)) = BA_TRANSPORT_PCM_MODE_SOURCE ->
    ba_transport_set_codec P p0 (codec ty) W = Returns tt w3 e3 ->
    exists t, heap w3 !! p0 = Some t
      /\ profile (t_type t) = profile type
      /\ codec (t_type t) = sco_codec_choice P device type
      /\ max_bt_volume (sco_spk_pcm (sco t)) = 15
      /\ pcm_mode (sco_spk_pcm (sco t)) = BA_TRANSPORT_PCM_MODE_SINK
      /\ max_bt_volume (sco_mic_pcm (sco t)) = 15
      /\ pcm_mode (sco_mic_pcm (sco t)) = BA_TRANSPORT_PCM_MODE_SOURCE).
  { intros W T w3 e3 H2 Ht2 Hs1 Hs2 Hm1 Hm2 Hsc.
    destruct (set_codec_frame _ _ _ _ _ _ H2 Hsc) as (t3 & H3 & Hty3 & Hv1 & Hv2 & Hd1 & Hd2).
    exists t3. split; [assumption|]. rewrite Hty3, Ht2, Hv1, Hv2, Hd1, Hd2.
    destruct Hty as [<- <-]. now destruct ty. }
  assert (Hgo : forall (W : world) (T : ba_transport) (o : outcome (option tptr)),
    heap W !! p0 = Some T -> t_type T = ty ->
    max_bt_volume (sco_spk_pcm (sco T)) = 15 ->
    pcm_mode (sco_spk_pcm (sco T)) = BA_TRANSPORT_PCM_MODE_SINK ->
    max_bt_volume (sco_mic_pcm (sco T)) = 15 ->
    pcm_mode (sco_mic_pcm (sco T)) = BA_TRANSPORT_PCM_MODE_SOURCE ->
    o = Returns (Some p) w' e2 ->
    (forall w3 e3, ba_transport_set_codec P p0 (codec ty) W = Returns tt w3 e3 ->
       exists e4, o = Returns (Some p0) w3 e4) ->
    (forall e3, ba_transport_set_codec P p0 (codec ty) W = Aborted e3 ->
       exists e4, o = Aborted e4) ->
    exists t, heap w' !! p = Some t
      /\ profile (t_type t) = profile type
      /\ codec (t_type t) = sco_codec_choice P device type
      /\ max_bt_volume (sco_spk_pcm (sco t)) = 15
      /\ pcm_mode (sco_spk_pcm (sco t)) = BA_TRANSPORT_PCM_MODE_SINK
      /\ max_bt_volume (sco_mic_pcm (sco t)) = 15
      /\ pcm_mode (sco_mic_pcm (sco t)) = BA_TRANSPORT_PCM_MODE_SOURCE).
  { intros W T o H2 Ht2 Hs1 Hs2 Hm1 Hm2 Ho Hret Habort.
    destruct (ba_transport_set_codec P p0 (codec ty) W) as [[] w3 e3|e3] eqn:Hsc.
    - destruct (Hret w3 e3 eq_refl) as (e4 & He4). rewrite Ho in He4.
      injection He4 as -> -> _. now apply (Hfin W T w3 e3).
    - destruct (Habort e3 eq_refl) as (e4 & He4). congruence. }
  destruct (rfcomm_fd =? -1); simpl.
  - intros Hr.
    match type of Hr with context [ba_transport_set_codec P p0 (codec ty) ?W] =>
      eapply (Hgo W); [apply lookup_insert_eq | | | | | | exact Hr | | ]; try reflexivity
    end.
    + intros w3 e3 ->. eexists; reflexivity.
    + intros e3 ->. eexists; reflexivity.
  - destruct (ba_rfcomm_new P p0 rfcomm_fd) as [r|]; run (@eq_refl nat 0%nat).
    + intros Hr.
      match type of Hr with context [ba_transport_set_codec P p0 (codec ty) ?W] =>
        eapply (Hgo W); [apply lookup_insert_eq | | | | | | exact Hr | | ]; try reflexivity
      end.
      * intros w3 e3 ->. eexists; reflexivity.
      * intros e3 ->. eexists; reflexivity.
    + intros Hr. destruct (ba_transport_unref _ _); discriminate.
Qed.

(** C5, as the code has it.  The transport a successful SCO create returns
    is live; its profile is the supplied one; its codec is CVSD when the
    profile is HSP, when the adapter lacks eSCO support, and also whenever
    mSBC support is not compiled in, and is the supplied codec for an HFP
    profile on an adapter with eSCO support in a build with mSBC; its speaker
    PCM is a sink and its microphone PCM a source, both with a maximal
    Bluetooth volume of 15. *)
Theorem new_sco_codec_and_volume (device : ba_device) (type : ba_transport_type)
    (owner path : string) (rfcomm_fd : Z) (w w' : world) (p : tptr) (evs : list event)
    (Hnew : ba_transport_new_sco P device type owner path rfcomm_fd w
            = Returns (Some p) w' evs) :
  exists t, heap w' !! p = Some t
    /\ profile (t_type t) = profile type
    /\ (profile type = BA_TRANSPORT_PROFILE_HSP_HS
        \/ profile type = BA_TRANSPORT_PROFILE_HSP_AG
        \/ esco_support (dev_a device) = false
        \/ ENABLE_MSBC P = false ->
        codec (t_type t) = HFP_CODEC_CVSD)
    /\ (profile type = BA_TRANSPORT_PROFILE_HFP_HF
        \/ profile type = BA_TRANSPORT_PROFILE_HFP_AG ->
        esco_support (dev_a device) = true -> ENABLE_MSBC P = true ->
        codec (t_type t) = codec type)
    /\ max_bt_volume (sco_spk_pcm (sco t)) = 15
    /\ pcm_mode (sco_spk_pcm (sco t)) = BA_TRANSPORT_PCM_MODE_SINK
    /\ max_bt_volume (sco_mic_pcm (sco t)) = 15
    /\ pcm_mode (sco_mic_pcm (sco t)) = BA_TRANSPORT_PCM_MODE_SOURCE.
Proof.
  destruct (new_sco_fields device type owner path rfcomm_fd w w' p evs Hnew)
    as (t & Ht & Hp & Hc & Hrest).
  exists t. split; [assumption|]. split; [assumption|].
  split; [|split; [|exact Hrest]]; rewrite Hc; unfold sco_codec_choice.
  - intros [-> | [-> | [-> | ->]]]; try reflexivity.
    + now rewrite orb_true_r.
    + now rewrite orb_true_r.
  - intros [-> | ->] -> ->; reflexivity.
Qed.


(** The integer part of the conversion to a raw Bluetooth volume: whatever
    the loudness curve yields, the result lies between 0 and the maximal
    Bluetooth volume of the endpoint. *)
Lemma volume_level_to_bt_clamped (pcm : ba_transport_pcm) (value : Z) :
  0 <= max_bt_volume pcm ->
  0 <= ba_transport_pcm_volume_level_to_bt P pcm value <= max_bt_volume pcm.
Proof. unfold ba_transport_pcm_volume_level_to_bt. lia. Qed.

Lemma with_transport_twice (p : tptr) (t t' : ba_transport) (w : world) :
  with_transport p t' (with_transport p t w) = with_transport p t' w.
Proof.
  unfold with_transport, set_heap. simpl. f_equal. apply insert_insert_eq.
Qed.

Lemma set_ref_count_same (t : ba_transport) (n : Z) :
  n = ref_count t -> set_ref_count n t = t.
Proof. intros ->. now destruct t. Qed.

(** Dropping a reference that was just taken gives the store back. *)
Lemma unref_undoes (p : tptr) (w : world) (t : ba_transport) :
  heap w !! p = Some t -> 1 <= ref_count t ->
  ba_transport_unref p (with_transport p (set_ref_count (ref_count t + 1) t) w)
  = Returns tt w
      [EvMutexLock transports_mutex; EvRefCount p (ref_count t);
       EvMutexUnlock transports_mutex].
Proof.
  intros H Hrc.
  rewrite (unref_keeps p _ (set_ref_count (ref_count t + 1) t));
    [|apply heap_with_transport | simpl; lia].
  simpl ref_count. replace (ref_count t + 1 - 1) with (ref_count t) by lia.
  rewrite with_transport_twice.
  replace (set_ref_count (ref_count t) (set_ref_count (ref_count t + 1) t)) with t
    by now destruct t.
  now rewrite with_transport_same.
Qed.

(** X1.  On a live transport whose count is at least 1, [ba_transport_ref]
    and [ba_transport_pcm_ref] both add one to the count under the transports
    mutex and change nothing else, and the [ba_transport_unref] (or
    [ba_transport_pcm_unref]) that follows gives back the store the
    reference was taken in. *)
Theorem ref_unref_round_trip (p : tptr) (sel : pcm_sel) (w : world) (t : ba_transport)
    (Hlive : heap w !! p = Some t) (Hrc : 1 <= ref_count t) :
  exists w1,
    ba_transport_ref p w
    = Returns p w1 [EvMutexLock transports_mutex; EvRefCount p (ref_count t + 1);
                    EvMutexUnlock transports_mutex]
    /\ ba_transport_pcm_ref (p, sel) w
       = Returns (p, sel) w1 [EvMutexLock transports_mutex; EvRefCount p (ref_count t + 1);
                              EvMutexUnlock transports_mutex]
    /\ heap w1 !! p = Some (set_ref_count (ref_count t + 1) t)
    /\ transports w1 = transports w
    /\ ba_transport_unref p w1
       = Returns tt w [EvMutexLock transports_mutex; EvRefCount p (ref_count t);
                       EvMutexUnlock transports_mutex]
    /\ ba_transport_pcm_unref (p, sel) w1 = ba_transport_unref p w1.
Proof.
  exists (with_transport p (set_ref_count (ref_count t + 1) t) w).
  assert (Hr : ba_transport_ref p w
    = Returns p (with_transport p (set_ref_count (ref_count t + 1) t) w)
        [EvMutexLock transports_mutex; EvRefCount p (ref_count t + 1);
         EvMutexUnlock transports_mutex]) by (rewrite ref_run; now rewrite Hlive).
  split; [exact Hr|]. split.
  { unfold ba_transport_pcm_ref. simpl fst. unfold bind. now rewrite Hr. }
  split; [apply heap_with_transport|]. split; [reflexivity|].
  split; [now apply unref_undoes | reflexivity].
Qed.

(** X2.  [ba_transport_lookup] under a path that is not registered returns
    NULL and leaves the store alone; under a registered path it returns the
    transport with its count raised by one, every other transport and the
    table untouched, and an unref of the result restores the store. *)
Theorem lookup_outcome (k : string) (w : world) :
  (transports w !! k = None ->
   ba_transport_lookup k w
   = Returns None w [EvMutexLock transports_mutex; EvMutexUnlock transports_mutex])
  /\ (forall p t,
        transports w !! k = Some p -> heap w !! p = Some t ->
        exists w1,
          ba_transport_lookup k w
          = Returns (Some p) w1
              [EvMutexLock transports_mutex; EvRefCount p (ref_count t + 1);
               EvMutexUnlock transports_mutex]
          /\ heap w1 !! p = Some (set_ref_count (ref_count t + 1) t)
          /\ (forall q, q <> p -> heap w1 !! q = heap w !! q)
          /\ transports w1 = transports w
          /\ (1 <= ref_count t ->
              ba_transport_unref p w1
              = Returns tt w [EvMutexLock transports_mutex; EvRefCount p (ref_count t);
                              EvMutexUnlock transports_mutex])).
Proof.
  split.
  - intros Hk. rewrite lookup_run. unfold tptr in *. now rewrite Hk.
  - intros p t Hk Hp. exists (with_transport p (set_ref_count (ref_count t + 1) t) w).
    split; [rewrite lookup_run; unfold tptr in *; now rewrite Hk, Hp|].
    split; [apply heap_with_transport|].
    split; [intros q Hq; simpl; now apply lookup_insert_ne|].
    split; [reflexivity|]. intros Hrc. now apply unref_undoes.
Qed.

(** ** Signals of the worker threads *)
Lemma recv_signal_retries (EINTR : Z) (k : nat) (rest : list read_result) :
  ba_transport_thread_recv_signal EINTR (replicate k (read_failed EINTR) ++ rest)
  = ba_transport_thread_recv_signal EINTR rest.
Proof. induction k as [|k IH]; simpl; [reflexivity|]. now rewrite Z.eqb_refl. Qed.

(** X3.  [ba_transport_thread_recv_signal] retries every read that fails
    with EINTR.  The first other return decides: a full read gives the signal
    read and logs nothing; a short read or another error gives PING and one
    warning. *)
Theorem recv_signal_result (EINTR : Z) (k : nat) (r : read_result) (rest : list read_result)
    (Hr : r <> read_failed EINTR) :
  exists sig evs,
    ba_transport_thread_recv_signal EINTR (replicate k (read_failed EINTR) ++ r :: rest)
    = Some (sig, evs, rest)
    /\ match r with
       | read_signal s => sig = s /\ evs = []
       | _ => sig = BA_TRANSPORT_SIGNAL_PING
              /\ evs = [EvLog log_warn "Couldn't read transport thread signal: %s"]
       end.
Proof.
  rewrite recv_signal_retries. destruct r as [s|n|e]; simpl.
  - now eexists _, _.
  - now eexists _, _.
  - destruct (Z.eqb_spec e EINTR) as [->|]; [congruence|]. now eexists _, _.
Qed.

(** X4.  Reads that all fail with EINTR never end the loop of
    [ba_transport_thread_recv_signal], however many there are. *)
Theorem recv_signal_blocks (EINTR : Z) (k : nat) :
  ba_transport_thread_recv_signal EINTR (replicate k (read_failed EINTR)) = None.
Proof.
  rewrite <- (app_nil_r (replicate k _)). now rewrite recv_signal_retries.
Qed.

(** X5.  The SCO acquire of a transport that is not acquired.  When the
    socket cannot be opened or connected it returns -1 and the store is as
    before; a failed open is the only socket call made, and a socket whose
    connect failed is closed.  Otherwise it returns the socket, stored as the
    Bluetooth descriptor together with the MTU of the link for both
    directions; the connect uses the voice setting of the codec, and the
    socket is not closed. *)
Theorem acquire_sco_outcome (p : tptr) (w : world) (t : ba_transport)
    (Hlive : heap w !! p = Some t) (Hfd : bt_fd t = -1) :
  let fd := hci_sco_open P (hci_dev_id (dev_a (t_d t))) in
  let connected := hci_sco_connect P fd (dev_addr (t_d t)) (sco_voice P t) in
  let mtu := hci_sco_get_mtu P fd in
  exists r w' evs,
    transport_acquire_bt_sco P p w = Returns r w' evs
    /\ (fd = -1 \/ connected = -1 -> r = -1 /\ w' = w)
    /\ (fd <> -1 -> connected <> -1 ->
        r = fd
        /\ w' = with_transport p (set_bt_fd fd (set_mtu_read mtu (set_mtu_write mtu t))) w)
    /\ (fd = -1 -> Forall (fun e => is_socket_op e = true -> e = EvHciScoOpen
                                      (hci_dev_id (dev_a (t_d t)))) evs)
    /\ (fd <> -1 -> In (EvHciScoConnect fd (dev_addr (t_d t)) (sco_voice P t)) evs)
    /\ (fd <> -1 -> (In (EvClose fd) evs <-> connected = -1)).
Proof.
  intros fd connected mtu. subst fd connected mtu.
  unfold transport_acquire_bt_sco, sco_voice. run Hlive. rewrite Hfd. simpl.
  destruct (Z.eqb_spec (hci_sco_open P (hci_dev_id (dev_a (t_d t)))) (-1)) as [E|E]; simpl.
  - do 3 eexists. split; [reflexivity|]. split; [now intros|]. split; [intros; congruence|].
    split; [|split; intros; congruence].
    intros _. repeat constructor; simpl; intros; congruence.
  - destruct (Z.eqb_spec (hci_sco_connect P (hci_sco_open P (hci_dev_id (dev_a (t_d t))))
                (dev_addr (t_d t))
                (if codec (t_type t) =? HFP_CODEC_CVSD
                 then BT_VOICE_CVSD_16BIT P else BT_VOICE_TRANSPARENT P)) (-1)) as [C|C];
      run Hlive.
    + do 3 eexists. split; [reflexivity|]. split; [now intros|].
      split; [intros; congruence|]. split; [intros; congruence|].
      split; [intros _; simpl; tauto|]. intros _. split; [now intros | intros _; simpl; tauto].
    + do 3 eexists. split; [reflexivity|]. split; [intros [?|?]; congruence|].
      split; [now intros|]. split; [intros; congruence|].
      split; [intros _; simpl; tauto|]. intros _. split; [|intros; congruence].
      simpl. intros [H|[H|[H|[H|[H|[H|[]]]]]]]; discriminate.
Qed.

Lemma release_sco_run (p : tptr) (w : world) (t : ba_transport) :
  heap w !! p = Some t -> bt_fd t <> -1 ->
  transport_release_bt_sco p w
  = Returns 0 (with_transport p (set_bt_fd (-1) t) w)
      [EvMutexLock (bt_fd_mtx p); EvLog log_debug "Closing SCO: %d";
       EvShutdown (bt_fd t); EvClose (bt_fd t); EvMutexUnlock (bt_fd_mtx p)].
Proof.
  intros H E. unfold transport_release_bt_sco. run H.
  destruct (Z.eqb_spec (bt_fd t) (-1)); [contradiction|]. now run H.
Qed.

Lemma acquire_sco_cases (p : tptr) (w : world) (t : ba_transport) :
  heap w !! p = Some t -> bt_fd t = -1 ->
  let fd := hci_sco_open P (hci_dev_id (dev_a (t_d t))) in
  let connected := hci_sco_connect P fd (dev_addr (t_d t)) (sco_voice P t) in
  let mtu := hci_sco_get_mtu P fd in
  exists evs,
    transport_acquire_bt_sco P p w
    = if (fd =? -1) || (connected =? -1) then Returns (-1) w evs
      else Returns fd
             (with_transport p (set_bt_fd fd (set_mtu_read mtu (set_mtu_write mtu t))) w) evs.
Proof.
  intros Hlive Hfd fd connected mtu. subst fd connected mtu.
  unfold transport_acquire_bt_sco, sco_voice. run Hlive. rewrite Hfd. simpl.
  destruct (hci_sco_open P (hci_dev_id (dev_a (t_d t))) =? -1); simpl;
    [eexists; reflexivity|].
  destruct (hci_sco_connect P _ _ _ =? -1); run Hlive; eexists; reflexivity.
Qed.

(** X6.  A SCO release after a successful SCO acquire shuts down and
    closes exactly the descriptor the acquire returned, and leaves the
    transport as it was before the acquire but for the two MTUs. *)
Theorem acquire_release_sco (p : tptr) (w w1 : world) (t : ba_transport)
    (r : Z) (evs1 : list event)
    (Hlive : heap w !! p = Some t) (Hfd : bt_fd t = -1)
    (Hacq : transport_acquire_bt_sco P p w = Returns r w1 evs1) (Hr : r <> -1) :
  let mtu := hci_sco_get_mtu P r in
  transport_release_bt_sco p w1
  = Returns 0 (with_transport p (set_mtu_read mtu (set_mtu_write mtu t)) w)
      [EvMutexLock (bt_fd_mtx p); EvLog log_debug "Closing SCO: %d";
       EvShutdown r; EvClose r; EvMutexUnlock (bt_fd_mtx p)].
Proof.
  intros mtu. subst mtu.
  destruct (acquire_sco_cases p w t Hlive Hfd) as (evs & Hrun). cbv zeta in Hrun.
  rewrite Hacq in Hrun.
  destruct (_ || _); injection Hrun as -> -> _; [contradiction|].
  rewrite (release_sco_run p _ _ (heap_with_transport _ _ _)) by (simpl; assumption).
  rewrite with_transport_twice. simpl bt_fd. do 2 f_equal.
  destruct t; simpl in *; now subst.
Qed.


(** X8.  The A2DP release of an acquired transport returns 0 or -1.  The
    Release call is sent exactly when the transport is not idle and its owner
    is known, and at most once; the descriptor is closed exactly when the
    result is 0; an error is logged exactly when the result is -1. *)
Theorem release_a2dp_trace (p : tptr) (w : world) (t : ba_transport)
    (Hlive : heap w !! p = Some t) (Hfd : bt_fd t <> -1) :
  exists r w' evs,
    transport_release_bt_a2dp P p w = Returns r w' evs
    /\ (In (EvDBusMethodCall (bluez_dbus_owner t) (bluez_dbus_path t) "Release") evs
        <-> a2dp_state (a2dp t) <> BLUEZ_A2DP_TRANSPORT_STATE_IDLE
            /\ bluez_dbus_owner t <> None)
    /\ (In (EvClose (bt_fd t)) evs <-> r = 0)
    /\ (In (EvLog log_error "Couldn't release transport: %s") evs <-> r = -1)
    /\ (r = 0 \/ r = -1)
    /\ (length (List.filter is_rpc evs) <= 1)%nat.
Proof.
  unfold transport_release_bt_a2dp. run Hlive.
  destruct (Z.eqb_spec (bt_fd t) (-1)) as [|_]; [contradiction|]. simpl.
  assert (Hidle : forall s, state_is_idle s = true <-> s = BLUEZ_A2DP_TRANSPORT_STATE_IDLE)
    by (intros []; simpl; split; congruence).
  destruct (state_is_idle (a2dp_state (a2dp t))) eqn:Ei; simpl.
  { apply Hidle in Ei. run Hlive. do 3 eexists. split; [reflexivity|].
    simpl. repeat split; try tauto; try lia; intros; try congruence;
      repeat match goal with H : _ \/ _ |- _ => destruct H end; try discriminate; tauto. }
  assert (Hni : a2dp_state (a2dp t) <> BLUEZ_A2DP_TRANSPORT_STATE_IDLE)
    by (intros E; apply Hidle in E; congruence).
  destruct (bluez_dbus_owner t) as [o|] eqn:Eo; simpl.
  2:{ run Hlive. do 3 eexists. split; [reflexivity|].
      simpl. repeat split; try tauto; try lia; intros; try congruence;
        repeat match goal with H : _ \/ _ |- _ => destruct H end; try discriminate; tauto. }
  destruct (dbus_send_message_with_reply_sync P _ _ _) as [|code|body fds]; simpl;
    [|destruct (dbus_error_is_soft code); simpl|]; run Hlive;
    (do 3 eexists; split; [reflexivity|];
     simpl; repeat split; try tauto; try lia; intros; try congruence;
     repeat match goal with H : _ \/ _ |- _ => destruct H end; try discriminate; tauto).
Qed.


(** X10.  [ba_transport_pcms_lock] and [ba_transport_pcms_unlock] take
    and drop the mutexes of the same endpoints in the same order, two distinct
    endpoints of the transport itself, the A2DP pair taking precedence over
    the SCO pair; on a profile with neither they return -1 and touch no
    mutex.  Neither changes the store, and the thread-cleanup wrappers are the
    same calls. *)
Theorem pcms_lock_unlock_balanced (p : tptr) (w : world) (t : ba_transport)
    (Hlive : heap w !! p = Some t) :
  let r := if has_pcms t then 0 else -1 in
  ba_transport_pcms_lock p w
    = Returns r w (map (fun pcm => EvMutexLock (pcm_mutex pcm)) (pcms_of p t))
  /\ ba_transport_pcms_unlock p w
    = Returns r w (map (fun pcm => EvMutexUnlock (pcm_mutex pcm)) (pcms_of p t))
  /\ ba_transport_thread_cleanup_lock (p, slot_enc) w = ba_transport_pcms_lock p w
  /\ ba_transport_thread_cleanup_unlock (p, slot_dec) w = ba_transport_pcms_unlock p w
  /\ (has_pcms t = true -> length (pcms_of p t) = 2%nat)
  /\ (has_pcms t = false -> pcms_of p t = [])
  /\ NoDup (pcms_of p t)
  /\ Forall (fun pcm => pcm.1 = p) (pcms_of p t).
Proof.
  unfold ba_transport_pcms_lock, ba_transport_pcms_unlock,
    ba_transport_thread_cleanup_lock, ba_transport_thread_cleanup_unlock,
    ba_transport_pcms_lock, ba_transport_pcms_unlock, has_pcms, pcms_of.
  run Hlive.
  destruct (test_bits _ BA_TRANSPORT_PROFILE_MASK_A2DP);
    [|destruct (test_bits _ BA_TRANSPORT_PROFILE_MASK_SCO)]; simpl;
    (split; [reflexivity|]); (split; [reflexivity|]); (split; [reflexivity|]);
    (split; [reflexivity|]); (split; [congruence|]); (split; [congruence|]);
    (split; [|repeat constructor]);
    rewrite ?NoDup_cons, ?elem_of_cons, ?elem_of_nil; intuition (try discriminate);
    apply NoDup_nil_2.
Qed.






(** X12.  [ba_transport_thread_create] on a transport with a positive
    count: when the thread is created it returns 0, the handle holds the new
    thread and the transport has one more reference; when it is not, it
    returns -1, logs an error, puts the main thread back in the handle and
    leaves the count as it was, and the transport is not freed. *)
Theorem thread_create_outcome (th : thread_ptr) (name : string) (w : world) (t : ba_transport)
    (Hlive : heap w !! th.1 = Some t) (Hrc : 1 <= ref_count t) :
  exists r t' evs,
    ba_transport_thread_create P th name w = Returns r (with_transport th.1 t' w) evs
    /\ In (EvPthreadCreate th name) evs
    /\ match pthread_create P th with
       | inl id =>
           r = 0
           /\ t' = set_thread th.2 (set_th_id id (get_thread th.2 t))
                     (set_ref_count (ref_count t + 1) t)
           /\ ~ In (EvLog log_error "Couldn't create transport thread: %s") evs
       | inr _ =>
           r = -1
           /\ t' = set_thread th.2 (set_th_id (config_main_thread P) (get_thread th.2 t)) t
           /\ In (EvLog log_error "Couldn't create transport thread: %s") evs
           /\ frees th.1 evs = 0%nat
       end.
Proof.
  destruct th as [p s]. cbn [fst snd] in *.
  unfold ba_transport_thread_create, ba_transport_ref, ba_transport_unref. run Hlive.
  destruct (pthread_create P (p, s)) as [id|err]; destruct s; run Hlive.
  1,2: do 3 eexists; (split;
    [unfold with_transport, set_heap; simpl; rewrite !insert_insert_eq; reflexivity|]);
    (split; [simpl; tauto|]); (split; [reflexivity|]); (split; [reflexivity|]);
    simpl; intros H; repeat (destruct H as [H|H]; try discriminate H); exact H.
  all: replace (ref_count t + 1 - 1) with (ref_count t) by lia;
    (destruct (Z.eqb_spec (ref_count t) 0) as [E|E]; [lia|]);
    (destruct (Z.gtb_spec (ref_count t) 0) as [G|G]; [|lia]); run Hlive;
    do 3 eexists; (split;
    [unfold with_transport, set_heap; simpl; rewrite !insert_insert_eq; reflexivity|]);
    (split; [simpl; tauto|]); (split; [reflexivity|]);
    (split; [destruct t; reflexivity|]); (split; [simpl; tauto | reflexivity]).
Qed.

(** X13.  [ba_transport_start] does nothing and returns 0 while either
    worker handle is in use.  With both handles free, a transport that is
    neither A2DP nor SCO gets -1 after the debug message; a SCO transport
    whose worker can be created gets it in the encoder slot, with one more
    reference, and a second start is then a no-op. *)
Theorem start_outcome (p : tptr) (w : world) (t : ba_transport)
    (Hlive : heap w !! p = Some t) :
  (th_id (thread_enc t) <> config_main_thread P \/ th_id (thread_dec t) <> config_main_thread P ->
     ba_transport_start P p w = Returns 0 w [])
  /\ (th_id (thread_enc t) = config_main_thread P ->
      th_id (thread_dec t) = config_main_thread P ->
      test_bits (profile (t_type t)) BA_TRANSPORT_PROFILE_MASK_A2DP = false ->
      (test_bits (profile (t_type t)) BA_TRANSPORT_PROFILE_MASK_SCO = false ->
         ba_transport_start P p w = Returns (-1) w [EvLog log_debug "Starting transport: %s"])
      /\ (test_bits (profile (t_type t)) BA_TRANSPORT_PROFILE_MASK_SCO = true ->
          forall id, pthread_create P (p, slot_enc) = inl id -> id <> config_main_thread P ->
          exists t' evs,
            ba_transport_start P p w = Returns 0 (with_transport p t' w) evs
            /\ th_id (thread_enc t') = id
            /\ thread_dec t' = thread_dec t
            /\ ref_count t' = ref_count t + 1
            /\ In (EvPthreadCreate (p, slot_enc) "ba-sco") evs
            /\ ba_transport_start P p (with_transport p t' w)
               = Returns 0 (with_transport p t' w) [])).
Proof.
  split; [|intros He Hd Ha; split].
  - intros Hbusy. unfold ba_transport_start. run Hlive.
    destruct (Z.eqb_spec (th_id (thread_enc t)) (config_main_thread P));
      destruct (Z.eqb_spec (th_id (thread_dec t)) (config_main_thread P));
      simpl; try reflexivity. tauto.
  - intros Hs. unfold ba_transport_start. run Hlive.
    rewrite He, Hd, Z.eqb_refl, Ha, Hs. reflexivity.
  - intros Hs id Hid Hne. unfold ba_transport_start, ba_transport_thread_create,
      ba_transport_ref. run Hlive.
    rewrite He, Hd, Z.eqb_refl, Ha, Hs. simpl. rewrite Hid. run Hlive.
    do 2 eexists. split.
    + unfold with_transport, set_heap; simpl. rewrite !insert_insert_eq. reflexivity.
    + simpl. repeat split; try tauto.
      rewrite lookup_insert_eq. simpl.
      destruct (Z.eqb_spec id (config_main_thread P)); [contradiction|reflexivity].
Qed.

Lemma transport_new_run (device : ba_device) (owner path : string) (w : world)
    (enc dec : Z * Z) :
  let p := fresh (dom (heap w)) in
  resources_available P owner path p enc dec ->
  transport_new P device owner path w
  = Returns (Some p)
      {| heap := <[p := set_bluez_dbus_path (Some path)
                          (set_bluez_dbus_owner (Some owner)
                            (set_thread_dec (fresh_thread P dec)
                              (set_thread_enc (fresh_thread P enc)
                                (set_bt_fd (-1) (set_ref_count 1 (zero_transport device))))))]>
                 (heap w);
         transports := <[path := p]> (transports w);
         device_refs := device_refs w + 1 |}
      [EvDeviceRef; EvPipeCreate (p, slot_enc); EvPipeCreate (p, slot_dec);
       EvMutexLock transports_mutex; EvTableInsert (Some path) p;
       EvMutexUnlock transports_mutex].
Proof.
  intros p (Hc & He & Hd & Ho & Hp). subst p.
  unfold transport_new, transport_thread_init, ba_device_ref. rewrite Hc.
  run heap_store.
  remember (fresh (dom (heap w))) as p eqn:Ep. clear Ep.
  rewrite He. destruct enc as [r1 w1]. cbn. rewrite lookup_insert_eq. cbn.
  rewrite Hd. destruct dec as [r2 w2]. cbn. rewrite lookup_insert_eq. cbn.
  rewrite Ho, Hp.
  repeat (progress (cbn; rewrite ?lookup_insert_eq, ?Z.lor_0_l)).
  rewrite !insert_insert_eq. reflexivity.
Qed.

(** X14.  When memory, both pipes and both strings are available,
    [transport_new] returns a transport at an address that was free before,
    registered under its path so that a lookup finds it, with count 1 and
    one more reference on the device, no Bluetooth descriptor, profile none,
    both worker handles at the main thread and no acquire or release callback
    yet. *)
Theorem transport_new_registers (device : ba_device) (owner path : string) (w : world)
    (enc dec : Z * Z)
    (Hres : resources_available P owner path (fresh (dom (heap w))) enc dec) :
  exists p t w' evs,
    transport_new P device owner path w = Returns (Some p) w' evs
    /\ heap w !! p = None
    /\ heap w' = <[p := t]> (heap w)
    /\ transports w' = <[path := p]> (transports w)
    /\ device_refs w' = device_refs w + 1
    /\ ref_count t = 1 /\ bt_fd t = -1
    /\ profile (t_type t) = BA_TRANSPORT_PROFILE_NONE
    /\ t_d t = device
    /\ bluez_dbus_owner t = Some owner /\ bluez_dbus_path t = Some path
    /\ th_id (thread_enc t) = config_main_thread P
    /\ th_id (thread_dec t) = config_main_thread P
    /\ acquire t = None /\ release t = None
    /\ (exists w2 e2, ba_transport_lookup path w' = Returns (Some p) w2 e2
          /\ (ref_count <$> heap w2 !! p) = Some 2).
Proof.
  do 4 eexists. split; [apply (transport_new_run device owner path w enc dec Hres)|].
  split; [apply not_elem_of_dom, is_fresh|].
  simpl. repeat (split; [reflexivity|]).
  unfold ba_transport_lookup. run heap_store.
  do 2 eexists. split; [reflexivity|]. simpl. now rewrite lookup_insert_eq.
Qed.

(** X15.  When [calloc] fails, [transport_new] and both public
    constructors return NULL without any effect. *)
Theorem transport_new_out_of_memory (device : ba_device) (owner path : string) (w : world)
    (Hcalloc : calloc_fails P = true) :
  transport_new P device owner path w = Returns None w []
  /\ (forall type codec_desc configuration,
        ba_transport_new_a2dp P device type owner path codec_desc configuration w
        = Returns None w [])
  /\ (forall type rfcomm_fd,
        ba_transport_new_sco P device type owner path rfcomm_fd w = Returns None w []).
Proof.
  assert (H : transport_new P device owner path w = Returns None w [])
    by (unfold transport_new; now rewrite Hcalloc).
  split; [exact H|]. split; intros.
  - unfold ba_transport_new_a2dp. now rewrite (bind_step _ _ _ _ _ _ H).
  - unfold ba_transport_new_sco. now rewrite (bind_step _ _ _ _ _ _ H).
Qed.

Ltac mstep' :=
  lazymatch goal with
  | |- bind _ _ _ = Returns _ _ _ => eapply bind_returns; [ mstep' | cbv beta ]
  | |- load _ _ = _ => apply load_live; live
  | |- store _ _ _ = _ => eapply store_live; live
  | |- ba_transport_unref _ _ = _ => apply unref_final; [ live | reflexivity ]
  | |- _ => reflexivity
  end.

(** X16.  When the RFCOMM handler cannot be created,
    [ba_transport_new_sco] returns NULL and the store is as it was before the
    call: the new transport is freed, once, its table entry is stolen again
    and the device reference is given back; no PCM is registered and no
    RFCOMM handler is destroyed. *)
Theorem new_sco_rfcomm_failure (device : ba_device) (type : ba_transport_type)
    (owner path : string) (rfcomm_fd : Z) (w : world) (enc dec : Z * Z)
    (Hres : resources_available P owner path (fresh (dom (heap w))) enc dec)
    (Hfd : rfcomm_fd <> -1)
    (Hrf : ba_rfcomm_new P (fresh (dom (heap w))) rfcomm_fd = None)
    (Hnew : transports w !! path = None) :
  let p := fresh (dom (heap w)) in
  exists evs,
    ba_transport_new_sco P device type owner path rfcomm_fd w = Returns None w evs
    /\ frees p evs = 1%nat
    /\ In EvDeviceRef evs /\ In EvDeviceUnref evs
    /\ In (EvTableInsert (Some path) p) evs /\ In (EvTableSteal (Some path)) evs
    /\ (forall pcm, ~ In (EvPcmRegister pcm) evs)
    /\ (forall r, ~ In (EvRfcommDestroy r) evs).
Proof.
  intros p. subst p.
  pose proof (transport_new_run device owner path w enc dec Hres) as Hn.
  cbv zeta in Hn.
  assert (Hfresh : heap w !! fresh (dom (heap w)) = None) by apply not_elem_of_dom, is_fresh.
  remember (fresh (dom (heap w))) as p eqn:Ep. clear Ep.
  unfold ba_transport_new_sco.
  rewrite (bind_step _ _ _ _ _ _ Hn). cbv zeta.
  destruct (Z.eqb_spec rfcomm_fd (-1)) as [|_]; [contradiction|]. cbn [negb].
  rewrite Hrf.
  match goal with
  | |- context [match ?m ?W with Returns _ _ _ => _ | Aborted _ => _ end] =>
      assert (Hm : exists W' E T, m W = Returns None W' E /\ W' = w
                /\ E = (EvRfcommNew p rfcomm_fd
                         :: unref_detach_events p T ++ unref_release_events p T)%list
                /\ bluez_dbus_path T = Some path /\ sco_rfcomm (sco T) = None)
  end.
  { do 3 eexists. split; [|split; [|split; [|split]]].
    - unfold transport_pcm_init, modify. repeat mstep'.
    - destruct w as [h tb dr]. unfold without_transport, set_heap. simpl in *.
      f_equal.
      + rewrite !delete_insert_eq. now apply delete_id.
      + rewrite delete_insert_eq. now apply delete_id.
      + lia.
    - cbn [app]. rewrite ?app_nil_r. reflexivity.
    - reflexivity.
    - reflexivity. }
  destruct Hm as (W' & E & T & Hm & -> & -> & Hpath & Hrfc).
  rewrite Hm. eexists. split; [reflexivity|].
  set (final := (unref_detach_events p T ++ unref_release_events p T)%list).
  assert (Hin : forall e, In e final ->
            (forall pcm, e <> EvPcmRegister pcm) /\ (forall r, e <> EvRfcommDestroy r)).
  { intros e. subst final.
    unfold unref_detach_events, unref_release_events, payload_free_events,
      pcm_free_events, pcm_release_events, thread_free_events. rewrite Hrfc.
    repeat match goal with |- context [if ?c then _ else _] => destruct c end;
      simpl; intros Hin;
      repeat (destruct Hin as [<- | Hin]; [split; intros; discriminate|]);
      contradiction. }
  assert (Hfree : frees p final = 1%nat)
    by (subst final; now rewrite frees_unref_final, Pos.eqb_refl).
  assert (Hunref : In EvDeviceUnref final).
  { subst final. apply in_or_app. right. unfold unref_release_events.
    apply in_or_app; right. apply in_or_app; right. now left. }
  assert (Hsteal : In (EvTableSteal (Some path)) final).
  { subst final. apply in_or_app. left. rewrite <- Hpath. simpl. tauto. }
  clearbody final.
  split; [rewrite frees_app; change (_ :: final) with ([EvRfcommNew p rfcomm_fd] ++ final)%list;
          rewrite frees_app, Hfree; reflexivity|].
  split; [simpl; tauto|].
  split; [apply in_or_app; right; now right|].
  split; [simpl; tauto|].
  split; [apply in_or_app; right; now right|].
  split.
  - intros pcm [Hi|Hi]%in_app_or.
    + simpl in Hi. repeat (destruct Hi as [Hi|Hi]; try discriminate Hi). exact Hi.
    + destruct Hi as [Hi|Hi]; [discriminate Hi|].
      apply Hin in Hi. destruct Hi as [Hi _]. now apply (Hi pcm).
  - intros r [Hi|Hi]%in_app_or.
    + simpl in Hi. repeat (destruct Hi as [Hi|Hi]; try discriminate Hi). exact Hi.
    + destruct Hi as [Hi|Hi]; [discriminate Hi|].
      apply Hin in Hi. destruct Hi as [_ Hi]. now apply (Hi r).
Qed.

Lemma set_codec_a2dp_cases (p : tptr) (w : world) (t : ba_transport) :
  heap w !! p = Some t ->
  match ba_transport_set_codec_a2dp P p w with
  | Returns _ w1 e =>
      a2dp_codec_supported P (codec (t_type t)) = true
      /\ is_Some (a2dp_configuration_blob (a2dp t))
      /\ e = []
      /\ exists t1, w1 = with_transport p t1 w
           /\ transport_setup t1 = transport_setup t
           /\ t_type t1 = t_type t
           /\ pcm_format (a2dp_pcm (a2dp t1)) = a2dp_pcm_format P (codec (t_type t))
           /\ pcm_format (a2dp_pcm_bc (a2dp t1)) = a2dp_pcm_format P (codec (t_type t))
           /\ sco t1 = sco t
  | Aborted e =>
      (a2dp_codec_supported P (codec (t_type t)) = false
       /\ e = [EvLog log_error "Unsupported A2DP codec: %#x"])
      \/ (a2dp_codec_supported P (codec (t_type t)) = true
          /\ a2dp_configuration_blob (a2dp t) = None /\ e = [])
  end.
Proof.
  intros H. unfold ba_transport_set_codec_a2dp, a2dp_config,
    a2dp_codec_supported, a2dp_pcm_format. run H.
  destruct (a2dp_configuration_blob (a2dp t)) as [c|] eqn:Eb; run H;
    repeat (split_if; run H);
    try (left; now split); try (right; now repeat split);
    (split; [reflexivity|]; split; [eauto|]; split; [reflexivity|];
     eexists; split;
     [unfold with_transport, set_heap; simpl; rewrite ?insert_insert_eq; reflexivity|];
     unfold transport_setup; simpl; rewrite ?Eb; repeat split).
Qed.

Lemma set_codec_cases (p : tptr) (c : Z) (w : world) (t : ba_transport)
    (Hlive : heap w !! p = Some t) :
  let is_a2dp := test_bits (profile (t_type t)) BA_TRANSPORT_PROFILE_MASK_A2DP in
  let is_sco := test_bits (profile (t_type t)) BA_TRANSPORT_PROFILE_MASK_SCO in
  match ba_transport_set_codec P p c w with
  | Returns _ w1 e =>
      exists t1, w1 = with_transport p t1 w
        /\ codec (t_type t1) = c
        /\ transport_setup t1 = transport_setup t
        /\ (is_a2dp = true ->
            a2dp_codec_supported P c = true
            /\ is_Some (a2dp_configuration_blob (a2dp t))
            /\ pcm_format (a2dp_pcm (a2dp t1)) = a2dp_pcm_format P c
            /\ pcm_format (a2dp_pcm_bc (a2dp t1)) = a2dp_pcm_format P c)
        /\ (is_sco = true ->
            pcm_format (sco_spk_pcm (sco t1)) = BA_TRANSPORT_PCM_FORMAT_S16_2LE
            /\ pcm_format (sco_mic_pcm (sco t1)) = BA_TRANSPORT_PCM_FORMAT_S16_2LE
            /\ channels (sco_spk_pcm (sco t1)) = 1 /\ channels (sco_mic_pcm (sco t1)) = 1
            /\ sampling (sco_spk_pcm (sco t1)) = sampling (sco_mic_pcm (sco t1)))
        /\ (is_a2dp = false -> is_sco = false ->
            t1 = set_t_type (set_codec c (t_type t)) t /\ e = [])
        /\ Forall (fun ev => exists fmt, ev = EvLog log_debug fmt) e
  | Aborted e =>
      is_a2dp = true
      /\ (a2dp_codec_supported P c = false \/ a2dp_configuration_blob (a2dp t) = None)
  end.
Proof.
  intros is_a2dp is_sco. subst is_a2dp is_sco.
  unfold ba_transport_set_codec. run Hlive.
  set (t0 := set_t_type (set_codec c (t_type t)) t).
  assert (H0 : heap (set_heap (<[p:=t0]> (heap w)) w) !! p = Some t0) by apply heap_store.
  pose proof (set_codec_a2dp_cases p _ t0 H0) as Ha.
  assert (Hlog : forall b : bool,
            Forall (fun ev => exists fmt, ev = EvLog log_debug fmt)
              (if b then [] else [EvLog log_debug "Unsupported SCO codec: %#x"])).
  { intros []; repeat constructor. now eexists. }
  destruct (test_bits (profile (t_type t)) BA_TRANSPORT_PROFILE_MASK_A2DP) eqn:Ea.
  - destruct (ba_transport_set_codec_a2dp P p _) as [[] w1 e1|e1].
    + destruct Ha as (Hs & Hb & -> & t1 & -> & Hset & Hty & Hf1 & Hf2 & Hsco).
      assert (H1 : heap (with_transport p t1 (set_heap (<[p:=t0]> (heap w)) w)) !! p = Some t1)
        by apply heap_with_transport.
      replace (profile (t_type t)) with (profile (t_type t1)) by now rewrite Hty.
      destruct (test_bits (profile (t_type t1)) BA_TRANSPORT_PROFILE_MASK_SCO) eqn:Es.
      * rewrite (set_codec_sco_result p _ t1 H1).
        eexists. split; [unfold with_transport, set_heap; simpl;
                         rewrite !insert_insert_eq; reflexivity|].
        split; [simpl; now rewrite Hty|].
        split; [transitivity (transport_setup t1); [reflexivity|now rewrite Hset]|].
        split; [intros _; now repeat split|]. split; [intros _; now repeat split|].
        split; [discriminate|]. apply Hlog.
      * exists t1. split; [unfold with_transport, set_heap; simpl;
                           rewrite !insert_insert_eq; reflexivity|].
        rewrite Hty. split; [reflexivity|]. split; [now rewrite Hset|].
        split; [intros _; now repeat split|]. split; [discriminate|].
        split; [discriminate|]. constructor.
    + split; [reflexivity|]. destruct Ha as [[Hs _]|(_ & Hb & _)]; [now left|now right].
  - simpl. clear Ha.
    destruct (test_bits (profile (t_type t)) BA_TRANSPORT_PROFILE_MASK_SCO) eqn:Es.
    + rewrite (set_codec_sco_result p _ t0 H0).
      eexists. split; [unfold with_transport, set_heap; simpl;
                       rewrite !insert_insert_eq; reflexivity|].
      simpl. split; [reflexivity|]. split; [reflexivity|].
      split; [discriminate|]. split; [intros _; now repeat split|].
      split; [discriminate|]. apply Hlog.
    + exists t0. repeat split; try discriminate; try reflexivity. constructor.
Qed.

(** X17.  [ba_transport_set_codec] stops the process exactly on an A2DP
    transport whose codec has no case in this build or whose configuration is
    missing.  When it returns, the transport has the new codec identifier and
    differs from the old one in nothing else but the format, channels and
    sampling of its endpoints: the A2DP endpoints get the sample format of
    the codec, the SCO endpoints one channel of S16_2LE at a common rate. *)
Theorem set_codec_outcome (p : tptr) (c : Z) (w : world) (t : ba_transport)
    (Hlive : heap w !! p = Some t) :
  let is_a2dp := test_bits (profile (t_type t)) BA_TRANSPORT_PROFILE_MASK_A2DP in
  let is_sco := test_bits (profile (t_type t)) BA_TRANSPORT_PROFILE_MASK_SCO in
  ((exists e, ba_transport_set_codec P p c w = Aborted e)
   <-> is_a2dp = true
       /\ (a2dp_codec_supported P c = false \/ a2dp_configuration_blob (a2dp t) = None))
  /\ (forall w1 e, ba_transport_set_codec P p c w = Returns tt w1 e ->
      exists t1, w1 = with_transport p t1 w
        /\ codec (t_type t1) = c
        /\ transport_setup t1 = transport_setup t
        /\ (is_a2dp = true ->
            pcm_format (a2dp_pcm (a2dp t1)) = a2dp_pcm_format P c
            /\ pcm_format (a2dp_pcm_bc (a2dp t1)) = a2dp_pcm_format P c)
        /\ (is_sco = true ->
            pcm_format (sco_spk_pcm (sco t1)) = BA_TRANSPORT_PCM_FORMAT_S16_2LE
            /\ pcm_format (sco_mic_pcm (sco t1)) = BA_TRANSPORT_PCM_FORMAT_S16_2LE
            /\ channels (sco_spk_pcm (sco t1)) = 1 /\ channels (sco_mic_pcm (sco t1)) = 1
            /\ sampling (sco_spk_pcm (sco t1)) = sampling (sco_mic_pcm (sco t1)))
        /\ (is_a2dp = false -> is_sco = false ->
            t1 = set_t_type (set_codec c (t_type t)) t /\ e = [])).
Proof.
  intros is_a2dp is_sco. subst is_a2dp is_sco.
  pose proof (set_codec_cases p c w t Hlive) as H. cbv zeta in H.
  destruct (ba_transport_set_codec P p c w) as [[] w1 e|e].
  - destruct H as (t1 & -> & Hc & Hset & Ha & Hs & Hn & _). split.
    + split; [intros [e' He']; discriminate He'|].
      intros [Ea [Hu|Hb]]; destruct (Ha Ea) as (Hsup & Hblob & _).
      * congruence.
      * rewrite Hb in Hblob. now destruct Hblob.
    + intros w2 e2 [= <- <-]. exists t1. repeat split; try assumption;
        try (now apply Ha); try (now apply Hs); now apply Hn.
  - split; [|discriminate]. split; [intros _; exact H | intros _; now exists e].
Qed.

Lemma transport_new_inv (device : ba_device) (owner path : string)
    (w w1 : world) (p : tptr) (e : list event) :
  transport_new P device owner path w = Returns (Some p) w1 e ->
  p = fresh (dom (heap w))
  /\ exists enc dec, resources_available P owner path p enc dec.
Proof.
  unfold transport_new, transport_thread_init, ba_device_ref, resources_available.
  destruct (calloc_fails P); [discriminate|].
  run heap_store.
  remember (fresh (dom (heap w))) as p0 eqn:Hp0. clear Hp0.
  destruct (pipe_create P (p0, slot_enc)) as [[r1 w1']|] eqn:He;
  destruct (pipe_create P (p0, slot_dec)) as [[r2 w2']|] eqn:Hd; run heap_store;
  repeat (split_if; run heap_store);
  try (destruct (ba_transport_unref _ _); discriminate);
  intros ?; simplify_eq; (split; [reflexivity|]); do 2 eexists; repeat split; eassumption.
Qed.

Lemma append_inv_head (a x y : string) : (a +:+ x = a +:+ y)%string -> x = y.
Proof. induction a as [|c a IH]; simpl; [auto|]. intros [= H]. auto. Qed.

Lemma pcm_paths_differ (a b : string) :
  (a +:+ "/" +:+ b +:+ "/" +:+ "source" <> a +:+ "/" +:+ b +:+ "/" +:+ "sink")%string.
Proof. intros H. do 4 apply append_inv_head in H. discriminate H. Qed.

(** X18.  What [ba_transport_new_a2dp] returns is a fresh, registered
    transport of the given type with one reference, no Bluetooth descriptor,
    state idle and the A2DP callbacks.  For a sink the main endpoint is a
    source on the decoder thread and the back channel a sink on the encoder
    thread; for a source it is the other way round.  Both endpoints have
    volume range 127, software volume unless native volume is configured, no
    descriptor, and D-Bus paths that differ; each is registered exactly when
    it has channels. *)
Theorem new_a2dp_fields (device : ba_device) (type : ba_transport_type)
    (owner path : string) (codec_desc : Z) (configuration : a2dp_configuration)
    (w w' : world) (p : tptr) (evs : list event)
    (Hnew : ba_transport_new_a2dp P device type owner path codec_desc configuration w
            = Returns (Some p) w' evs) :
  let is_sink := test_bits (profile type) BA_TRANSPORT_PROFILE_A2DP_SINK in
  exists t,
    heap w !! p = None /\ heap w' !! p = Some t
    /\ transports w' !! path = Some p
    /\ device_refs w' = device_refs w + 1
    /\ t_type t = type /\ ref_count t = 1 /\ bt_fd t = -1
    /\ a2dp_state (a2dp t) = BLUEZ_A2DP_TRANSPORT_STATE_IDLE
    /\ a2dp_configuration_blob (a2dp t) = Some configuration
    /\ acquire t = Some strategy_a2dp /\ release t = Some strategy_a2dp
    /\ pcm_th (a2dp_pcm (a2dp t)) = Some (if is_sink then slot_dec else slot_enc)
    /\ pcm_th (a2dp_pcm_bc (a2dp t)) = Some (if is_sink then slot_enc else slot_dec)
    /\ pcm_mode (a2dp_pcm (a2dp t))
       = (if is_sink then BA_TRANSPORT_PCM_MODE_SOURCE else BA_TRANSPORT_PCM_MODE_SINK)
    /\ pcm_mode (a2dp_pcm_bc (a2dp t))
       = (if is_sink then BA_TRANSPORT_PCM_MODE_SINK else BA_TRANSPORT_PCM_MODE_SOURCE)
    /\ (forall sel, sel = sel_a2dp_pcm \/ sel = sel_a2dp_pcm_bc ->
          max_bt_volume (get_pcm sel t) = 127
          /\ soft_volume (get_pcm sel t) = negb (config_a2dp_volume P)
          /\ pcm_fd (get_pcm sel t) = -1
          /\ is_Some (pcm_ba_dbus_path (get_pcm sel t))
          /\ (In (EvPcmRegister (p, sel)) evs <-> channels (get_pcm sel t) > 0))
    /\ pcm_ba_dbus_path (a2dp_pcm (a2dp t)) <> pcm_ba_dbus_path (a2dp_pcm_bc (a2dp t)).
Proof.
  intros is_sink.
  unfold ba_transport_new_a2dp in Hnew.
  apply bind_inv in Hnew as ([p0|] & w1 & e1 & e2 & Hn & Hr & ->); [|discriminate].
  destruct (transport_new_inv _ _ _ _ _ _ _ Hn) as (Hp0 & enc & dec & Hres).
  subst p0. rewrite (transport_new_run device owner path w enc dec Hres) in Hn.
  injection Hn as <- <-.
  assert (Hfresh : heap w !! fresh (dom (heap w)) = None) by apply not_elem_of_dom, is_fresh.
  remember (fresh (dom (heap w))) as p0 eqn:Ep. clear Ep Hres.
  revert Hr. unfold transport_pcm_init. run heap_store.
  fold is_sink.
  match goal with
  | |- context [ba_transport_set_codec P p0 (codec type) ?W] =>
      match W with
      | set_heap (<[p0 := ?T]> _) _ =>
          assert (HT : heap W !! p0 = Some T) by (simpl; apply lookup_insert_eq);
          pose proof (set_codec_cases p0 (codec type) W T HT) as Hc;
          clear HT; set (T0 := T) in *
      end
  end.
  cbv zeta in Hc.
  destruct (ba_transport_set_codec P p0 (codec type) _) as [[] w2 e3|]; [|discriminate].
  destruct Hc as (t1 & -> & Hcodec & Hset & _ & _ & _ & Hlog).
  run heap_with_transport.
  intros Hr.
  assert (Hev : forall sel, In (EvPcmRegister (p0, sel)) e3 -> False).
  { intros sel Hin. destruct (proj1 (List.Forall_forall _ _) Hlog _ Hin) as [? ?]. discriminate. }
  unfold transport_setup, pcm_setup in Hset. subst T0. simpl in Hset.
  injection Hset as Hd Hprof Hown Hpath Hmr Hmw Hfd Hte Htd Hacq Hrel Hrc
    Hcd Hblob Hst Hdl Hcq Hsep Hrf
    Hth1 Hmo1 Hfd1 Hv10 Hv11 Hsv1 Hmax1 Hdel1 Hp1
    Hth2 Hmo2 Hfd2 Hv20 Hv21 Hsv2 Hmax2 Hdel2 Hp2.
  exists t1. clear Hlog.
  assert (Hty : t_type t1 = type).
  { destruct (t_type t1) as [pr cd] eqn:E, type as [pr' cd']. simpl in *. congruence. }
  simpl in Hr. rewrite ?lookup_insert_eq in Hr. simpl in Hr.
  destruct (Z.gtb_spec (channels (a2dp_pcm (a2dp t1))) 0) as [C1|C1];
  destruct (Z.gtb_spec (channels (a2dp_pcm_bc (a2dp t1))) 0) as [C2|C2];
  simpl in Hr; injection Hr as <- <- <-;
  (split; [exact Hfresh|]);
  (split; [apply lookup_insert_eq|]);
  (split; [simpl; apply lookup_insert_eq|]);
  (split; [reflexivity|]);
  repeat (split; [assumption|]).
  all: split.
  all: try (rewrite Hp1, Hp2; destruct is_sink; intros [= Heq];
     first [ now apply pcm_paths_differ in Heq
           | symmetry in Heq; now apply pcm_paths_differ in Heq ]).
  all: intros sel [-> | ->]; simpl in *;
     (split; [assumption|]); (split; [assumption|]); (split; [assumption|]);
     (split; [rewrite ?Hp1, ?Hp2; eauto|]);
     rewrite ?app_nil_r.
  all: rewrite ?in_app_iff; simpl; split;
    [ intros Hin;
      repeat match goal with
             | H : _ \/ _ |- _ => destruct H as [H|H]
             | H : _ = EvPcmRegister _ |- _ => try discriminate H; clear H
             | H : In (EvPcmRegister _) _ |- _ => exfalso; exact (Hev _ H)
             | H : False |- _ => contradiction
             end; lia
    | intros Hc; try lia; tauto ].
Qed.














(** X21.  When the daemon gives no method return, the A2DP acquire of a
    transport that is not acquired logs an error and returns -1; the store is
    unchanged and no socket call is made. *)
Theorem acquire_a2dp_refused (p : tptr) (w : world) (t : ba_transport)
    (Hlive : heap w !! p = Some t) (Hfd : bt_fd t = -1)
    (Hrep : forall body fds,
       dbus_send_message_with_reply_sync P (bluez_dbus_owner t) (bluez_dbus_path t)
         (acquire_method t) <> DBusMethodReturn body fds) :
  let failure :=
    Returns (-1) w
      [EvMutexLock (bt_fd_mtx p);
       EvDBusMethodCall (bluez_dbus_owner t) (bluez_dbus_path t) (acquire_method t);
       EvLog log_error "Couldn't acquire transport: %s";
       EvMutexUnlock (bt_fd_mtx p)] in
  transport_acquire_bt_a2dp P p w = failure
  /\ (acquire t = Some strategy_a2dp -> ba_transport_acquire P p w = failure).
Proof.
  intros failure.
  assert (H1 : transport_acquire_bt_a2dp P p w = failure).
  { unfold transport_acquire_bt_a2dp. unfold acquire_method in *. run Hlive.
    rewrite Hfd. simpl.
    destruct (dbus_send_message_with_reply_sync P _ _ _) as [|code|body fds] eqn:E;
      [reflexivity | reflexivity | now destruct (Hrep body fds)]. }
  assert (H2 : acquire t = Some strategy_a2dp -> ba_transport_acquire P p w = failure).
  { intros Ha. unfold ba_transport_acquire, bind, load. rewrite Hlive, Ha. simpl.
    now rewrite H1. }
  split; [exact H1|exact H2].
Qed.

(** X22.  On an A2DP transport whose volume is not held back by
    software volume, [ba_transport_pcm_volume_update] writes the Volume
    property before it notifies the clients, with a value between 0 and the
    volume range of the endpoint (that of level 0 when a channel is muted),
    sends nothing to RFCOMM, leaves the store alone and returns 0 even when
    the write fails, which only adds a warning. *)
Theorem volume_update_a2dp_range (pcm : pcm_ptr) (w : world) (t : ba_transport)
    (Hlive : heap w !! pcm.1 = Some t)
    (Ha2dp : test_bits (profile (t_type t)) BA_TRANSPORT_PROFILE_MASK_A2DP = true)
    (Hhw : soft_volume (get_pcm pcm.2 t)
           && test_bits (profile (t_type t))
                (Z.lor BA_TRANSPORT_PROFILE_A2DP_SOURCE BA_TRANSPORT_PROFILE_MASK_AG) = false)
    (Hmax : 0 <= max_bt_volume (get_pcm pcm.2 t) < 65536) :
  exists v evs,
    ba_transport_pcm_volume_update P pcm w = Returns 0 w evs
    /\ 0 <= v <= max_bt_volume (get_pcm pcm.2 t)
    /\ (muted (volume0 (get_pcm pcm.2 t)) || muted (volume1 (get_pcm pcm.2 t)) = true ->
        v = ba_transport_pcm_volume_level_to_bt P (get_pcm pcm.2 t) 0)
    /\ occurs_before (EvDBusSetProperty (bluez_dbus_owner t) (bluez_dbus_path t) "Volume" v)
         (EvPcmUpdate pcm) evs
    /\ (forall r sig, ~ In (EvRfcommSendSignal r sig) evs)
    /\ (In (EvLog log_warn "Couldn't set BT device volume: %s") evs
        <-> dbus_set_property_fails P (bluez_dbus_owner t) (bluez_dbus_path t) "Volume" v = true).
Proof.
  unfold ba_transport_pcm_volume_update. run Hlive. rewrite Hhw, Ha2dp. simpl.
  set (c := get_pcm pcm.2 t) in *.
  set (lv := if negb (muted (volume0 c)) && negb (muted (volume1 c))
             then Z.quot (level (volume0 c) + level (volume1 c)) 2 else 0).
  assert (Hrange : 0 <= ba_transport_pcm_volume_level_to_bt P c lv <= max_bt_volume c)
    by (unfold ba_transport_pcm_volume_level_to_bt; lia).
  assert (Hmod : ba_transport_pcm_volume_level_to_bt P c lv mod 65536
                 = ba_transport_pcm_volume_level_to_bt P c lv)
    by (apply Z.mod_small; lia).
  rewrite Hmod.
  exists (ba_transport_pcm_volume_level_to_bt P c lv).
  destruct (dbus_set_property_fails P _ _ _ _) eqn:Ef; run Hlive;
    (eexists; split; [reflexivity|]; split; [exact Hrange|]; split;
     [ intros Hm; subst lv; destruct (muted (volume0 c)), (muted (volume1 c));
       simpl in *; congruence
     | split; [exists []; eexists; split; [reflexivity|]; simpl; tauto|];
       split; [intros r sig Hin; simpl in Hin;
               repeat (destruct Hin as [Hin|Hin]; try discriminate Hin); exact Hin|];
       split; [intros Hin; simpl in Hin;
               repeat (destruct Hin as [Hin|Hin]; try discriminate Hin);
               try contradiction; reflexivity
              |intros; try discriminate; simpl; tauto] ]).
Qed.

(** X23.  Two transport types with the same D-Bus path segment have
    the same profile, one of the six named ones; the codec plays no part. *)
Theorem dbus_path_type_injective (ty1 ty2 : ba_transport_type) (s : string)
    (H1 : transport_get_dbus_path_type ty1 = Some s)
    (H2 : transport_get_dbus_path_type ty2 = Some s) :
  profile ty1 = profile ty2
  /\ In (profile ty1)
       [BA_TRANSPORT_PROFILE_A2DP_SOURCE; BA_TRANSPORT_PROFILE_A2DP_SINK;
        BA_TRANSPORT_PROFILE_HFP_HF; BA_TRANSPORT_PROFILE_HFP_AG;
        BA_TRANSPORT_PROFILE_HSP_HS; BA_TRANSPORT_PROFILE_HSP_AG]
  /\ transport_get_dbus_path_type (set_codec (codec ty2) ty1) = Some s.
Proof.
  unfold transport_get_dbus_path_type in *. simpl.
  repeat match type of H1 with
         | context [?a =? ?b] => destruct (Z.eqb_spec a b)
         end; try discriminate;
  repeat match type of H2 with
         | context [?a =? ?b] => destruct (Z.eqb_spec a b)
         end; try discriminate;
  injection H1 as <-; try discriminate H2;
  (split; [congruence|]); (split; [simpl; intuition congruence|]); reflexivity.
Qed.

End Properties.

(** * The properties on concrete inputs *)

(** C1 as stated fails for A2DP: the transport is acquired and held by
    BlueZ, the daemon does not answer the Release call, and the release
    strategy returns -1 with the Bluetooth descriptor still 5. *)
Lemma release_a2dp_refused_keeps_fd :
  exists evs,
    release_strategy silent_daemon strategy_a2dp 1%positive (sample_world acquired_a2dp)
    = Returns (-1) (sample_world acquired_a2dp) evs
    /\ bt_fd_at (sample_world acquired_a2dp) 1%positive = Some 5.
Proof. eexists. split; reflexivity. Qed.

(** The SCO release of an acquired transport, and the release after it. *)
Lemma release_strategy_outcome_witness :
  exists r w' evs,
    release_strategy silent_daemon strategy_sco 1%positive (sample_world acquired_sco)
    = Returns r w' evs
    /\ r = (if false then -1 else 0)
    /\ (r = -1 -> w' = sample_world acquired_sco)
    /\ (r = 0 ->
        bt_fd_at w' 1%positive = Some (-1)
        /\ release_strategy silent_daemon strategy_sco 1%positive w'
           = Returns 0 w' [EvMutexLock (bt_fd_mtx 1%positive);
                           EvMutexUnlock (bt_fd_mtx 1%positive)]).
Proof.
  apply (release_strategy_outcome silent_daemon strategy_sco 1%positive
           (sample_world acquired_sco) acquired_sco).
  reflexivity.
Defined.

(** The SCO acquire of a transport whose descriptor is 5. *)
Lemma acquire_strategy_keep_alive_witness :
  exists evs,
    acquire_strategy silent_daemon strategy_sco 1%positive (sample_world acquired_sco)
    = Returns 5 (sample_world acquired_sco) evs
    /\ Forall quiet evs.
Proof.
  apply (proj1 (acquire_strategy_keep_alive silent_daemon strategy_sco 1%positive
                  (sample_world acquired_sco) acquired_sco eq_refl)).
  simpl. lia.
Defined.

(** C3 on a reply whose handle is 1: the acquire calls Acquire, stores the
    two MTUs of the reply, and takes the descriptor attached at index 0,
    which is 7, where the handle of the reply designates the one at index 1,
    which is 9. *)
Lemma acquire_a2dp_takes_first_fd :
  exists w' evs,
    transport_acquire_bt_a2dp two_fd_daemon 1%positive (sample_world idle_a2dp_sink)
    = Returns 7 w' evs
    /\ In (EvDBusMethodCall (bluez_dbus_owner idle_a2dp_sink)
             (bluez_dbus_path idle_a2dp_sink) "Acquire") evs
    /\ bt_fd_at w' 1%positive = Some 7
    /\ (mtu_read <$> heap w' !! 1%positive) = Some 672
    /\ (mtu_write <$> heap w' !! 1%positive) = Some 679
    /\ g_unix_fd_list_get (Some [7; 9]) (Z.to_nat 1) = 9.
Proof.
  eexists _, _. split; [vm_compute; reflexivity|].
  split; [right; left; reflexivity|]. repeat split; reflexivity.
Qed.

(** An A2DP sink told that its state is pending goes on to acquire. *)
Lemma set_a2dp_state_effect_witness :
  ba_transport_set_a2dp_state two_fd_daemon 1%positive BLUEZ_A2DP_TRANSPORT_STATE_PENDING
    (sample_world idle_a2dp_sink)
  = ba_transport_acquire two_fd_daemon 1%positive
      (with_transport 1%positive
         (with_a2dp_state BLUEZ_A2DP_TRANSPORT_STATE_PENDING idle_a2dp_sink)
         (sample_world idle_a2dp_sink)).
Proof.
  exact (proj2 (proj2
    (set_a2dp_state_effect two_fd_daemon 1%positive (sample_world idle_a2dp_sink)
       idle_a2dp_sink BLUEZ_A2DP_TRANSPORT_STATE_PENDING eq_refl))).
Defined.

(** C5 as stated fails in a build without mSBC: an HFP audio gateway on an
    adapter with eSCO support, created with the codec mSBC, ends up with
    CVSD. *)
Lemma new_sco_without_msbc_is_cvsd :
  esco_support (dev_a sample_device) = true
  /\ test_bits (profile hfp_ag_msbc) BA_TRANSPORT_PROFILE_MASK_HSP = false
  /\ exists w' evs t,
       ba_transport_new_sco cvsd_only_build sample_device hfp_ag_msbc ":1.5" "/sco" (-1)
         empty_world
       = Returns (Some 1%positive) w' evs
       /\ heap w' !! 1%positive = Some t
       /\ codec (t_type t) = HFP_CODEC_CVSD
       /\ codec (t_type t) <> codec hfp_ag_msbc.
Proof.
  split; [reflexivity|]. split; [reflexivity|].
  eexists _, _, _. split; [vm_compute; reflexivity|].
  split; [vm_compute; reflexivity|]. split; [reflexivity | discriminate].
Qed.

(** In a build with mSBC, an HFP audio gateway on an adapter with eSCO
    support keeps the supplied codec mSBC. *)
Lemma new_sco_codec_and_volume_witness :
  exists t,
    heap (outcome_world empty_world
            (ba_transport_new_sco silent_daemon sample_device hfp_ag_msbc ":1.5" "/sco" (-1)
               empty_world)) !! 1%positive = Some t
    /\ codec (t_type t) = HFP_CODEC_MSBC
    /\ max_bt_volume (sco_spk_pcm (sco t)) = 15
    /\ max_bt_volume (sco_mic_pcm (sco t)) = 15.
Proof.
  destruct (new_sco_codec_and_volume silent_daemon sample_device hfp_ag_msbc ":1.5" "/sco" (-1)
              empty_world
              (outcome_world empty_world
                 (ba_transport_new_sco silent_daemon sample_device hfp_ag_msbc ":1.5" "/sco"
                    (-1) empty_world))
              1%positive
              (outcome_events
                 (ba_transport_new_sco silent_daemon sample_device hfp_ag_msbc ":1.5" "/sco"
                    (-1) empty_world)))
    as (t & Ht & _ & _ & Hkeep & Hspk & _ & Hmic & _).
  - vm_compute. reflexivity.
  - exists t. split; [exact Ht|]. split; [|split; assumption].
    apply Hkeep; [right; reflexivity | reflexivity | reflexivity].
Defined.

(** C6 as stated fails on a codec identifier that is none of the three: the
    mapping returns, with a debug message and the rate 0, where the claim
    has a failed assertion. *)
Lemma set_codec_sco_unknown_returns :
  codec (t_type odd_codec_sco) = 3
  /\ exists w' t,
       ba_transport_set_codec_sco 1%positive (sample_world odd_codec_sco)
       = Returns tt w' [EvLog log_debug "Unsupported SCO codec: %#x"]
       /\ heap w' !! 1%positive = Some t
       /\ sampling (sco_spk_pcm (sco t)) = 0
       /\ sampling (sco_mic_pcm (sco t)) = 0.
Proof.
  split; [reflexivity|].
  eexists _, _. split; [vm_compute; reflexivity|].
  split; [vm_compute; reflexivity|]. split; reflexivity.
Qed.

(** The mapping for CVSD: 8000 Hz on both endpoints, nothing logged. *)
Lemma set_codec_sco_mapping_witness :
  exists w' t' evs,
    ba_transport_set_codec_sco 1%positive (sample_world acquired_sco) = Returns tt w' evs
    /\ heap w' !! 1%positive = Some t'
    /\ sampling (sco_spk_pcm (sco t')) = 8000
    /\ sampling (sco_mic_pcm (sco t')) = 8000
    /\ evs = [].
Proof.
  destruct (set_codec_sco_mapping 1%positive (sample_world acquired_sco) acquired_sco eq_refl)
    as (w' & t' & evs & Hr & Ht & Hpcm & Hquiet & _).
  exists w', t', evs. split; [exact Hr|]. split; [exact Ht|].
  split; [apply (Hpcm (sco_spk_pcm (sco t'))); [left|]; reflexivity|].
  split; [apply (Hpcm (sco_mic_pcm (sco t'))); [right|]; reflexivity|].
  apply Hquiet. left. reflexivity.
Defined.


(** The muted endpoint on an A2DP sink, with a loudness curve that is at
    full scale at 0 dB: the value written to the peer is the conversion of
    the level 0, here 127. *)
Lemma volume_update_muted_sink_example :
  ba_transport_pcm_volume_update silent_daemon (1%positive, sel_a2dp_pcm)
    (sample_world muted_a2dp_sink)
  = Returns 0 (sample_world muted_a2dp_sink)
      [EvDBusSetProperty (Some ":1.5") (Some "/org/bluez/hci0/dev_00_12_34_56_78_9A/fd0")
         "Volume" 127;
       EvPcmUpdate (1%positive, sel_a2dp_pcm)].
Proof. reflexivity. Qed.


(** C9 as stated fails on the order of the releases: in the final unref of
    an A2DP transport the reference to the device is dropped right after the
    Bluetooth descriptor is closed, before the PCM endpoints, the
    configuration blob and the worker-thread handles are released. *)
Lemma unref_drops_device_first :
  exists w' evs,
    ba_transport_unref 1%positive (sample_world acquired_a2dp) = Returns tt w' evs
    /\ occurs_before (EvClose 5) EvDeviceUnref evs
    /\ occurs_before EvDeviceUnref (EvMutexDestroy (pcm_mutex (1%positive, sel_a2dp_pcm))) evs
    /\ occurs_before EvDeviceUnref (EvFree (mem_a2dp_configuration 1%positive)) evs
    /\ occurs_before EvDeviceUnref (EvCondDestroy (inr (1%positive, slot_enc))) evs
    /\ occurs_before EvDeviceUnref (EvCondDestroy (inr (1%positive, slot_dec))) evs.
Proof.
  eexists _, _. split; [vm_compute; reflexivity|].
  split.
  { exists [EvMutexLock transports_mutex; EvRefCount 1%positive 0;
            EvTableSteal (Some "/org/bluez/hci0/dev_00_12_34_56_78_9A/fd0");
            EvMutexUnlock transports_mutex; EvLog log_debug "Freeing transport: %s"].
    eexists. split; [reflexivity|]. left. reflexivity. }
  repeat split;
    (exists [EvMutexLock transports_mutex; EvRefCount 1%positive 0;
             EvTableSteal (Some "/org/bluez/hci0/dev_00_12_34_56_78_9A/fd0");
             EvMutexUnlock transports_mutex; EvLog log_debug "Freeing transport: %s";
             EvClose 5];
     eexists; split; [reflexivity|]; simpl; tauto).
Qed.

(** The last unref of an acquired A2DP transport registered under its own
    path. *)
Lemma unref_lifecycle_witness :
  ba_transport_unref 1%positive (sample_world acquired_a2dp)
  = Returns tt (without_transport 1%positive acquired_a2dp (sample_world acquired_a2dp))
      (unref_detach_events 1%positive acquired_a2dp
       ++ unref_release_events 1%positive acquired_a2dp)
  /\ (forall k r w' evs,
        ba_transport_lookup k
          (without_transport 1%positive acquired_a2dp (sample_world acquired_a2dp))
        = Returns r w' evs ->
        r <> Some 1%positive).
Proof.
  assert (Hreg : forall k : string,
            transports (sample_world acquired_a2dp) !! k = Some 1%positive ->
            bluez_dbus_path acquired_a2dp = Some k).
  { intros k Hk. simpl in Hk.
    destruct (decide (k = "/org/bluez/hci0/dev_00_12_34_56_78_9A/fd0")) as [->|Hne].
    - reflexivity.
    - rewrite lookup_insert_ne in Hk by congruence. rewrite lookup_empty in Hk.
      discriminate. }
  destruct (unref_lifecycle 1%positive (sample_world acquired_a2dp) acquired_a2dp
              eq_refl Hreg) as (_ & Hfinal & _).
  destruct (Hfinal eq_refl) as (Hrun & _ & _ & Hlookup).
  split; [exact Hrun | exact Hlookup].
Defined.

(** The back-channel PCM of an A2DP source belongs to the decoder slot, whose
    pipe has the write end 23; the encoder pipe has the write end 21. *)
Lemma pcm_signal_targets_witness :
  ba_transport_pcm_drop silent_daemon (1%positive, sel_a2dp_pcm_bc) (sample_world acquired_a2dp)
  = Returns 0 (sample_world acquired_a2dp)
      [EvPipeWrite 21 BA_TRANSPORT_SIGNAL_PCM_DROP; EvLog log_debug "PCM dropped: %d"]
  /\ ba_transport_pcm_pause silent_daemon (1%positive, sel_a2dp_pcm_bc)
       (sample_world acquired_a2dp)
     = Returns 0 (sample_world acquired_a2dp)
         [EvPipeWrite 23 BA_TRANSPORT_SIGNAL_PCM_PAUSE; EvLog log_debug "PCM paused: %d"].
Proof.
  destruct (pcm_signal_targets silent_daemon (1%positive, sel_a2dp_pcm_bc)
              (sample_world acquired_a2dp) acquired_a2dp eq_refl) as (Hdrop & Hown).
  split; [exact Hdrop|]. exact (proj1 (Hown slot_dec eq_refl)).
Defined.

(** ** The life cycle on concrete inputs *)

(** A reference on the acquired A2DP source, taken and dropped. *)
Lemma ref_unref_round_trip_witness :
  exists w1,
    ba_transport_ref 1%positive (sample_world acquired_a2dp)
    = Returns 1%positive w1 [EvMutexLock transports_mutex; EvRefCount 1%positive (ref_count acquired_a2dp + 1);
                    EvMutexUnlock transports_mutex]
    /\ ba_transport_pcm_ref (1%positive, sel_a2dp_pcm) (sample_world acquired_a2dp)
       = Returns (1%positive, sel_a2dp_pcm) w1 [EvMutexLock transports_mutex; EvRefCount 1%positive (ref_count acquired_a2dp + 1);
                              EvMutexUnlock transports_mutex]
    /\ heap w1 !! 1%positive = Some (set_ref_count (ref_count acquired_a2dp + 1) acquired_a2dp)
    /\ transports w1 = transports (sample_world acquired_a2dp)
    /\ ba_transport_unref 1%positive w1
       = Returns tt (sample_world acquired_a2dp) [EvMutexLock transports_mutex; EvRefCount 1%positive (ref_count acquired_a2dp);
                       EvMutexUnlock transports_mutex]
    /\ ba_transport_pcm_unref (1%positive, sel_a2dp_pcm) w1 = ba_transport_unref 1%positive w1.
Proof.
  apply (ref_unref_round_trip 1%positive sel_a2dp_pcm (sample_world acquired_a2dp) acquired_a2dp);
    [reflexivity | simpl; lia].
Defined.

(** Two interrupted reads, then a short one. *)
Lemma recv_signal_result_witness :
  exists sig evs,
    ba_transport_thread_recv_signal 4 (replicate 2%nat (read_failed 4) ++ (read_short 0) :: [read_signal BA_TRANSPORT_SIGNAL_PCM_CLOSE])
    = Some (sig, evs, [read_signal BA_TRANSPORT_SIGNAL_PCM_CLOSE])
    /\ match (read_short 0) with
       | read_signal s => sig = s /\ evs = []
       | _ => sig = BA_TRANSPORT_SIGNAL_PING
              /\ evs = [EvLog log_warn "Couldn't read transport thread signal: %s"]
       end.
Proof.
  apply (recv_signal_result 4 2%nat (read_short 0) [read_signal BA_TRANSPORT_SIGNAL_PCM_CLOSE]);
    discriminate.
Defined.

(** The SCO acquire of the idle audio gateway. *)
Lemma acquire_sco_outcome_witness :
  let fd := hci_sco_open silent_daemon (hci_dev_id (dev_a (t_d idle_sco))) in
  let connected := hci_sco_connect silent_daemon fd (dev_addr (t_d idle_sco)) (sco_voice silent_daemon idle_sco) in
  let mtu := hci_sco_get_mtu silent_daemon fd in
  exists r w' evs,
    transport_acquire_bt_sco silent_daemon 1%positive (sample_world idle_sco) = Returns r w' evs
    /\ (fd = -1 \/ connected = -1 -> r = -1 /\ w' = (sample_world idle_sco))
    /\ (fd <> -1 -> connected <> -1 ->
        r = fd
        /\ w' = with_transport 1%positive (set_bt_fd fd (set_mtu_read mtu (set_mtu_write mtu idle_sco))) (sample_world idle_sco))
    /\ (fd = -1 -> Forall (fun e => is_socket_op e = true -> e = EvHciScoOpen
                                      (hci_dev_id (dev_a (t_d idle_sco)))) evs)
    /\ (fd <> -1 -> In (EvHciScoConnect fd (dev_addr (t_d idle_sco)) (sco_voice silent_daemon idle_sco)) evs)
    /\ (fd <> -1 -> (In (EvClose fd) evs <-> connected = -1)).
Proof.
  apply (acquire_sco_outcome silent_daemon 1%positive (sample_world idle_sco) idle_sco);
    reflexivity.
Defined.


(** The A2DP release of the acquired source under a daemon that does not answer. *)
Lemma release_a2dp_trace_witness :
  exists r w' evs,
    transport_release_bt_a2dp silent_daemon 1%positive (sample_world acquired_a2dp) = Returns r w' evs
    /\ (In (EvDBusMethodCall (bluez_dbus_owner acquired_a2dp) (bluez_dbus_path acquired_a2dp) "Release") evs
        <-> a2dp_state (a2dp acquired_a2dp) <> BLUEZ_A2DP_TRANSPORT_STATE_IDLE
            /\ bluez_dbus_owner acquired_a2dp <> None)
    /\ (In (EvClose (bt_fd acquired_a2dp)) evs <-> r = 0)
    /\ (In (EvLog log_error "Couldn't release transport: %s") evs <-> r = -1)
    /\ (r = 0 \/ r = -1)
    /\ (length (List.filter is_rpc evs) <= 1)%nat.
Proof.
  apply (release_a2dp_trace silent_daemon 1%positive (sample_world acquired_a2dp) acquired_a2dp);
    [reflexivity | simpl; lia].
Defined.


(** The PCM locks of the acquired audio gateway. *)
Lemma pcms_lock_unlock_balanced_witness :
  let r := if has_pcms acquired_sco then 0 else -1 in
  ba_transport_pcms_lock 1%positive (sample_world acquired_sco)
    = Returns r (sample_world acquired_sco) (map (fun pcm => EvMutexLock (pcm_mutex pcm)) (pcms_of 1%positive acquired_sco))
  /\ ba_transport_pcms_unlock 1%positive (sample_world acquired_sco)
    = Returns r (sample_world acquired_sco) (map (fun pcm => EvMutexUnlock (pcm_mutex pcm)) (pcms_of 1%positive acquired_sco))
  /\ ba_transport_thread_cleanup_lock (1%positive, slot_enc) (sample_world acquired_sco) = ba_transport_pcms_lock 1%positive (sample_world acquired_sco)
  /\ ba_transport_thread_cleanup_unlock (1%positive, slot_dec) (sample_world acquired_sco) = ba_transport_pcms_unlock 1%positive (sample_world acquired_sco)
  /\ (has_pcms acquired_sco = true -> length (pcms_of 1%positive acquired_sco) = 2%nat)
  /\ (has_pcms acquired_sco = false -> pcms_of 1%positive acquired_sco = [])
  /\ NoDup (pcms_of 1%positive acquired_sco)
  /\ Forall (fun pcm => pcm.1 = 1%positive) (pcms_of 1%positive acquired_sco).
Proof.
  apply (pcms_lock_unlock_balanced 1%positive (sample_world acquired_sco) acquired_sco);
    reflexivity.
Defined.


(** A worker thread for the idle audio gateway. *)
Lemma thread_create_outcome_witness :
  exists r t' evs,
    ba_transport_thread_create silent_daemon (1%positive, slot_enc) "ba-sco" (sample_world idle_sco) = Returns r (with_transport (1%positive, slot_enc).1 t' (sample_world idle_sco)) evs
    /\ In (EvPthreadCreate (1%positive, slot_enc) "ba-sco") evs
    /\ match pthread_create silent_daemon (1%positive, slot_enc) with
       | inl id =>
           r = 0
           /\ t' = set_thread (1%positive, slot_enc).2 (set_th_id id (get_thread (1%positive, slot_enc).2 idle_sco))
                     (set_ref_count (ref_count idle_sco + 1) idle_sco)
           /\ ~ In (EvLog log_error "Couldn't create transport thread: %s") evs
       | inr _ =>
           r = -1
           /\ t' = set_thread (1%positive, slot_enc).2 (set_th_id (config_main_thread silent_daemon) (get_thread (1%positive, slot_enc).2 idle_sco)) idle_sco
           /\ In (EvLog log_error "Couldn't create transport thread: %s") evs
           /\ frees (1%positive, slot_enc).1 evs = 0%nat
       end.
Proof.
  apply (thread_create_outcome silent_daemon (1%positive, slot_enc) "ba-sco" (sample_world idle_sco) idle_sco);
    [reflexivity | simpl; lia].
Defined.

(** A start of the idle audio gateway. *)
Lemma start_outcome_witness :
  (th_id (thread_enc idle_sco) <> config_main_thread silent_daemon \/ th_id (thread_dec idle_sco) <> config_main_thread silent_daemon ->
     ba_transport_start silent_daemon 1%positive (sample_world idle_sco) = Returns 0 (sample_world idle_sco) [])
  /\ (th_id (thread_enc idle_sco) = config_main_thread silent_daemon ->
      th_id (thread_dec idle_sco) = config_main_thread silent_daemon ->
      test_bits (profile (t_type idle_sco)) BA_TRANSPORT_PROFILE_MASK_A2DP = false ->
      (test_bits (profile (t_type idle_sco)) BA_TRANSPORT_PROFILE_MASK_SCO = false ->
         ba_transport_start silent_daemon 1%positive (sample_world idle_sco) = Returns (-1) (sample_world idle_sco) [EvLog log_debug "Starting transport: %s"])
      /\ (test_bits (profile (t_type idle_sco)) BA_TRANSPORT_PROFILE_MASK_SCO = true ->
          forall id, pthread_create silent_daemon (1%positive, slot_enc) = inl id -> id <> config_main_thread silent_daemon ->
          exists t' evs,
            ba_transport_start silent_daemon 1%positive (sample_world idle_sco) = Returns 0 (with_transport 1%positive t' (sample_world idle_sco)) evs
            /\ th_id (thread_enc t') = id
            /\ thread_dec t' = thread_dec idle_sco
            /\ ref_count t' = ref_count idle_sco + 1
            /\ In (EvPthreadCreate (1%positive, slot_enc) "ba-sco") evs
            /\ ba_transport_start silent_daemon 1%positive (with_transport 1%positive t' (sample_world idle_sco))
               = Returns 0 (with_transport 1%positive t' (sample_world idle_sco)) [])).
Proof.
  apply (start_outcome silent_daemon 1%positive (sample_world idle_sco) idle_sco);
    reflexivity.
Defined.

(** A first transport in the empty store. *)
Lemma transport_new_registers_witness :
  exists p t w' evs,
    transport_new silent_daemon sample_device ":1.5" "/org/bluez/hci0/dev_00_12_34_56_78_9A/fd0" empty_world = Returns (Some p) w' evs
    /\ heap empty_world !! p = None
    /\ heap w' = <[p := t]> (heap empty_world)
    /\ transports w' = <["/org/bluez/hci0/dev_00_12_34_56_78_9A/fd0" := p]> (transports empty_world)
    /\ device_refs w' = device_refs empty_world + 1
    /\ ref_count t = 1 /\ bt_fd t = -1
    /\ profile (t_type t) = BA_TRANSPORT_PROFILE_NONE
    /\ t_d t = sample_device
    /\ bluez_dbus_owner t = Some ":1.5" /\ bluez_dbus_path t = Some "/org/bluez/hci0/dev_00_12_34_56_78_9A/fd0"
    /\ th_id (thread_enc t) = config_main_thread silent_daemon
    /\ th_id (thread_dec t) = config_main_thread silent_daemon
    /\ acquire t = None /\ release t = None
    /\ (exists w2 e2, ba_transport_lookup "/org/bluez/hci0/dev_00_12_34_56_78_9A/fd0" w' = Returns (Some p) w2 e2
          /\ (ref_count <$> heap w2 !! p) = Some 2).
Proof.
  apply (transport_new_registers silent_daemon sample_device ":1.5" "/org/bluez/hci0/dev_00_12_34_56_78_9A/fd0" empty_world (20, 21) (22, 23));
    repeat split.
Defined.

(** A constructor call when memory is exhausted. *)
Lemma transport_new_out_of_memory_witness :
  transport_new (frugal_platform true None) sample_device ":1.5" "/org/bluez/hci0/dev_00_12_34_56_78_9A/fd0" empty_world = Returns None empty_world []
  /\ (forall type codec_desc configuration,
        ba_transport_new_a2dp (frugal_platform true None) sample_device type ":1.5" "/org/bluez/hci0/dev_00_12_34_56_78_9A/fd0" codec_desc configuration empty_world
        = Returns None empty_world [])
  /\ (forall type rfcomm_fd,
        ba_transport_new_sco (frugal_platform true None) sample_device type ":1.5" "/org/bluez/hci0/dev_00_12_34_56_78_9A/fd0" rfcomm_fd empty_world = Returns None empty_world []).
Proof.
  apply (transport_new_out_of_memory (frugal_platform true None) sample_device ":1.5" "/org/bluez/hci0/dev_00_12_34_56_78_9A/fd0" empty_world);
    reflexivity.
Defined.

(** An audio gateway whose RFCOMM handler cannot be created. *)
Lemma new_sco_rfcomm_failure_witness :
  let p := fresh (dom (heap empty_world)) in
  exists evs,
    ba_transport_new_sco (frugal_platform false None) sample_device hfp_ag_msbc ":1.5" "/org/bluez/hci0/dev_00_12_34_56_78_9A/fd0" 8 empty_world = Returns None empty_world evs
    /\ frees p evs = 1%nat
    /\ In EvDeviceRef evs /\ In EvDeviceUnref evs
    /\ In (EvTableInsert (Some "/org/bluez/hci0/dev_00_12_34_56_78_9A/fd0") p) evs /\ In (EvTableSteal (Some "/org/bluez/hci0/dev_00_12_34_56_78_9A/fd0")) evs
    /\ (forall pcm, ~ In (EvPcmRegister pcm) evs)
    /\ (forall r, ~ In (EvRfcommDestroy r) evs).
Proof.
  apply (new_sco_rfcomm_failure (frugal_platform false None) sample_device hfp_ag_msbc ":1.5" "/org/bluez/hci0/dev_00_12_34_56_78_9A/fd0" 8 empty_world (20, 21) (22, 23));
    [repeat split | lia | reflexivity | reflexivity].
Defined.

(** The codec mSBC on the acquired audio gateway. *)
Lemma set_codec_outcome_witness :
  let is_a2dp := test_bits (profile (t_type acquired_sco)) BA_TRANSPORT_PROFILE_MASK_A2DP in
  let is_sco := test_bits (profile (t_type acquired_sco)) BA_TRANSPORT_PROFILE_MASK_SCO in
  ((exists e, ba_transport_set_codec silent_daemon 1%positive HFP_CODEC_MSBC (sample_world acquired_sco) = Aborted e)
   <-> is_a2dp = true
       /\ (a2dp_codec_supported silent_daemon HFP_CODEC_MSBC = false \/ a2dp_configuration_blob (a2dp acquired_sco) = None))
  /\ (forall w1 e, ba_transport_set_codec silent_daemon 1%positive HFP_CODEC_MSBC (sample_world acquired_sco) = Returns tt w1 e ->
      exists t1, w1 = with_transport 1%positive t1 (sample_world acquired_sco)
        /\ codec (t_type t1) = HFP_CODEC_MSBC
        /\ transport_setup t1 = transport_setup acquired_sco
        /\ (is_a2dp = true ->
            pcm_format (a2dp_pcm (a2dp t1)) = a2dp_pcm_format silent_daemon HFP_CODEC_MSBC
            /\ pcm_format (a2dp_pcm_bc (a2dp t1)) = a2dp_pcm_format silent_daemon HFP_CODEC_MSBC)
        /\ (is_sco = true ->
            pcm_format (sco_spk_pcm (sco t1)) = BA_TRANSPORT_PCM_FORMAT_S16_2LE
            /\ pcm_format (sco_mic_pcm (sco t1)) = BA_TRANSPORT_PCM_FORMAT_S16_2LE
            /\ channels (sco_spk_pcm (sco t1)) = 1 /\ channels (sco_mic_pcm (sco t1)) = 1
            /\ sampling (sco_spk_pcm (sco t1)) = sampling (sco_mic_pcm (sco t1)))
        /\ (is_a2dp = false -> is_sco = false ->
            t1 = set_t_type (set_codec HFP_CODEC_MSBC (t_type acquired_sco)) acquired_sco /\ e = [])).
Proof.
  apply (set_codec_outcome silent_daemon 1%positive HFP_CODEC_MSBC (sample_world acquired_sco) acquired_sco);
    reflexivity.
Defined.



(** The A2DP acquire of the idle sink under a daemon that does not answer. *)
Lemma acquire_a2dp_refused_witness :
  let failure :=
    Returns (-1) (sample_world idle_a2dp_sink)
      [EvMutexLock (bt_fd_mtx 1%positive);
       EvDBusMethodCall (bluez_dbus_owner idle_a2dp_sink) (bluez_dbus_path idle_a2dp_sink) (acquire_method idle_a2dp_sink);
       EvLog log_error "Couldn't acquire transport: %s";
       EvMutexUnlock (bt_fd_mtx 1%positive)] in
  transport_acquire_bt_a2dp silent_daemon 1%positive (sample_world idle_a2dp_sink) = failure
  /\ (acquire idle_a2dp_sink = Some strategy_a2dp -> ba_transport_acquire silent_daemon 1%positive (sample_world idle_a2dp_sink) = failure).
Proof.
  apply (acquire_a2dp_refused silent_daemon 1%positive (sample_world idle_a2dp_sink) idle_a2dp_sink);
    [reflexivity | reflexivity | discriminate].
Defined.

(** A volume update on the muted endpoint of the A2DP sink. *)
Lemma volume_update_a2dp_range_witness :
  exists v evs,
    ba_transport_pcm_volume_update silent_daemon (1%positive, sel_a2dp_pcm) (sample_world muted_a2dp_sink) = Returns 0 (sample_world muted_a2dp_sink) evs
    /\ 0 <= v <= max_bt_volume (get_pcm (1%positive, sel_a2dp_pcm).2 muted_a2dp_sink)
    /\ (muted (volume0 (get_pcm (1%positive, sel_a2dp_pcm).2 muted_a2dp_sink)) || muted (volume1 (get_pcm (1%positive, sel_a2dp_pcm).2 muted_a2dp_sink)) = true ->
        v = ba_transport_pcm_volume_level_to_bt silent_daemon (get_pcm (1%positive, sel_a2dp_pcm).2 muted_a2dp_sink) 0)
    /\ occurs_before (EvDBusSetProperty (bluez_dbus_owner muted_a2dp_sink) (bluez_dbus_path muted_a2dp_sink) "Volume" v)
         (EvPcmUpdate (1%positive, sel_a2dp_pcm)) evs
    /\ (forall r sig, ~ In (EvRfcommSendSignal r sig) evs)
    /\ (In (EvLog log_warn "Couldn't set BT device volume: %s") evs
        <-> dbus_set_property_fails silent_daemon (bluez_dbus_owner muted_a2dp_sink) (bluez_dbus_path muted_a2dp_sink) "Volume" v = true).
Proof.
  apply (volume_update_a2dp_range silent_daemon (1%positive, sel_a2dp_pcm) (sample_world muted_a2dp_sink) muted_a2dp_sink);
    [reflexivity | reflexivity | reflexivity | simpl; lia].
Defined.

(** The path segment of two audio gateway types. *)
Lemma dbus_path_type_injective_witness :
  profile hfp_ag_msbc = profile (t_type acquired_sco)
  /\ In (profile hfp_ag_msbc)
       [BA_TRANSPORT_PROFILE_A2DP_SOURCE; BA_TRANSPORT_PROFILE_A2DP_SINK;
        BA_TRANSPORT_PROFILE_HFP_HF; BA_TRANSPORT_PROFILE_HFP_AG;
        BA_TRANSPORT_PROFILE_HSP_HS; BA_TRANSPORT_PROFILE_HSP_AG]
  /\ transport_get_dbus_path_type (set_codec (codec (t_type acquired_sco)) hfp_ag_msbc) = Some "hfpag".
Proof.
  apply (dbus_path_type_injective hfp_ag_msbc (t_type acquired_sco) "hfpag");
    reflexivity.
Defined.

(** A lookup of the acquired A2DP source under its path, and the unref that
    gives the reference back. *)
Lemma lookup_outcome_witness :
  exists w1,
    ba_transport_lookup "/org/bluez/hci0/dev_00_12_34_56_78_9A/fd0" (sample_world acquired_a2dp)
    = Returns (Some 1%positive) w1
        [EvMutexLock transports_mutex; EvRefCount 1%positive (ref_count acquired_a2dp + 1);
         EvMutexUnlock transports_mutex]
    /\ ba_transport_unref 1%positive w1
       = Returns tt (sample_world acquired_a2dp)
           [EvMutexLock transports_mutex; EvRefCount 1%positive (ref_count acquired_a2dp);
            EvMutexUnlock transports_mutex].
Proof.
  destruct (proj2 (lookup_outcome "/org/bluez/hci0/dev_00_12_34_56_78_9A/fd0"
                     (sample_world acquired_a2dp))
              1%positive acquired_a2dp eq_refl eq_refl)
    as (w1 & H1 & _ & _ & _ & H2).
  exists w1. split; [exact H1 | apply H2; simpl; lia].
Defined.

(** The idle audio gateway, acquired and released again. *)
Lemma acquire_release_sco_witness :
  transport_release_bt_sco 1%positive
    (outcome_world (sample_world idle_sco)
       (transport_acquire_bt_sco silent_daemon 1%positive (sample_world idle_sco)))
  = Returns 0
      (with_transport 1%positive (set_mtu_read 48 (set_mtu_write 48 idle_sco))
         (sample_world idle_sco))
      [EvMutexLock (bt_fd_mtx 1%positive); EvLog log_debug "Closing SCO: %d";
       EvShutdown 9; EvClose 9; EvMutexUnlock (bt_fd_mtx 1%positive)].
Proof.
  apply (acquire_release_sco silent_daemon 1%positive (sample_world idle_sco)
           (outcome_world (sample_world idle_sco)
              (transport_acquire_bt_sco silent_daemon 1%positive (sample_world idle_sco)))
           idle_sco 9
           (outcome_events
              (transport_acquire_bt_sco silent_daemon 1%positive (sample_world idle_sco))));
    [reflexivity | reflexivity | vm_compute; reflexivity | lia].
Defined.

(** An A2DP sink with an SBC configuration, created in the empty store: the
    main endpoint is a source on the decoder thread and is registered; the
    back channel has no channels and is not. *)
Lemma new_a2dp_fields_witness :
  exists t,
    heap (outcome_world empty_world
            (ba_transport_new_a2dp silent_daemon sample_device a2dp_sink_sbc ":1.5" "/a2dp"
               0 sbc_configuration empty_world)) !! 1%positive = Some t
    /\ pcm_th (a2dp_pcm (a2dp t)) = Some slot_dec
    /\ pcm_mode (a2dp_pcm (a2dp t)) = BA_TRANSPORT_PCM_MODE_SOURCE
    /\ pcm_th (a2dp_pcm_bc (a2dp t)) = Some slot_enc
    /\ pcm_mode (a2dp_pcm_bc (a2dp t)) = BA_TRANSPORT_PCM_MODE_SINK
    /\ pcm_ba_dbus_path (a2dp_pcm (a2dp t)) <> pcm_ba_dbus_path (a2dp_pcm_bc (a2dp t)).
Proof.
  destruct (new_a2dp_fields silent_daemon sample_device a2dp_sink_sbc ":1.5" "/a2dp"
              0 sbc_configuration empty_world
              (outcome_world empty_world
                 (ba_transport_new_a2dp silent_daemon sample_device a2dp_sink_sbc ":1.5" "/a2dp"
                    0 sbc_configuration empty_world))
              1%positive
              (outcome_events
                 (ba_transport_new_a2dp silent_daemon sample_device a2dp_sink_sbc ":1.5" "/a2dp"
                    0 sbc_configuration empty_world)))
    as (t & _ & Ht & _ & _ & _ & _ & _ & _ & _ & _ & _ & Hth & Hthb & Hm & Hmb & _ & Hpath).
  - vm_compute. reflexivity.
  - exists t. repeat split; assumption.
Defined.
